(** * WorkLog: attendance time accounting and request approval workflows

    A shallow embedding of the time-accounting and approval core of the
    WorkLog application (controllers/attendance_controller.py,
    controllers/leave_controller.py, controllers/overtime_controller.py,
    controllers/staff_dashboard_controller.py, models/*.py), followed by the
    properties established about it.

    Python values are modelled as the code has them: [datetime.time],
    [timedelta], [datetime] and [str] arguments are the constructors of
    [pyval]; Python floats are IEEE binary64 numbers ([PrimFloat.float]);
    exceptions are the [Raise] results of a small error monad; the MySQL
    store is an explicit state threaded through every call. *)

From Stdlib Require Import ZArith List String Ascii Bool Lia Floats.
From Stdlib Require Import DecimalString.
Import ListNotations.
Open Scope string_scope.
Open Scope Z_scope.

Set Implicit Arguments.

(* ================================================================== *)
(** ** Exceptions *)

Inductive exn : Type := ValueError | TypeError | OverflowError.

Inductive result (A : Type) : Type :=
| Ok (a : A)
| Raise (e : exn).
Arguments Ok {A} a.
Arguments Raise {A} e.

Definition bind {A B : Type} (c : result A) (k : A -> result B) : result B :=
  match c with
  | Ok a => k a
  | Raise e => Raise e
  end.

Notation "x <- c ;; k" := (bind c (fun x => k))
  (at level 61, c at next level, right associativity).

(* ================================================================== *)
(** ** Python numbers

    [int] values are unbounded integers, [float] values are binary64.
    Only the operations the controllers use are modelled. *)

Inductive num : Type :=
| NInt (z : Z)
| NFloat (f : float).

(** Conversion of an [int] to a [float], for [|z| < 2^63]; exact for
    [|z| < 2^53], which covers every span between two [datetime] values
    less than 285 years apart when counted in microseconds. *)
Definition float_of_Z (z : Z) : float :=
  if z <? 0 then PrimFloat.opp (PrimFloat.of_uint63 (Uint63.of_Z (- z)))
  else PrimFloat.of_uint63 (Uint63.of_Z z).

Definition to_float (x : num) : float :=
  match x with
  | NInt z => float_of_Z z
  | NFloat f => f
  end.

(** [x - y]: two ints subtract exactly, a float operand promotes the other. *)
Definition num_sub (x y : num) : num :=
  match x, y with
  | NInt a, NInt b => NInt (a - b)
  | _, _ => NFloat (PrimFloat.sub (to_float x) (to_float y))
  end.

(** [x >= y], [x < y] and [x == y]; an int and a float are compared by
    value (the ints compared with floats here are 0 and 8). *)
Definition num_ge (x y : num) : bool :=
  match x, y with
  | NInt a, NInt b => b <=? a
  | _, _ => PrimFloat.leb (to_float y) (to_float x)
  end.

Definition num_lt (x y : num) : bool :=
  match x, y with
  | NInt a, NInt b => a <? b
  | _, _ => PrimFloat.ltb (to_float x) (to_float y)
  end.

Definition num_eqb (x y : num) : bool :=
  match x, y with
  | NInt a, NInt b => a =? b
  | _, _ => PrimFloat.eqb (to_float x) (to_float y)
  end.

(** [max(a, b)]: Python returns [b] only when [b > a]. *)
Definition num_max (a b : num) : num := if num_lt a b then b else a.

(** Quotient [a / b] ([0 < b]) rounded to the nearest integer, ties to the
    even neighbour. *)
Definition round_half_even (a b : Z) : Z :=
  let q := a / b in
  match (2 * (a mod b)) ?= b with
  | Lt => q
  | Gt => q + 1
  | Eq => if Z.even q then q else q + 1
  end.

(** The integer nearest to [|x| * 100] for a finite float with mantissa [m]
    and exponent [e], computed on the exact binary value. *)
Definition hundredths (m : positive) (e : Z) : Z :=
  if 0 <=? e then Z.pos m * 100 * 2 ^ e
  else round_half_even (Z.pos m * 100) (2 ^ (- e)).

(** [round(x, 2)] on a float: CPython prints the exact binary value with
    two decimals (correctly rounded, ties to even) and reads the decimal
    back as the nearest double; zeros, infinities and NaN are returned
    unchanged.  From [2^46] on ([e >= -6]) consecutive doubles are more
    than 0.01 apart and the nearest double is [x] itself; below, the
    number of hundredths is under [2^53] and its quotient by 100 is that
    nearest double. *)
Definition float_round2 (x : float) : float :=
  match Prim2SF x with
  | S754_finite s m e =>
      if -6 <=? e then x
      else
        let r :=
          PrimFloat.div (float_of_Z (hundredths m e)) (float_of_Z 100) in
        if s then PrimFloat.opp r else r
  | _ => x
  end.

(** [round(x, 2)]: an int is returned as it is. *)
Definition round2 (x : num) : num :=
  match x with
  | NInt z => NInt z
  | NFloat f => NFloat (float_round2 f)
  end.

(** [int(x)] on a float: truncation toward zero; NaN and the infinities
    cannot be converted. *)
Definition int_of_float (x : float) : result Z :=
  match Prim2SF x with
  | S754_zero _ => Ok 0
  | S754_finite s m e =>
      let a := if 0 <=? e then Z.pos m * 2 ^ e else Z.pos m / 2 ^ (- e) in
      Ok (if s then - a else a)
  | S754_infinity _ => Raise OverflowError
  | S754_nan => Raise ValueError
  end.

(** Truth value of a number in a condition: zero is false. *)
Definition num_truthy (x : num) : bool :=
  match x with
  | NInt z => negb (z =? 0)
  | NFloat f => negb (PrimFloat.eqb f 0%float)
  end.

(* ================================================================== *)
(** ** Dates and times of the [datetime] module *)

(** A [date] is its proleptic Gregorian ordinal ([date.toordinal()]). *)
Definition date := Z.

(** [date.weekday()]: Monday is 0, Sunday is 6. *)
Definition weekday (d : date) : Z := (d + 6) mod 7.

(** [datetime.time] (naive). *)
Record time : Type := mk_time
  { hour : Z; minute : Z; second : Z; microsecond : Z }.

(** [time(h, m, s)] validates its fields. *)
Definition time_type (h m s : Z) : result time :=
  if (0 <=? h) && (h <=? 23) && (0 <=? m) && (m <=? 59)
     && (0 <=? s) && (s <=? 59)
  then Ok (mk_time h m s 0)
  else Raise ValueError.

(** Microseconds since midnight; naive times compare by this key. *)
Definition time_key (t : time) : Z :=
  ((hour t * 60 + minute t) * 60 + second t) * 1000000 + microsecond t.

Definition time_lt (a b : time) : bool := time_key a <? time_key b.
Definition time_gt (a b : time) : bool := time_key b <? time_key a.

Definition usec_per_day : Z := 86400000000.

(** The time of day [us] microseconds after midnight, [0 <= us < 24h]. *)
Definition time_of_key (us : Z) : time :=
  mk_time (us / 3600000000) ((us / 60000000) mod 60)
          ((us / 1000000) mod 60) (us mod 1000000).

(** [datetime] (naive): a date and a time of day. *)
Record datetime : Type := mk_datetime { dt_date : date; dt_time : time }.

(** [datetime.combine(d, t)]. *)
Definition combine (d : date) (t : time) : datetime := mk_datetime d t.

(** A [timedelta] is its total number of microseconds. *)
Definition timedelta := Z.

Definition datetime_key (x : datetime) : Z :=
  dt_date x * usec_per_day + time_key (dt_time x).

(** [a - b] on datetimes. *)
Definition datetime_sub (a b : datetime) : timedelta :=
  datetime_key a - datetime_key b.

(** [dt + delta]. *)
Definition datetime_add (x : datetime) (delta : timedelta) : datetime :=
  let k := datetime_key x + delta in
  mk_datetime (k / usec_per_day) (time_of_key (k mod usec_per_day)).

Definition timedelta_minutes (n : Z) : timedelta := n * 60000000.

(** The whole microseconds added for the fraction [leftover] (below one in
    magnitude) that [timedelta] has accumulated on top of [x] whole
    microseconds: to the nearest, a half going to the side that makes the
    total even. *)
Definition round_leftover (leftover : float) (x : Z) : Z :=
  let a := PrimFloat.abs leftover in
  let toward := if PrimFloat.ltb leftover 0%float then -1 else 1 in
  if PrimFloat.ltb a 0.5%float then 0
  else if PrimFloat.ltb 0.5%float a then toward
  else if PrimFloat.eqb a 0.5%float then (if Z.odd x then toward else 0)
  else 0.

(** The largest magnitude of a [timedelta], in days. *)
Definition max_delta_days : Z := 999999999.

(** [timedelta(hours=x)] for a float [x] (CPython): the integral part of
    [x] is converted exactly, the fractional part is multiplied by the
    microseconds of an hour in floating point, and what is left below one
    microsecond is rounded. *)
Definition timedelta_hours (x : float) : result timedelta :=
  intpart <- int_of_float x ;;
  if 24 * (max_delta_days + 1) <=? Z.abs intpart then Raise OverflowError
  else
    let fracpart := PrimFloat.sub x (float_of_Z intpart) in
    let sum := intpart * 3600000000 in
    us <-
      (if PrimFloat.eqb fracpart 0%float then Ok sum
       else
         let dnum := PrimFloat.mul (float_of_Z 3600000000) fracpart in
         intpart2 <- int_of_float dnum ;;
         let leftover := PrimFloat.sub dnum (float_of_Z intpart2) in
         let y := sum + intpart2 in
         Ok (y + round_leftover leftover y)) ;;
    if Z.abs (us / 86400000000) <=? max_delta_days then Ok us
    else Raise OverflowError.

(** [delta.total_seconds()]: true division of two ints. *)
Definition total_seconds (delta : timedelta) : float :=
  PrimFloat.div (float_of_Z delta) (float_of_Z 1000000).

(** [int(delta.total_seconds())]: truncation toward zero.  The float in
    between is exact enough for every span below 24 hours; for longer ones
    the callers raise [ValueError] whatever its last digit. *)
Definition int_total_seconds (delta : timedelta) : Z :=
  Z.quot delta 1000000.


(* ================================================================== *)
(** ** Strings: [strptime] and [strftime] for the formats used *)

Definition digit_of (c : ascii) : option Z :=
  let n := Z.of_N (N_of_ascii c) in
  if (48 <=? n) && (n <=? 57) then Some (n - 48) else None.

(** One numeric field of one or two decimal digits. *)
Definition field_of (cs : list ascii) : option Z :=
  match cs with
  | [a] => digit_of a
  | [a; b] =>
      match digit_of a, digit_of b with
      | Some x, Some y => Some (10 * x + y)
      | _, _ => None
      end
  | _ => None
  end.

(** The fields of [s] between colons, with [cur] the reversed characters
    of the field being read. *)
Fixpoint split_colon (s : string) (cur : list ascii) : list (list ascii) :=
  match s with
  | EmptyString => [rev cur]
  | String c rest =>
      if Ascii.eqb c ":"%char then rev cur :: split_colon rest []
      else split_colon rest (c :: cur)
  end.

(** [datetime.strptime(s, '%H:%M:%S').time()]: each directive accepts one
    or two digits within its range (the seconds directive also matches 60
    and 61, which the [datetime] constructor then refuses); anything else
    is a [ValueError]. *)
Definition strptime_HMS (s : string) : result time :=
  match split_colon s [] with
  | [fh; fm; fs] =>
      match field_of fh, field_of fm, field_of fs with
      | Some h, Some m, Some sec => time_type h m sec
      | _, _, _ => Raise ValueError
      end
  | _ => Raise ValueError
  end.

Definition digit_char (d : Z) : ascii := ascii_of_N (Z.to_N (48 + d)).

(** A number below 100 printed with two digits. *)
Definition two_digits (n : Z) : string :=
  String (digit_char (n / 10)) (String (digit_char (n mod 10)) EmptyString).

(** [t.strftime('%H:%M:%S')]. *)
Definition strftime_HMS (t : time) : string :=
  two_digits (hour t) ++ ":" ++ two_digits (minute t) ++ ":"
  ++ two_digits (second t).

(** [t.strftime('%I:%M %p')]: the 12-hour clock. *)
Definition strftime_IMp (t : time) : string :=
  let h12 := if hour t mod 12 =? 0 then 12 else hour t mod 12 in
  two_digits h12 ++ ":" ++ two_digits (minute t) ++ " "
  ++ (if hour t <? 12 then "AM" else "PM").

(** [str(n)] for an int. *)
Definition str_of_Z (n : Z) : string := NilZero.string_of_int (Z.to_int n).

(** The line feed of the message literals. *)
Definition nl : string := String (ascii_of_nat 10) EmptyString.

(* ================================================================== *)
(** ** Time values as the controllers receive them

    A time column read from MySQL arrives as a [timedelta]; the current
    time is passed as a ['%H:%M:%S'] string; [datetime.time] and
    [datetime] objects are accepted as well, and an unset column is
    [None]. *)

Inductive pyval : Type :=
| PNone
| PStr (s : string)
| PTimedelta (delta : timedelta)
| PTime (t : time)
| PDatetime (x : datetime).

(** Truth value in a condition: [None], the empty string and the zero
    [timedelta] are false. *)
Definition truthy (v : pyval) : bool :=
  match v with
  | PNone => false
  | PStr s => negb (String.eqb s "")
  | PTimedelta delta => negb (delta =? 0)
  | PTime _ => true
  | PDatetime _ => true
  end.

(** The conversion repeated at every call site for a [timedelta]:
    [time_type(ts // 3600, (ts % 3600) // 60, ts % 60)] with
    [ts = int(val.total_seconds())]. *)
Definition time_of_timedelta (delta : timedelta) : result time :=
  let ts := int_total_seconds delta in
  time_type (ts / 3600) ((ts mod 3600) / 60) (ts mod 60).

(* ================================================================== *)
(** ** Models: row types and SQL statements

    Each model module gives the columns the controllers read or write
    (server-maintained [created_at]/[updated_at]/[requested_at] stamps and
    display-only columns are left out) and names its SQL constants.
    [query R] lists the SELECT statements returning rows of type [R];
    [stmt] lists the INSERT and UPDATE statements. *)

Inductive request_status : Type := Pending | Approved | Rejected.

Definition status_eqb (a b : request_status) : bool :=
  match a, b with
  | Pending, Pending | Approved, Approved | Rejected, Rejected => true
  | _, _ => false
  end.

(** [status IN ('Approved', 'Rejected')]. *)
Definition reviewed (s : request_status) : bool :=
  match s with
  | Pending => false
  | Approved | Rejected => true
  end.

(** The single-column row of a counting query ([... as count]). *)
Record count_row : Type := mk_count { count : Z }.

Module EmployeeModel.
Record row : Type := mk_row
  { id : Z;
    leave_credits : option Z;
    shift_id : option Z }.
End EmployeeModel.

Module ShiftModel.
Record row : Type := mk_row
  { id : Z;
    shift_name : option string;
    start_time : pyval;
    end_time : pyval;
    grace_period_mins : option Z;
    min_hours_before_lunch : option num;
    is_default : bool;
    is_active : bool }.

Inductive query : Type -> Type :=
| Q_SELECT_DEFAULT : query row
| Q_SELECT_FIRST_ACTIVE : query row
| Q_SELECT_EMPLOYEE_SHIFT (employee_id : Z) : query row.
End ShiftModel.

Module AttendanceModel.
Record row : Type := mk_row
  { id : Z;
    employee_id : Z;
    date_ : date;
    time_in : pyval;
    time_out : pyval;
    lunch_start : pyval;
    lunch_end : pyval;
    total_time : option num;
    lunch_duration : option num;
    paid_hours : option num;
    overtime_hours : option num;
    status : option string }.

Definition STANDARD_WORKING_HOURS : num := NInt 8.

Inductive query : Type -> Type :=
| Q_GET_TODAY (employee_id : Z) (d : date) : query row.

Inductive stmt : Type :=
| Q_CHECK_IN (employee_id : Z) (d : date) (time_in : string)
| Q_START_LUNCH (lunch_start : string) (employee_id : Z) (d : date)
| Q_END_LUNCH (lunch_end : string) (employee_id : Z) (d : date)
| Q_CHECK_OUT (time_out : string)
    (total_time lunch_duration paid_hours overtime_hours : num)
    (status : string) (employee_id : Z) (d : date).
End AttendanceModel.

Module LeaveModel.
Record row : Type := mk_row
  { id : Z;
    employee_id : Z;
    leave_type : string;
    start_date : date;
    end_date : date;
    days_count : option Z;
    reason : string;
    evidence_path : option string;
    status : request_status;
    reviewed_by : option Z;
    reviewed_at : option datetime;
    remarks : option string;
    employee_notified : bool }.

(** The row of [Q_SELECT_EMPLOYEE_CREDITS]. *)
Record credits_row : Type := mk_credits { leave_credits : option Z }.

Inductive query : Type -> Type :=
| Q_SELECT_BY_ID (id : Z) : query row
| Q_SELECT_EMPLOYEE_CREDITS (employee_id : Z) : query credits_row
| Q_SELECT_UNNOTIFIED (employee_id : Z) : query row.

(** [Q_APPROVE] and [Q_REJECT] stamp [reviewed_at = NOW()]; the value the
    server clock gives is the statement's [now]. *)
Inductive stmt : Type :=
| Q_INSERT (employee_id : Z) (leave_type : string)
    (start_date end_date : date) (days_count : option Z)
    (reason : string) (evidence_path : option string)
| Q_APPROVE (now : datetime) (reviewed_by : Z) (remarks : option string)
    (id : Z)
| Q_REJECT (now : datetime) (reviewed_by : Z) (remarks : option string)
    (id : Z)
| Q_DEDUCT_CREDITS (days : option Z) (employee_id : Z)
| Q_MARK_NOTIFIED (id : Z)
| Q_MARK_ALL_NOTIFIED (employee_id : Z).
End LeaveModel.

Module OvertimeModel.
Record row : Type := mk_row
  { id : Z;
    employee_id : Z;
    request_date : date;
    hours_requested : num;
    reason : string;
    status : request_status;
    reviewed_by : option Z;
    reviewed_at : option datetime;
    remarks : option string;
    employee_notified : bool }.

Inductive query : Type -> Type :=
| Q_HAS_PENDING (employee_id : Z) (request_date : date) : query count_row
| Q_SELECT_APPROVED_FOR_DATE (employee_id : Z) (request_date : date)
  : query row
| Q_SELECT_UNNOTIFIED (employee_id : Z) : query row.

Inductive stmt : Type :=
| Q_INSERT (employee_id : Z) (request_date : date)
    (hours_requested : num) (reason : string)
| Q_APPROVE (reviewed_by : Z) (reviewed_at : datetime)
    (remarks : option string) (id : Z)
| Q_REJECT (reviewed_by : Z) (reviewed_at : datetime)
    (remarks : option string) (id : Z)
| Q_MARK_NOTIFIED (id : Z)
| Q_MARK_ALL_NOTIFIED (employee_id : Z).
End OvertimeModel.

Module LateConsiderationModel.
Record row : Type := mk_row
  { id : Z;
    employee_id : Z;
    attendance_date : date;
    reason : string;
    evidence_path : option string;
    status : request_status;
    reviewed_by : option Z;
    reviewed_at : option datetime;
    remarks : option string;
    employee_notified : bool }.

Inductive query : Type -> Type :=
| Q_SELECT_BY_EMPLOYEE (employee_id : Z) : query row
| Q_HAS_PENDING (employee_id : Z) (attendance_date : date)
  : query count_row
| Q_SELECT_UNNOTIFIED (employee_id : Z) : query row.

Inductive stmt : Type :=
| Q_INSERT (employee_id : Z) (attendance_date : date)
    (reason : string) (evidence_path : option string)
| Q_APPROVE (reviewed_by : Z) (reviewed_at : datetime)
    (remarks : option string) (id : Z)
| Q_REJECT (reviewed_by : Z) (reviewed_at : datetime)
    (remarks : option string) (id : Z)
| Q_MARK_ALL_NOTIFIED (employee_id : Z).
End LateConsiderationModel.

(** A SELECT of any model, and a statement of any model. *)
Inductive select (R : Type) : Type :=
| ShiftSelect (q : ShiftModel.query R)
| AttendanceSelect (q : AttendanceModel.query R)
| LeaveSelect (q : LeaveModel.query R)
| OvertimeSelect (q : OvertimeModel.query R)
| LateSelect (q : LateConsiderationModel.query R).

Inductive statement : Type :=
| AttendanceStmt (s : AttendanceModel.stmt)
| LeaveStmt (s : LeaveModel.stmt)
| OvertimeStmt (s : OvertimeModel.stmt)
| LateStmt (s : LateConsiderationModel.stmt).

Coercion ShiftSelect : ShiftModel.query >-> select.
Coercion AttendanceSelect : AttendanceModel.query >-> select.
Coercion LeaveSelect : LeaveModel.query >-> select.
Coercion OvertimeSelect : OvertimeModel.query >-> select.
Coercion LateSelect : LateConsiderationModel.query >-> select.
Coercion AttendanceStmt : AttendanceModel.stmt >-> statement.
Coercion LeaveStmt : LeaveModel.stmt >-> statement.
Coercion OvertimeStmt : OvertimeModel.stmt >-> statement.
Coercion LateStmt : LateConsiderationModel.stmt >-> statement.

(* ================================================================== *)
(** ** The store and the meaning of the SQL constants *)

Record Tables : Type := mk_tables
  { employees : list EmployeeModel.row;
    shifts : list ShiftModel.row;
    attendance : list AttendanceModel.row;
    leave_requests : list LeaveModel.row;
    overtime_requests : list OvertimeModel.row;
    late_considerations : list LateConsiderationModel.row;
    last_insert_id : Z }.

Definition opt_Z_eqb (a : option Z) (b : Z) : bool :=
  match a with
  | Some x => x =? b
  | None => false
  end.

(** The value stored in a TIME column for an ['HH:MM:SS'] parameter, as the
    connector hands it back on a later read.  The controllers only pass
    strings produced by [strftime]; any other string is stored as NULL. *)
Definition sql_time (s : string) : pyval :=
  match strptime_HMS s with
  | Ok t => PTimedelta (time_key t)
  | Raise _ => PNone
  end.

(** AUTO_INCREMENT: an id above every id of the table. *)
Definition next_id (ids : list Z) : Z := 1 + fold_right Z.max 0 ids.

Definition run_shift_query {R : Type} (q : ShiftModel.query R) (t : Tables)
  : list R :=
  match q in ShiftModel.query R return list R with
  | ShiftModel.Q_SELECT_DEFAULT =>
      firstn 1 (filter (fun s => ShiftModel.is_default s && ShiftModel.is_active s)
                       (shifts t))
  | ShiftModel.Q_SELECT_FIRST_ACTIVE =>
      firstn 1 (filter ShiftModel.is_active (shifts t))
  | ShiftModel.Q_SELECT_EMPLOYEE_SHIFT e =>
      flat_map
        (fun s =>
           flat_map
             (fun emp =>
                if opt_Z_eqb (EmployeeModel.shift_id emp) (ShiftModel.id s)
                   && (EmployeeModel.id emp =? e) && ShiftModel.is_active s
                then [s] else [])
             (employees t))
        (shifts t)
  end.

Definition attendance_of (e : Z) (d : date) (r : AttendanceModel.row) : bool :=
  (AttendanceModel.employee_id r =? e) && (AttendanceModel.date_ r =? d).

Definition run_attendance_query {R : Type} (q : AttendanceModel.query R)
  (t : Tables) : list R :=
  match q in AttendanceModel.query R return list R with
  | AttendanceModel.Q_GET_TODAY e d => filter (attendance_of e d) (attendance t)
  end.

Definition run_leave_query {R : Type} (q : LeaveModel.query R) (t : Tables)
  : list R :=
  match q in LeaveModel.query R return list R with
  | LeaveModel.Q_SELECT_BY_ID i =>
      filter (fun r => LeaveModel.id r =? i) (leave_requests t)
  | LeaveModel.Q_SELECT_EMPLOYEE_CREDITS e =>
      map (fun emp => LeaveModel.mk_credits (EmployeeModel.leave_credits emp))
          (filter (fun emp => EmployeeModel.id emp =? e) (employees t))
  | LeaveModel.Q_SELECT_UNNOTIFIED e =>
      filter (fun r => (LeaveModel.employee_id r =? e)
                       && reviewed (LeaveModel.status r)
                       && negb (LeaveModel.employee_notified r))
             (leave_requests t)
  end.

Definition overtime_pending_for (e : Z) (d : date) (r : OvertimeModel.row)
  : bool :=
  (OvertimeModel.employee_id r =? e) && (OvertimeModel.request_date r =? d)
  && status_eqb (OvertimeModel.status r) Pending.

Definition run_overtime_query {R : Type} (q : OvertimeModel.query R)
  (t : Tables) : list R :=
  match q in OvertimeModel.query R return list R with
  | OvertimeModel.Q_HAS_PENDING e d =>
      [mk_count (Z.of_nat (List.length (filter (overtime_pending_for e d)
                                          (overtime_requests t))))]
  | OvertimeModel.Q_SELECT_APPROVED_FOR_DATE e d =>
      filter (fun r => (OvertimeModel.employee_id r =? e)
                       && (OvertimeModel.request_date r =? d)
                       && status_eqb (OvertimeModel.status r) Approved)
             (overtime_requests t)
  | OvertimeModel.Q_SELECT_UNNOTIFIED e =>
      filter (fun r => (OvertimeModel.employee_id r =? e)
                       && reviewed (OvertimeModel.status r)
                       && negb (OvertimeModel.employee_notified r))
             (overtime_requests t)
  end.

Definition late_pending_for (e : Z) (d : date)
  (r : LateConsiderationModel.row) : bool :=
  (LateConsiderationModel.employee_id r =? e)
  && (LateConsiderationModel.attendance_date r =? d)
  && status_eqb (LateConsiderationModel.status r) Pending.

(** [Q_SELECT_BY_EMPLOYEE] left-joins the reviewer's employee row for a
    display-only [reviewer_name]: a request comes once when no employee row
    has the id in [reviewed_by], and once per such row otherwise. *)
Definition run_late_query {R : Type} (q : LateConsiderationModel.query R)
  (t : Tables) : list R :=
  match q in LateConsiderationModel.query R return list R with
  | LateConsiderationModel.Q_SELECT_BY_EMPLOYEE e =>
      flat_map
        (fun lc =>
           if LateConsiderationModel.employee_id lc =? e
           then
             match filter
                     (fun r => opt_Z_eqb (LateConsiderationModel.reviewed_by lc)
                                 (EmployeeModel.id r))
                     (employees t) with
             | [] => [lc]
             | reviewers => map (fun _ => lc) reviewers
             end
           else [])
        (late_considerations t)
  | LateConsiderationModel.Q_HAS_PENDING e d =>
      [mk_count (Z.of_nat (List.length (filter (late_pending_for e d)
                                          (late_considerations t))))]
  | LateConsiderationModel.Q_SELECT_UNNOTIFIED e =>
      filter (fun r => (LateConsiderationModel.employee_id r =? e)
                       && reviewed (LateConsiderationModel.status r)
                       && negb (LateConsiderationModel.employee_notified r))
             (late_considerations t)
  end.

(** The rows a SELECT returns, in table order (the ORDER BY clauses of the
    listing queries are not modelled; no modelled caller depends on
    them). *)
Definition run_select {R : Type} (q : select R) (t : Tables) : list R :=
  match q with
  | ShiftSelect q => run_shift_query q t
  | AttendanceSelect q => run_attendance_query q t
  | LeaveSelect q => run_leave_query q t
  | OvertimeSelect q => run_overtime_query q t
  | LateSelect q => run_late_query q t
  end.

(** *** UPDATE and INSERT *)

Definition set_attendance (t : Tables) (rows : list AttendanceModel.row)
  : Tables :=
  mk_tables (employees t) (shifts t) rows (leave_requests t)
            (overtime_requests t) (late_considerations t) (last_insert_id t).

Definition set_employees (t : Tables) (rows : list EmployeeModel.row)
  : Tables :=
  mk_tables rows (shifts t) (attendance t) (leave_requests t)
            (overtime_requests t) (late_considerations t) (last_insert_id t).

Definition set_leave_requests (t : Tables) (rows : list LeaveModel.row)
  : Tables :=
  mk_tables (employees t) (shifts t) (attendance t) rows
            (overtime_requests t) (late_considerations t) (last_insert_id t).

Definition set_overtime_requests (t : Tables)
  (rows : list OvertimeModel.row) : Tables :=
  mk_tables (employees t) (shifts t) (attendance t) (leave_requests t)
            rows (late_considerations t) (last_insert_id t).

Definition set_late_considerations (t : Tables)
  (rows : list LateConsiderationModel.row) : Tables :=
  mk_tables (employees t) (shifts t) (attendance t) (leave_requests t)
            (overtime_requests t) rows (last_insert_id t).

Definition set_last_insert_id (t : Tables) (i : Z) : Tables :=
  mk_tables (employees t) (shifts t) (attendance t) (leave_requests t)
            (overtime_requests t) (late_considerations t) i.

(** [UPDATE ... SET ... WHERE cond]: the rows satisfying [cond] are
    replaced by [upd row], the others are kept. *)
Definition update_where {A : Type} (cond : A -> bool) (upd : A -> A)
  (rows : list A) : list A :=
  map (fun r => if cond r then upd r else r) rows.

(** [SET lunch_start = ls] and [SET lunch_end = le] on one row. *)
Definition with_lunch_start (ls : pyval) (r : AttendanceModel.row)
  : AttendanceModel.row :=
  AttendanceModel.mk_row
    (AttendanceModel.id r) (AttendanceModel.employee_id r)
    (AttendanceModel.date_ r) (AttendanceModel.time_in r)
    (AttendanceModel.time_out r) ls (AttendanceModel.lunch_end r)
    (AttendanceModel.total_time r) (AttendanceModel.lunch_duration r)
    (AttendanceModel.paid_hours r) (AttendanceModel.overtime_hours r)
    (AttendanceModel.status r).

Definition with_lunch_end (le : pyval) (r : AttendanceModel.row)
  : AttendanceModel.row :=
  AttendanceModel.mk_row
    (AttendanceModel.id r) (AttendanceModel.employee_id r)
    (AttendanceModel.date_ r) (AttendanceModel.time_in r)
    (AttendanceModel.time_out r) (AttendanceModel.lunch_start r) le
    (AttendanceModel.total_time r) (AttendanceModel.lunch_duration r)
    (AttendanceModel.paid_hours r) (AttendanceModel.overtime_hours r)
    (AttendanceModel.status r).

(** The hour figures of [Q_CHECK_OUT] are kept as they are passed; the
    rounding of the DECIMAL columns is not modelled, no modelled
    controller reads them back. *)
Definition run_attendance_stmt (s : AttendanceModel.stmt) (t : Tables)
  : Tables :=
  match s with
  | AttendanceModel.Q_CHECK_IN e d tin =>
      let i := next_id (map AttendanceModel.id (attendance t)) in
      set_last_insert_id
        (set_attendance t
           (attendance t ++
            [AttendanceModel.mk_row i e d (sql_time tin) PNone PNone PNone
               None None None None (Some "Incomplete")]))
        i
  | AttendanceModel.Q_START_LUNCH ls e d =>
      set_attendance t
        (update_where (attendance_of e d) (with_lunch_start (sql_time ls))
           (attendance t))
  | AttendanceModel.Q_END_LUNCH le e d =>
      set_attendance t
        (update_where (attendance_of e d) (with_lunch_end (sql_time le))
           (attendance t))
  | AttendanceModel.Q_CHECK_OUT tout total lunch paid ot st e d =>
      set_attendance t
        (update_where (attendance_of e d)
           (fun r =>
              AttendanceModel.mk_row
                (AttendanceModel.id r) (AttendanceModel.employee_id r)
                (AttendanceModel.date_ r) (AttendanceModel.time_in r)
                (sql_time tout) (AttendanceModel.lunch_start r)
                (AttendanceModel.lunch_end r) (Some total) (Some lunch)
                (Some paid) (Some ot) (Some st))
           (attendance t))
  end.

(** [SET status = st, reviewed_by = by, reviewed_at = at, remarks = rem]. *)
Definition review_leave (st : request_status) (rb : Z) (at_ : datetime)
  (rem : option string) (r : LeaveModel.row) : LeaveModel.row :=
  LeaveModel.mk_row
    (LeaveModel.id r) (LeaveModel.employee_id r) (LeaveModel.leave_type r)
    (LeaveModel.start_date r) (LeaveModel.end_date r)
    (LeaveModel.days_count r) (LeaveModel.reason r)
    (LeaveModel.evidence_path r) st (Some rb) (Some at_) rem
    (LeaveModel.employee_notified r).

Definition notify_leave (r : LeaveModel.row) : LeaveModel.row :=
  LeaveModel.mk_row
    (LeaveModel.id r) (LeaveModel.employee_id r) (LeaveModel.leave_type r)
    (LeaveModel.start_date r) (LeaveModel.end_date r)
    (LeaveModel.days_count r) (LeaveModel.reason r)
    (LeaveModel.evidence_path r) (LeaveModel.status r)
    (LeaveModel.reviewed_by r) (LeaveModel.reviewed_at r)
    (LeaveModel.remarks r) true.

(** [leave_credits - days]; NULL operands give NULL. *)
Definition deduct (credits days : option Z) : option Z :=
  match credits, days with
  | Some c, Some d => Some (c - d)
  | _, _ => None
  end.

Definition run_leave_stmt (s : LeaveModel.stmt) (t : Tables) : Tables :=
  match s with
  | LeaveModel.Q_INSERT e ty sd ed days why ev =>
      let i := next_id (map LeaveModel.id (leave_requests t)) in
      set_last_insert_id
        (set_leave_requests t
           (leave_requests t ++
            [LeaveModel.mk_row i e ty sd ed days why ev Pending
               None None None false]))
        i
  | LeaveModel.Q_APPROVE now rb rem i =>
      set_leave_requests t
        (update_where (fun r => LeaveModel.id r =? i)
           (review_leave Approved rb now rem) (leave_requests t))
  | LeaveModel.Q_REJECT now rb rem i =>
      set_leave_requests t
        (update_where (fun r => LeaveModel.id r =? i)
           (review_leave Rejected rb now rem) (leave_requests t))
  | LeaveModel.Q_DEDUCT_CREDITS days e =>
      set_employees t
        (update_where (fun emp => EmployeeModel.id emp =? e)
           (fun emp =>
              EmployeeModel.mk_row (EmployeeModel.id emp)
                (deduct (EmployeeModel.leave_credits emp) days)
                (EmployeeModel.shift_id emp))
           (employees t))
  | LeaveModel.Q_MARK_NOTIFIED i =>
      set_leave_requests t
        (update_where (fun r => LeaveModel.id r =? i) notify_leave
           (leave_requests t))
  | LeaveModel.Q_MARK_ALL_NOTIFIED e =>
      set_leave_requests t
        (update_where
           (fun r => (LeaveModel.employee_id r =? e)
                     && reviewed (LeaveModel.status r)
                     && negb (LeaveModel.employee_notified r))
           notify_leave (leave_requests t))
  end.

Definition review_overtime (st : request_status) (rb : Z) (at_ : datetime)
  (rem : option string) (r : OvertimeModel.row) : OvertimeModel.row :=
  OvertimeModel.mk_row
    (OvertimeModel.id r) (OvertimeModel.employee_id r)
    (OvertimeModel.request_date r) (OvertimeModel.hours_requested r)
    (OvertimeModel.reason r) st (Some rb) (Some at_) rem
    (OvertimeModel.employee_notified r).

Definition notify_overtime (r : OvertimeModel.row) : OvertimeModel.row :=
  OvertimeModel.mk_row
    (OvertimeModel.id r) (OvertimeModel.employee_id r)
    (OvertimeModel.request_date r) (OvertimeModel.hours_requested r)
    (OvertimeModel.reason r) (OvertimeModel.status r)
    (OvertimeModel.reviewed_by r) (OvertimeModel.reviewed_at r)
    (OvertimeModel.remarks r) true.

(** [WHERE id = i AND status = 'Pending']. *)
Definition overtime_pending_id (i : Z) (r : OvertimeModel.row) : bool :=
  (OvertimeModel.id r =? i) && status_eqb (OvertimeModel.status r) Pending.

Definition run_overtime_stmt (s : OvertimeModel.stmt) (t : Tables)
  : Tables :=
  match s with
  | OvertimeModel.Q_INSERT e d hours why =>
      let i := next_id (map OvertimeModel.id (overtime_requests t)) in
      set_last_insert_id
        (set_overtime_requests t
           (overtime_requests t ++
            [OvertimeModel.mk_row i e d hours why Pending
               None None None false]))
        i
  | OvertimeModel.Q_APPROVE rb at_ rem i =>
      set_overtime_requests t
        (update_where (overtime_pending_id i)
           (review_overtime Approved rb at_ rem) (overtime_requests t))
  | OvertimeModel.Q_REJECT rb at_ rem i =>
      set_overtime_requests t
        (update_where (overtime_pending_id i)
           (review_overtime Rejected rb at_ rem) (overtime_requests t))
  | OvertimeModel.Q_MARK_NOTIFIED i =>
      set_overtime_requests t
        (update_where (fun r => OvertimeModel.id r =? i) notify_overtime
           (overtime_requests t))
  | OvertimeModel.Q_MARK_ALL_NOTIFIED e =>
      set_overtime_requests t
        (update_where
           (fun r => (OvertimeModel.employee_id r =? e)
                     && reviewed (OvertimeModel.status r)
                     && negb (OvertimeModel.employee_notified r))
           notify_overtime (overtime_requests t))
  end.

Definition review_late (st : request_status) (rb : Z) (at_ : datetime)
  (rem : option string) (r : LateConsiderationModel.row)
  : LateConsiderationModel.row :=
  LateConsiderationModel.mk_row
    (LateConsiderationModel.id r) (LateConsiderationModel.employee_id r)
    (LateConsiderationModel.attendance_date r)
    (LateConsiderationModel.reason r)
    (LateConsiderationModel.evidence_path r) st (Some rb) (Some at_) rem
    (LateConsiderationModel.employee_notified r).

Definition notify_late (r : LateConsiderationModel.row)
  : LateConsiderationModel.row :=
  LateConsiderationModel.mk_row
    (LateConsiderationModel.id r) (LateConsiderationModel.employee_id r)
    (LateConsiderationModel.attendance_date r)
    (LateConsiderationModel.reason r)
    (LateConsiderationModel.evidence_path r)
    (LateConsiderationModel.status r) (LateConsiderationModel.reviewed_by r)
    (LateConsiderationModel.reviewed_at r)
    (LateConsiderationModel.remarks r) true.

Definition late_pending_id (i : Z) (r : LateConsiderationModel.row) : bool :=
  (LateConsiderationModel.id r =? i)
  && status_eqb (LateConsiderationModel.status r) Pending.

Definition run_late_stmt (s : LateConsiderationModel.stmt) (t : Tables)
  : Tables :=
  match s with
  | LateConsiderationModel.Q_INSERT e d why ev =>
      let i := next_id (map LateConsiderationModel.id (late_considerations t)) in
      set_last_insert_id
        (set_late_considerations t
           (late_considerations t ++
            [LateConsiderationModel.mk_row i e d why ev Pending
               None None None false]))
        i
  | LateConsiderationModel.Q_APPROVE rb at_ rem i =>
      set_late_considerations t
        (update_where (late_pending_id i)
           (review_late Approved rb at_ rem) (late_considerations t))
  | LateConsiderationModel.Q_REJECT rb at_ rem i =>
      set_late_considerations t
        (update_where (late_pending_id i)
           (review_late Rejected rb at_ rem) (late_considerations t))
  | LateConsiderationModel.Q_MARK_ALL_NOTIFIED e =>
      set_late_considerations t
        (update_where
           (fun r => (LateConsiderationModel.employee_id r =? e)
                     && reviewed (LateConsiderationModel.status r)
                     && negb (LateConsiderationModel.employee_notified r))
           notify_late (late_considerations t))
  end.

Definition run_statement (s : statement) (t : Tables) : Tables :=
  match s with
  | AttendanceStmt s => run_attendance_stmt s t
  | LeaveStmt s => run_leave_stmt s t
  | OvertimeStmt s => run_overtime_stmt s t
  | LateStmt s => run_late_stmt s t
  end.

(* ================================================================== *)
(** ** models/database.py

    Every call can fail with a [mysql.connector.Error] (lost connection,
    constraint of the schema, unread result of the driver); which calls
    fail in which state is a parameter [db_error] of the whole
    development.  The schema itself is not part of the sources. *)

Inductive db_call : Type :=
| Fetch {R : Type} (q : select R)
| Execute (s : statement)
| LastInsertId.

Definition engine : Type := Tables -> db_call -> bool.

(** A server that never raises. *)
Definition no_error : engine := fun _ _ => false.

Module Database.
Section Db.
Variable db_error : engine.

(** Returns [True] if the statement ran, [False] if it raised. *)
Definition execute_query (s : statement) (t : Tables) : Tables * bool :=
  if db_error t (Execute s) then (t, false) else (run_statement s t, true).

(** The first row, or [None] when there is none or the call raised. *)
Definition fetch_one {R : Type} (q : select R) (t : Tables) : option R :=
  if db_error t (Fetch q) then None else hd_error (run_select q t).

(** All rows, or the empty list when the call raised. *)
Definition fetch_all {R : Type} (q : select R) (t : Tables) : list R :=
  if db_error t (Fetch q) then [] else run_select q t.

Definition get_last_insert_id (t : Tables) : option Z :=
  if db_error t LastInsertId then None else Some (last_insert_id t).
End Db.
End Database.

(* ================================================================== *)
(** ** controllers/attendance_controller.py *)

(** The [(flag, title, message, msg_type)] tuples the controller returns. *)
Definition outcome : Type := (bool * string * string * string)%type.

Definition allowed (o : outcome) : bool := fst (fst (fst o)).

(** The dict returned by [compute_paid_hours]. *)
Record hours_dict : Type := mk_hours
  { h_total_time : num; h_lunch_duration : num; h_paid_hours : num }.

(** [a < b] between two Python values: defined between two values of the
    same kind, a [TypeError] otherwise. *)
Definition py_lt (a b : pyval) : result bool :=
  match a, b with
  | PTime x, PTime y => Ok (time_lt x y)
  | PDatetime x, PDatetime y => Ok (datetime_key x <? datetime_key y)
  | PTimedelta x, PTimedelta y => Ok (x <? y)
  | PStr x, PStr y => Ok (String.ltb x y)
  | _, _ => Raise TypeError
  end.

Definition py_gt (a b : pyval) : result bool := py_lt b a.

(** [f"{x:.2f}"]. *)
Definition format_2f (x : num) : string :=
  match x with
  | NInt z => str_of_Z z ++ ".00"
  | NFloat f =>
      match Prim2SF f with
      | S754_zero s => (if s then "-" else "") ++ "0.00"
      | S754_infinity s => (if s then "-" else "") ++ "inf"
      | S754_nan => "nan"
      | S754_finite s m e =>
          let n := hundredths m e in
          (if s then "-" else "") ++ str_of_Z (n / 100) ++ "."
          ++ two_digits (n mod 100)
      end
  end.

(** [f"{x:.0f}"]. *)
Definition format_0f (x : float) : string :=
  match Prim2SF x with
  | S754_zero s => (if s then "-" else "") ++ "0"
  | S754_infinity s => (if s then "-" else "") ++ "inf"
  | S754_nan => "nan"
  | S754_finite s m e =>
      let n :=
        if 0 <=? e then Z.pos m * 2 ^ e
        else round_half_even (Z.pos m) (2 ^ (- e)) in
      (if s then "-" else "") ++ str_of_Z n
  end.

Module AttendanceController.

(** *** Pure computation methods (static) *)

(** The local [to_datetime] of [compute_paid_hours]. *)
Definition to_datetime (today : date) (value : pyval)
  : result (option datetime) :=
  match value with
  | PNone => Ok None
  | PDatetime x => Ok (Some x)
  | PStr s => t <- strptime_HMS s ;; Ok (Some (combine today t))
  | PTimedelta delta =>
      t <- time_of_timedelta delta ;; Ok (Some (combine today t))
  | PTime t => Ok (Some (combine today t))
  end.

(** [delta.total_seconds() / 3600]. *)
Definition hours_of (delta : timedelta) : num :=
  NFloat (PrimFloat.div (total_seconds delta) (float_of_Z 3600)).

Definition compute_paid_hours (today : date)
  (time_in time_out lunch_start lunch_end : pyval) : result hours_dict :=
  dt_in <- to_datetime today time_in ;;
  dt_out <- to_datetime today time_out ;;
  match dt_in, dt_out with
  | Some dt_in, Some dt_out =>
      let total_hours := hours_of (datetime_sub dt_out dt_in) in
      lunch_hours <-
        (if truthy lunch_start && truthy lunch_end then
           dt_lunch_start <- to_datetime today lunch_start ;;
           dt_lunch_end <- to_datetime today lunch_end ;;
           match dt_lunch_start, dt_lunch_end with
           | Some ls, Some le => Ok (hours_of (datetime_sub le ls))
           | _, _ => Raise TypeError
           end
         else Ok (NInt 0)) ;;
      let paid_hours := num_sub total_hours lunch_hours in
      Ok (mk_hours (round2 total_hours) (round2 lunch_hours)
                   (round2 paid_hours))
  | _, _ => Ok (mk_hours (NInt 0) (NInt 0) (NInt 0))
  end.

Definition determine_status (today : date) (time_in : pyval)
  (paid_hours : num) (shift_start_time : pyval) (grace_period_mins : Z)
  : result string :=
  check_in_time <-
    match time_in with
    | PDatetime x => Ok (PTime (dt_time x))
    | PTimedelta delta => t <- time_of_timedelta delta ;; Ok (PTime t)
    | v => Ok v
    end ;;
  shift_start <-
    match shift_start_time with
    | PTimedelta delta => t <- time_of_timedelta delta ;; Ok (PTime t)
    | PStr s => t <- strptime_HMS s ;; Ok (PTime t)
    | v => Ok v
    end ;;
  shift_start_dt <-
    match shift_start with
    | PTime t => Ok (combine today t)
    | _ => Raise TypeError
    end ;;
  let grace_end_dt :=
    datetime_add shift_start_dt (timedelta_minutes grace_period_mins) in
  let grace_end := dt_time grace_end_dt in
  late <- py_gt check_in_time (PTime grace_end) ;;
  let punctuality := if late then "Late" else "On Time" in
  let completeness :=
    if num_ge paid_hours AttendanceModel.STANDARD_WORKING_HOURS
    then "Complete" else "Undertime" in
  Ok (punctuality ++ ", " ++ completeness).

Section Controller.
Variable db_error : engine.
(** [self.employee_id] *)
Variable employee_id : Z.

(** *** Read operations; [now] is [datetime.now()] *)

Definition get_today_record (now : datetime) (db : Tables)
  : option AttendanceModel.row :=
  Database.fetch_one db_error
    (AttendanceModel.Q_GET_TODAY employee_id (dt_date now)) db.

Definition _get_employee_shift (db : Tables) : option ShiftModel.row :=
  match Database.fetch_one db_error
          (ShiftModel.Q_SELECT_EMPLOYEE_SHIFT employee_id) db with
  | Some shift => Some shift
  | None =>
      match Database.fetch_one db_error ShiftModel.Q_SELECT_DEFAULT db with
      | Some shift => Some shift
      | None =>
          Database.fetch_one db_error ShiftModel.Q_SELECT_FIRST_ACTIVE db
      end
  end.

(** *** Check-in *)

(** The local [to_time] of [can_check_in]. *)
Definition to_time (val : pyval) : result pyval :=
  match val with
  | PTimedelta delta => t <- time_of_timedelta delta ;; Ok (PTime t)
  | PStr s => t <- strptime_HMS s ;; Ok (PTime t)
  | v => Ok v
  end.

Definition opt_str (s : option string) : string :=
  match s with
  | Some x => x
  | None => "None"
  end.

(** The body of the [try] block: [Ok (Some refusal)] when the employee
    is outside the shift window, [Ok None] when inside. *)
Definition shift_window_check (shift : ShiftModel.row) (now : datetime)
  : result (option outcome) :=
  let shift_end := ShiftModel.end_time shift in
  let shift_start := ShiftModel.start_time shift in
  let shift_name := opt_str (ShiftModel.shift_name shift) in
  end_t <- to_time shift_end ;;
  start_t <- to_time shift_start ;;
  let current_t := PTime (dt_time now) in
  day_shift <- py_lt start_t end_t ;;
  outside <-
    (if day_shift then py_gt current_t end_t
     else
       after_end <- py_lt end_t current_t ;;
       if after_end then py_lt current_t start_t else Ok false) ;;
  if outside then
    match end_t, start_t with
    | PTime e, PTime s =>
        let end_fmt := strftime_IMp e in
        let start_fmt := strftime_IMp s in
        Ok (Some (false, "Outside Shift Schedule",
                  "Your shift (" ++ shift_name ++ ") is " ++ start_fmt
                  ++ " - " ++ end_fmt ++ "." ++ nl
                  ++ "Check-in is not allowed after your shift has ended.",
                  "warning"))
    | _, _ => Raise TypeError
    end
  else Ok None.

Definition can_check_in (now : datetime) (db : Tables) : outcome :=
  if weekday (dt_date now) =? 6 then
    (false, "Sunday - No Work Day",
     "Check-in is disabled on Sundays. Enjoy your rest day!", "warning")
  else
    match get_today_record now db with
    | Some _ =>
        (false, "Already Checked In",
         "You have already checked in today.", "warning")
    | None =>
        match _get_employee_shift db with
        | Some shift =>
            match shift_window_check shift now with
            | Ok (Some refusal) => refusal
            | Ok None => (true, "", "", "")
            | Raise _ => (true, "", "", "")
            end
        | None => (true, "", "", "")
        end
    end.

Definition check_in (now : datetime) (db : Tables) : Tables * outcome :=
  let params :=
    AttendanceModel.Q_CHECK_IN employee_id (dt_date now)
      (strftime_HMS (dt_time now)) in
  let (db', success) := Database.execute_query db_error params db in
  if success then
    (db', (true, "Check In Successful",
           "Checked in at " ++ strftime_IMp (dt_time now), "info"))
  else
    (db', (false, "Check In Failed",
           "Failed to record check-in. Please try again.", "error")).

(** *** Lunch *)

(** [float(shift.get('min_hours_before_lunch') or 3) if shift else 3.0];
    the DECIMAL column is given as the number [float] makes of it. *)
Definition min_hours_of (shift : option ShiftModel.row) : float :=
  match shift with
  | Some s =>
      match ShiftModel.min_hours_before_lunch s with
      | Some x => if num_truthy x then to_float x else float_of_Z 3
      | None => float_of_Z 3
      end
  | None => float_of_Z 3
  end.

(** A conversion of [time_in] or an unrepresentable [min_hours] raises out
    of the method. *)
Definition can_start_lunch (now : datetime) (db : Tables) : result outcome :=
  match get_today_record now db with
  | None =>
      Ok (false, "Not Checked In", "Please check in first.", "warning")
  | Some today_record =>
      if truthy (AttendanceModel.lunch_start today_record) then
        Ok (false, "Lunch Already Started", "Lunch already started.",
            "warning")
      else if truthy (AttendanceModel.time_out today_record) then
        Ok (false, "Already Checked Out", "Already checked out.", "warning")
      else
        let shift := _get_employee_shift db in
        let min_hours := min_hours_of shift in
        let time_in := AttendanceModel.time_in today_record in
        if truthy time_in then
          let today_date := dt_date now in
          dt_in <-
            match time_in with
            | PTimedelta delta =>
                t <- time_of_timedelta delta ;; Ok (combine today_date t)
            | PDatetime x => Ok x
            | PTime t => Ok (combine today_date t)
            | PStr _ | PNone => Raise TypeError
            end ;;
          delta <- timedelta_hours min_hours ;;
          let earliest_lunch := datetime_add dt_in delta in
          if datetime_key now <? datetime_key earliest_lunch then
            let remaining := datetime_sub earliest_lunch now in
            mins_left <-
              int_of_float (PrimFloat.div (total_seconds remaining)
                                          (float_of_Z 60)) ;;
            Ok (false, "Cannot Start Lunch Yet",
                "You need to work at least " ++ format_0f min_hours
                ++ " hours before lunch." ++ nl
                ++ "Earliest lunch: "
                ++ strftime_IMp (dt_time earliest_lunch) ++ nl
                ++ "(" ++ str_of_Z mins_left ++ " minutes remaining)",
                "warning")
          else Ok (true, "", "", "")
        else Ok (true, "", "", "")
  end.

Definition start_lunch (now : datetime) (db : Tables) : Tables * outcome :=
  let params :=
    AttendanceModel.Q_START_LUNCH (strftime_HMS (dt_time now))
      employee_id (dt_date now) in
  let (db', success) := Database.execute_query db_error params db in
  if success then
    (db', (true, "Lunch Started",
           "Lunch break started at " ++ strftime_IMp (dt_time now), "info"))
  else
    (db', (false, "Failed",
           "Failed to record lunch start. Please try again.", "error")).

Definition can_end_lunch (now : datetime) (db : Tables) : outcome :=
  match get_today_record now db with
  | None => (false, "Not Checked In", "Please check in first.", "warning")
  | Some today_record =>
      if negb (truthy (AttendanceModel.lunch_start today_record)) then
        (false, "Lunch Not Started",
         "Please start lunch first before ending it.", "warning")
      else if truthy (AttendanceModel.lunch_end today_record) then
        (false, "Lunch Already Ended",
         "You have already ended your lunch break.", "warning")
      else (true, "", "", "")
  end.

Definition end_lunch (now : datetime) (db : Tables) : Tables * outcome :=
  let params :=
    AttendanceModel.Q_END_LUNCH (strftime_HMS (dt_time now))
      employee_id (dt_date now) in
  let (db', success) := Database.execute_query db_error params db in
  if success then
    (db', (true, "Lunch Ended",
           "Lunch break ended at " ++ strftime_IMp (dt_time now), "info"))
  else
    (db', (false, "Failed",
           "Failed to record lunch end. Please try again.", "error")).

(** *** Check-out *)

Definition can_check_out (now : datetime) (db : Tables) : outcome :=
  match get_today_record now db with
  | None =>
      (false, "Not Checked In", "You have not checked in today.", "warning")
  | Some today_record =>
      if truthy (AttendanceModel.time_out today_record) then
        (false, "Already Checked Out",
         "You have already checked out today.", "warning")
      else (true, "", "", "")
  end.

(** [x or default] on an optional int column. *)
Definition int_or (x : option Z) (default : Z) : Z :=
  match x with
  | Some v => if v =? 0 then default else v
  | None => default
  end.

(** An exception of the pure computations propagates to the caller
    before anything is written. *)
Definition check_out (now : datetime) (db : Tables)
  : result (Tables * outcome) :=
  match get_today_record now db with
  | None =>
      Ok (db, (false, "Not Checked In",
               "You have not checked in today.", "warning"))
  | Some today_record =>
      if truthy (AttendanceModel.time_out today_record) then
        Ok (db, (false, "Already Checked Out",
                 "You have already checked out today.", "warning"))
      else
        let time_in := AttendanceModel.time_in today_record in
        let lunch_start := AttendanceModel.lunch_start today_record in
        let lunch_end := AttendanceModel.lunch_end today_record in
        let now_str := strftime_HMS (dt_time now) in
        res <- compute_paid_hours (dt_date now) time_in (PStr now_str)
                 lunch_start lunch_end ;;
        let total_time := h_total_time res in
        let lunch_duration := h_lunch_duration res in
        let paid_hours := h_paid_hours res in
        let overtime_hours :=
          num_max (NInt 0)
            (round2 (num_sub paid_hours
                             AttendanceModel.STANDARD_WORKING_HOURS)) in
        let shift := _get_employee_shift db in
        let shift_start :=
          match shift with
          | Some s => ShiftModel.start_time s
          | None => PStr "08:00:00"
          end in
        let grace_period :=
          match shift with
          | Some s => int_or (ShiftModel.grace_period_mins s) 15
          | None => 15
          end in
        status <- determine_status (dt_date now) time_in paid_hours
                    shift_start grace_period ;;
        let params :=
          AttendanceModel.Q_CHECK_OUT now_str total_time lunch_duration
            paid_hours overtime_hours status employee_id (dt_date now) in
        let (db', success) := Database.execute_query db_error params db in
        if success then
          Ok (db', (true, "Check Out Successful",
                    "Checked out at " ++ strftime_IMp (dt_time now) ++ nl
                    ++ "Paid Hours: " ++ format_2f paid_hours ++ nl
                    ++ "Status: " ++ status, "info"))
        else
          Ok (db', (false, "Check Out Failed",
                    "Failed to record check-out. Please try again.",
                    "error"))
  end.
End Controller.
End AttendanceController.

(* ================================================================== *)
(** ** controllers/leave_controller.py *)

(** [int(x or 0)] on an optional int column. *)
Definition int_or_0 (x : option Z) : Z :=
  match x with
  | Some v => v
  | None => 0
  end.

Module LeaveController.
Section Controller.
Variable db_error : engine.

Definition create_leave_request (employee_id : Z) (leave_type : string)
  (start_date end_date : date) (days_count : option Z) (reason : string)
  (evidence_path : option string) (db : Tables) : Tables * option Z :=
  let params :=
    LeaveModel.Q_INSERT employee_id leave_type start_date end_date
      days_count reason evidence_path in
  let (db', ok) := Database.execute_query db_error params db in
  if ok then (db', Database.get_last_insert_id db_error db')
  else (db', None).

Definition get_leave_by_id (leave_id : Z) (db : Tables)
  : option LeaveModel.row :=
  Database.fetch_one db_error (LeaveModel.Q_SELECT_BY_ID leave_id) db.

(** [now] is the value of the server's [NOW()] when [Q_APPROVE] runs. *)
Definition approve_leave (now : datetime) (leave_id reviewer_user_id : Z)
  (remarks : option string) (db : Tables) : Tables * (bool * string) :=
  match Database.fetch_one db_error (LeaveModel.Q_SELECT_BY_ID leave_id) db
  with
  | None => (db, (false, "Leave request not found."))
  | Some leave =>
      match Database.fetch_one db_error
              (LeaveModel.Q_SELECT_EMPLOYEE_CREDITS
                 (LeaveModel.employee_id leave)) db with
      | None => (db, (false, "Employee not found."))
      | Some emp =>
          let credits := int_or_0 (LeaveModel.leave_credits emp) in
          let required := int_or_0 (LeaveModel.days_count leave) in
          if credits <? required then
            (db, (false,
                  "Insufficient leave credits. Available: "
                  ++ str_of_Z credits ++ ", Required: "
                  ++ str_of_Z required))
          else
            let (db1, approved) :=
              Database.execute_query db_error
                (LeaveModel.Q_APPROVE now reviewer_user_id remarks leave_id)
                db in
            if negb approved then
              (db1, (false, "Failed to approve leave request."))
            else
              let (db2, _) :=
                Database.execute_query db_error
                  (LeaveModel.Q_DEDUCT_CREDITS
                     (LeaveModel.days_count leave)
                     (LeaveModel.employee_id leave)) db1 in
              (db2, (true, "Leave request approved successfully."))
      end
  end.

Definition reject_leave (now : datetime) (leave_id reviewer_user_id : Z)
  (remarks : option string) (db : Tables) : Tables * (bool * string) :=
  let (db', ok) :=
    Database.execute_query db_error
      (LeaveModel.Q_REJECT now reviewer_user_id remarks leave_id) db in
  if ok then (db', (true, "Leave request rejected."))
  else (db', (false, "Failed to reject leave request.")).

Definition get_employee_credits (employee_id : Z) (db : Tables)
  : option Z :=
  match Database.fetch_one db_error
          (LeaveModel.Q_SELECT_EMPLOYEE_CREDITS employee_id) db with
  | Some r => LeaveModel.leave_credits r
  | None => Some 0
  end.

Definition get_unnotified_reviews (employee_id : Z) (db : Tables)
  : list LeaveModel.row :=
  Database.fetch_all db_error (LeaveModel.Q_SELECT_UNNOTIFIED employee_id)
    db.

Definition mark_all_notified (employee_id : Z) (db : Tables)
  : Tables * bool :=
  Database.execute_query db_error
    (LeaveModel.Q_MARK_ALL_NOTIFIED employee_id) db.
End Controller.
End LeaveController.

(* ================================================================== *)
(** ** controllers/overtime_controller.py *)

Module OvertimeController.
Section Controller.
Variable db_error : engine.

Definition create_request (employee_id : Z) (request_date : date)
  (hours_requested : num) (reason : string) (db : Tables)
  : Tables * option Z :=
  let params :=
    OvertimeModel.Q_INSERT employee_id request_date hours_requested reason
  in
  let (db', ok) := Database.execute_query db_error params db in
  if ok then (db', Database.get_last_insert_id db_error db')
  else (db', None).

(** [now] is the controller's own [datetime.now()]. *)
Definition approve_request (now : datetime) (request_id reviewer_id : Z)
  (remarks : option string) (db : Tables) : Tables * bool :=
  Database.execute_query db_error
    (OvertimeModel.Q_APPROVE reviewer_id now remarks request_id) db.

Definition reject_request (now : datetime) (request_id reviewer_id : Z)
  (remarks : option string) (db : Tables) : Tables * bool :=
  Database.execute_query db_error
    (OvertimeModel.Q_REJECT reviewer_id now remarks request_id) db.

Definition get_approved_for_date (employee_id : Z) (check_date : date)
  (db : Tables) : option OvertimeModel.row :=
  Database.fetch_one db_error
    (OvertimeModel.Q_SELECT_APPROVED_FOR_DATE employee_id check_date) db.

Definition has_pending_request (employee_id : Z) (request_date : date)
  (db : Tables) : bool :=
  match Database.fetch_one db_error
          (OvertimeModel.Q_HAS_PENDING employee_id request_date) db with
  | Some result => 0 <? count result
  | None => false
  end.

Definition get_unnotified_reviews (employee_id : Z) (db : Tables)
  : list OvertimeModel.row :=
  Database.fetch_all db_error
    (OvertimeModel.Q_SELECT_UNNOTIFIED employee_id) db.

Definition mark_all_notified (employee_id : Z) (db : Tables)
  : Tables * bool :=
  Database.execute_query db_error
    (OvertimeModel.Q_MARK_ALL_NOTIFIED employee_id) db.
End Controller.
End OvertimeController.

(* ================================================================== *)
(** ** controllers/staff_dashboard_controller.py

    The controller behind the employee dashboard; it repeats the leave and
    overtime operations and is the only home of the late-consideration
    ones. *)

Module StaffDashboardController.
Section Controller.
Variable db_error : engine.

Definition create_leave_request (employee_id : Z) (leave_type : string)
  (start_date end_date : date) (reason : string)
  (evidence_path : option string) (db : Tables) : Tables * bool :=
  let days_count := (end_date - start_date) + 1 in
  Database.execute_query db_error
    (LeaveModel.Q_INSERT employee_id leave_type start_date end_date
       (Some days_count) reason evidence_path) db.

Definition create_overtime_request (employee_id : Z) (request_date : date)
  (hours_requested : num) (reason : string) (db : Tables)
  : Tables * bool :=
  Database.execute_query db_error
    (OvertimeModel.Q_INSERT employee_id request_date hours_requested reason)
    db.

Definition has_pending_overtime (employee_id : Z) (request_date : date)
  (db : Tables) : bool :=
  match Database.fetch_one db_error
          (OvertimeModel.Q_HAS_PENDING employee_id request_date) db with
  | Some result => 0 <? count result
  | None => false
  end.

Definition get_approved_overtime_for_date (employee_id : Z)
  (request_date : date) (db : Tables) : option OvertimeModel.row :=
  Database.fetch_one db_error
    (OvertimeModel.Q_SELECT_APPROVED_FOR_DATE employee_id request_date) db.

Definition approve_overtime (now : datetime)
  (request_id reviewer_employee_id : Z) (remarks : option string)
  (db : Tables) : Tables * bool :=
  Database.execute_query db_error
    (OvertimeModel.Q_APPROVE reviewer_employee_id now remarks request_id)
    db.

Definition reject_overtime (now : datetime)
  (request_id reviewer_employee_id : Z) (remarks : option string)
  (db : Tables) : Tables * bool :=
  Database.execute_query db_error
    (OvertimeModel.Q_REJECT reviewer_employee_id now remarks request_id) db.

Definition mark_all_leaves_notified (employee_id : Z) (db : Tables)
  : Tables * bool :=
  Database.execute_query db_error
    (LeaveModel.Q_MARK_ALL_NOTIFIED employee_id) db.

Definition mark_all_overtime_notified (employee_id : Z) (db : Tables)
  : Tables * bool :=
  Database.execute_query db_error
    (OvertimeModel.Q_MARK_ALL_NOTIFIED employee_id) db.

Definition get_employee_late_considerations (employee_id : Z)
  (db : Tables) : list LateConsiderationModel.row :=
  Database.fetch_all db_error
    (LateConsiderationModel.Q_SELECT_BY_EMPLOYEE employee_id) db.

Definition create_late_consideration (employee_id : Z)
  (attendance_date : date) (reason : string)
  (evidence_path : option string) (db : Tables) : Tables * bool :=
  Database.execute_query db_error
    (LateConsiderationModel.Q_INSERT employee_id attendance_date reason
       evidence_path) db.

Definition has_pending_late_consideration (employee_id : Z)
  (attendance_date : date) (db : Tables) : bool :=
  match Database.fetch_one db_error
          (LateConsiderationModel.Q_HAS_PENDING employee_id attendance_date)
          db with
  | Some result => 0 <? count result
  | None => false
  end.

Definition approve_late_consideration (now : datetime)
  (request_id reviewer_employee_id : Z) (remarks : option string)
  (db : Tables) : Tables * bool :=
  Database.execute_query db_error
    (LateConsiderationModel.Q_APPROVE reviewer_employee_id now remarks
       request_id) db.

Definition reject_late_consideration (now : datetime)
  (request_id reviewer_employee_id : Z) (remarks : option string)
  (db : Tables) : Tables * bool :=
  Database.execute_query db_error
    (LateConsiderationModel.Q_REJECT reviewer_employee_id now remarks
       request_id) db.

Definition mark_all_late_considerations_notified (employee_id : Z)
  (db : Tables) : Tables * bool :=
  Database.execute_query db_error
    (LateConsiderationModel.Q_MARK_ALL_NOTIFIED employee_id) db.
End Controller.
End StaffDashboardController.

(* ================================================================== *)
(** ** views/employee_dashboard_view.py: the submit handlers

    Only the decisions of the three [submit_*] closures are modelled: the
    message box each one ends with (kind and title; the bodies only print
    the dates) and the store it leaves.  The copy of the evidence file is
    outside the model; its resulting path is the [evidence] argument.  For
    late considerations the dialog that fills the combo box of dates is
    modelled too, since its closure submits the combo's current item. *)

Inductive message_box : Type :=
| show_warning (title : string)
| show_info (title : string)
| show_error (title : string).

Module EmployeeDashboardView.
Section View.
Variable db_error : engine.
(** [self.employee_id] *)
Variable employee_id : Z.

(** [shown_credits] is the [leave_credits] of the employee row loaded
    when the dialog was opened. *)
Definition submit_leave (shown_credits : Z) (leave_type : string)
  (start end_ : date) (reason : string) (evidence : option string)
  (db : Tables) : Tables * message_box :=
  let days := (end_ - start) + 1 in
  if days <? 1 then (db, show_warning "Invalid Dates")
  else if shown_credits <? days then (db, show_warning "Insufficient Credits")
  else if String.eqb reason "" then (db, show_warning "Missing Reason")
  else
    let (db', ok) :=
      StaffDashboardController.create_leave_request db_error employee_id
        leave_type start end_ reason evidence db in
    if ok then (db', show_info "Success") else (db', show_error "Error").

Definition submit_overtime (request_date : date) (hours : num)
  (reason : string) (db : Tables) : Tables * message_box :=
  if String.eqb reason "" then (db, show_warning "Missing Reason")
  else if StaffDashboardController.has_pending_overtime db_error
            employee_id request_date db
  then (db, show_warning "Duplicate Request")
  else
    match StaffDashboardController.get_approved_overtime_for_date db_error
            employee_id request_date db with
    | Some _ => (db, show_warning "Already Approved")
    | None =>
        let (db', ok) :=
          StaffDashboardController.create_overtime_request db_error
            employee_id request_date hours reason db in
        if ok then (db', show_info "Success")
        else (db', show_error "Error")
    end.

(** [show_request_late_consideration_dialog] up to [dialog.exec()]: the
    info box it ends with when no dialog is shown, or the data of the
    items it has put into [date_combo].  [late_records] is what
    [get_employee_late_records(self.employee_id) or []] returned; that
    query selects by [status LIKE '%%Late%%'], a match that depends on the
    collation of a schema the sources do not contain, so the dialog is
    modelled for every list of records.  Dates are compared through
    [str], which is one-to-one on dates. *)
Definition show_request_late_consideration_dialog
  (late_records : list AttendanceModel.row) (db : Tables)
  : message_box + list date :=
  match late_records with
  | [] => inl (show_info "No Late Records")
  | _ :: _ =>
      let existing_considerations :=
        StaffDashboardController.get_employee_late_considerations db_error
          employee_id db in
      let existing_dates :=
        map LateConsiderationModel.attendance_date existing_considerations in
      let date_combo :=
        filter (fun d => negb (existsb (Z.eqb d) existing_dates))
               (map AttendanceModel.date_ late_records) in
      match date_combo with
      | [] => inl (show_info "No Eligible Dates")
      | _ :: _ => inr date_combo
      end
  end.

(** The closure [submit_consideration] of that dialog.  [date_combo] is
    the combo box the dialog filled and [current_index] its current item,
    so that [selected_date] is [date_combo.currentData()].  The dialog is
    shown only with a non-empty combo box, which always has a current
    item: nothing is modelled ([None]) for an index outside the list. *)
Definition submit_consideration (date_combo : list date)
  (current_index : nat) (reason : string) (evidence : option string)
  (db : Tables) : Tables * option message_box :=
  match nth_error date_combo current_index with
  | None => (db, None)
  | Some selected_date =>
      if String.eqb reason "" then (db, Some (show_warning "Missing Reason"))
      else
        let (db', ok) :=
          StaffDashboardController.create_late_consideration db_error
            employee_id selected_date reason evidence db in
        if ok then (db', Some (show_info "Success"))
        else (db', Some (show_error "Error"))
  end.
End View.
End EmployeeDashboardView.

(* ================================================================== *)
(** ** controllers/shift_controller.py: the shift lookups *)

Module ShiftController.
Section Controller.
Variable db_error : engine.

Definition get_default_shift (db : Tables) : option ShiftModel.row :=
  match Database.fetch_one db_error ShiftModel.Q_SELECT_DEFAULT db with
  | Some result => Some result
  | None => Database.fetch_one db_error ShiftModel.Q_SELECT_FIRST_ACTIVE db
  end.

Definition get_employee_shift (employee_id : Z) (db : Tables)
  : option ShiftModel.row :=
  match Database.fetch_one db_error
          (ShiftModel.Q_SELECT_EMPLOYEE_SHIFT employee_id) db with
  | Some result => Some result
  | None => get_default_shift db
  end.
End Controller.
End ShiftController.

(* ================================================================== *)
(** ** controllers/staff_dashboard_controller.py: reviews and lookups

    The reviewer's side of the staff dashboard and the lookups the
    employee dashboard makes through it. *)

Module StaffDashboardReview.
Section Controller.
Variable db_error : engine.

(** [now] is the value of the server's [NOW()] when [Q_APPROVE] runs. *)
Definition approve_leave (now : datetime) (leave_id reviewer_user_id : Z)
  (remarks : option string) (db : Tables) : Tables * bool :=
  match Database.fetch_one db_error (LeaveModel.Q_SELECT_BY_ID leave_id) db
  with
  | None => (db, false)
  | Some leave =>
      match Database.fetch_one db_error
              (LeaveModel.Q_SELECT_EMPLOYEE_CREDITS
                 (LeaveModel.employee_id leave)) db with
      | None => (db, false)
      | Some emp =>
          if int_or_0 (LeaveModel.leave_credits emp)
             <? int_or_0 (LeaveModel.days_count leave)
          then (db, false)
          else
            let (db1, approved) :=
              Database.execute_query db_error
                (LeaveModel.Q_APPROVE now reviewer_user_id remarks leave_id)
                db in
            if negb approved then (db1, false)
            else
              let (db2, _) :=
                Database.execute_query db_error
                  (LeaveModel.Q_DEDUCT_CREDITS
                     (LeaveModel.days_count leave)
                     (LeaveModel.employee_id leave)) db1 in
              (db2, true)
      end
  end.

Definition reject_leave (now : datetime) (leave_id reviewer_user_id : Z)
  (remarks : option string) (db : Tables) : Tables * bool :=
  Database.execute_query db_error
    (LeaveModel.Q_REJECT now reviewer_user_id remarks leave_id) db.

Definition get_employee_shift (employee_id : Z) (db : Tables)
  : option ShiftModel.row :=
  match Database.fetch_one db_error
          (ShiftModel.Q_SELECT_EMPLOYEE_SHIFT employee_id) db with
  | Some result => Some result
  | None =>
      match Database.fetch_one db_error ShiftModel.Q_SELECT_DEFAULT db with
      | Some result => Some result
      | None =>
          Database.fetch_one db_error ShiftModel.Q_SELECT_FIRST_ACTIVE db
      end
  end.

Definition get_unnotified_leave_reviews (employee_id : Z) (db : Tables)
  : list LeaveModel.row :=
  Database.fetch_all db_error (LeaveModel.Q_SELECT_UNNOTIFIED employee_id)
    db.

Definition get_unnotified_overtime_reviews (employee_id : Z) (db : Tables)
  : list OvertimeModel.row :=
  Database.fetch_all db_error
    (OvertimeModel.Q_SELECT_UNNOTIFIED employee_id) db.

Definition get_unnotified_late_consideration_reviews (employee_id : Z)
  (db : Tables) : list LateConsiderationModel.row :=
  Database.fetch_all db_error
    (LateConsiderationModel.Q_SELECT_UNNOTIFIED employee_id) db.
End Controller.
End StaffDashboardReview.

(* ================================================================== *)
(** ** controllers/admin_dashboard_controller.py: leave review and shift
    lookup, as the admin dashboard has them *)

Module AdminDashboardController.
Section Controller.
Variable db_error : engine.

Definition approve_leave (now : datetime) (leave_id reviewer_user_id : Z)
  (remarks : option string) (db : Tables) : Tables * bool :=
  match Database.fetch_one db_error (LeaveModel.Q_SELECT_BY_ID leave_id) db
  with
  | None => (db, false)
  | Some leave =>
      match Database.fetch_one db_error
              (LeaveModel.Q_SELECT_EMPLOYEE_CREDITS
                 (LeaveModel.employee_id leave)) db with
      | None => (db, false)
      | Some emp =>
          if int_or_0 (LeaveModel.leave_credits emp)
             <? int_or_0 (LeaveModel.days_count leave)
          then (db, false)
          else
            let (db1, approved) :=
              Database.execute_query db_error
                (LeaveModel.Q_APPROVE now reviewer_user_id remarks leave_id)
                db in
            if negb approved then (db1, false)
            else
              let (db2, _) :=
                Database.execute_query db_error
                  (LeaveModel.Q_DEDUCT_CREDITS
                     (LeaveModel.days_count leave)
                     (LeaveModel.employee_id leave)) db1 in
              (db2, true)
      end
  end.

Definition reject_leave (now : datetime) (leave_id reviewer_user_id : Z)
  (remarks : option string) (db : Tables) : Tables * bool :=
  Database.execute_query db_error
    (LeaveModel.Q_REJECT now reviewer_user_id remarks leave_id) db.

Definition get_employee_shift (employee_id : Z) (db : Tables)
  : option ShiftModel.row :=
  match Database.fetch_one db_error
          (ShiftModel.Q_SELECT_EMPLOYEE_SHIFT employee_id) db with
  | Some result => Some result
  | None =>
      match Database.fetch_one db_error ShiftModel.Q_SELECT_DEFAULT db with
      | Some result => Some result
      | None =>
          Database.fetch_one db_error ShiftModel.Q_SELECT_FIRST_ACTIVE db
      end
  end.
End Controller.
End AdminDashboardController.

(* ================================================================== *)
(** ** views/employee_dashboard_view.py: the attendance actions

    The four buttons of the attendance page, the handlers behind them and
    the notification check made when the dashboard opens.  A handler
    returns the store it leaves and the message box it shows; the clock
    is read once by the guard ([asked]) and again by the action
    ([now]). *)

Record buttons : Type := mk_buttons
  { checkin_btn : bool;
    lunch_start_btn : bool;
    lunch_end_btn : bool;
    checkout_btn : bool }.

Module EmployeeDashboardAttendance.

Definition update_button_states (today_record : option AttendanceModel.row)
  : buttons :=
  match today_record with
  | None => mk_buttons true false false false
  | Some today_record =>
      let time_out := AttendanceModel.time_out today_record in
      let lunch_start := AttendanceModel.lunch_start today_record in
      let lunch_end := AttendanceModel.lunch_end today_record in
      if truthy time_out then mk_buttons false false false false
      else if truthy lunch_start && negb (truthy lunch_end) then
        mk_buttons false false true false
      else if truthy lunch_start && truthy lunch_end then
        mk_buttons false false false true
      else mk_buttons false true false true
  end.

Section View.
Variable db_error : engine.
(** [self.employee_id] *)
Variable employee_id : Z.

(** [confirmed] is the answer to the "Confirm Check-In" question; no
    message box follows a declined question. *)
Definition handle_check_in (asked now : datetime) (confirmed : bool)
  (db : Tables) : Tables * option outcome :=
  let guard := AttendanceController.can_check_in db_error employee_id asked db
  in
  if negb (allowed guard) then (db, Some guard)
  else if negb confirmed then (db, None)
  else
    let (db', shown) :=
      AttendanceController.check_in db_error employee_id now db in
    (db', Some shown).

Definition handle_start_lunch (asked now : datetime) (db : Tables)
  : result (Tables * outcome) :=
  guard <- AttendanceController.can_start_lunch db_error employee_id asked db ;;
  if negb (allowed guard) then Ok (db, guard)
  else Ok (AttendanceController.start_lunch db_error employee_id now db).

Definition handle_end_lunch (asked now : datetime) (db : Tables)
  : Tables * outcome :=
  let guard := AttendanceController.can_end_lunch db_error employee_id asked db
  in
  if negb (allowed guard) then (db, guard)
  else AttendanceController.end_lunch db_error employee_id now db.

Definition handle_check_out (asked now : datetime) (db : Tables)
  : result (Tables * outcome) :=
  let guard := AttendanceController.can_check_out db_error employee_id asked db
  in
  if negb (allowed guard) then Ok (db, guard)
  else AttendanceController.check_out db_error employee_id now db.

(** The store left and the three lists read; the dialog announcing them
    is shown, and the requests are marked, only when one of the lists is
    not empty.  Nothing else writes to the store while the dialog is
    open. *)
Definition _check_notifications (db : Tables)
  : Tables * (list LeaveModel.row * list OvertimeModel.row
              * list LateConsiderationModel.row) :=
  let unnotified_leaves :=
    StaffDashboardReview.get_unnotified_leave_reviews db_error employee_id db
  in
  let unnotified_ot :=
    StaffDashboardReview.get_unnotified_overtime_reviews db_error employee_id
      db in
  let unnotified_late :=
    StaffDashboardReview.get_unnotified_late_consideration_reviews db_error
      employee_id db in
  let total_unnotified :=
    (List.length unnotified_leaves + List.length unnotified_ot
     + List.length unnotified_late)%nat in
  if Nat.eqb total_unnotified 0 then
    (db, (unnotified_leaves, unnotified_ot, unnotified_late))
  else
    let (db1, _) :=
      StaffDashboardController.mark_all_leaves_notified db_error employee_id
        db in
    let (db2, _) :=
      StaffDashboardController.mark_all_overtime_notified db_error
        employee_id db1 in
    let (db3, _) :=
      StaffDashboardController.mark_all_late_considerations_notified
        db_error employee_id db2 in
    (db3, (unnotified_leaves, unnotified_ot, unnotified_late)).
End View.
End EmployeeDashboardAttendance.

(* ================================================================== *)
(** * Vocabulary of the properties

    Sample stores and inputs of the evaluated scenarios, and the notions
    the statements below are phrased with. *)

(** A Monday and the Sunday of the same week. *)
Definition monday : date := 739005.
Definition sunday : date := monday + 6.

(** The moment [h:m:s] of day [d]. *)
Definition at_ (d : date) (h m s : Z) : datetime :=
  mk_datetime d (mk_time h m s 0).

(** A [timedelta] of [h] hours, [m] minutes and [s] seconds, the way a TIME
    column is read back. *)
Definition hms (h m s : Z) : pyval :=
  PTimedelta (((h * 60 + m) * 60 + s) * 1000000).

(** A store without rows. *)
Definition empty_db : Tables := mk_tables [] [] [] [] [] [] 0.

(** One employee with [credits] leave credits and one five-day Pending
    leave request of theirs. *)
Definition leave_db (credits : Z) : Tables :=
  mk_tables
    [EmployeeModel.mk_row 1 (Some credits) None] [] []
    [LeaveModel.mk_row 1 1 "Vacation" monday (monday + 4) (Some 5) "trip"
       None Pending None None None false]
    [] [] 0.

(** One overtime and one late-consideration request, both already
    Approved by reviewer 7. *)
Definition reviewed_db : Tables :=
  mk_tables
    [EmployeeModel.mk_row 1 (Some 10) None] [] [] []
    [OvertimeModel.mk_row 1 1 monday (NFloat 2) "release" Approved
       (Some 7) (Some (at_ monday 9 0 0)) (Some "ok") false]
    [LateConsiderationModel.mk_row 1 1 monday "traffic" None Approved
       (Some 7) (Some (at_ monday 9 0 0)) (Some "ok") false]
    0.

(** One reviewer action on a request: who, when, with which remarks. *)
Inductive review_call : Type :=
| ApproveCall (now : datetime) (reviewer : Z) (remarks : option string)
| RejectCall (now : datetime) (reviewer : Z) (remarks : option string).

(** The UPDATE a reviewer action issues on request [request_id]. *)
Definition overtime_stmt_of (request_id : Z) (c : review_call) : statement :=
  match c with
  | ApproveCall now rb rem => OvertimeModel.Q_APPROVE rb now rem request_id
  | RejectCall now rb rem => OvertimeModel.Q_REJECT rb now rem request_id
  end.

Definition late_stmt_of (request_id : Z) (c : review_call) : statement :=
  match c with
  | ApproveCall now rb rem =>
      LateConsiderationModel.Q_APPROVE rb now rem request_id
  | RejectCall now rb rem =>
      LateConsiderationModel.Q_REJECT rb now rem request_id
  end.

Section ReviewCalls.
Variable db_error : engine.

(** The controller call a reviewer action amounts to. *)
Definition overtime_call (request_id : Z) (c : review_call) (db : Tables)
  : Tables * bool :=
  match c with
  | ApproveCall now rb rem =>
      OvertimeController.approve_request db_error now request_id rb rem db
  | RejectCall now rb rem =>
      OvertimeController.reject_request db_error now request_id rb rem db
  end.

Definition late_call (request_id : Z) (c : review_call) (db : Tables)
  : Tables * bool :=
  match c with
  | ApproveCall now rb rem =>
      StaffDashboardController.approve_late_consideration db_error now
        request_id rb rem db
  | RejectCall now rb rem =>
      StaffDashboardController.reject_late_consideration db_error now
        request_id rb rem db
  end.

(** The calls made one after the other; the final store and what each
    call returned. *)
Fixpoint run_calls (call : review_call -> Tables -> Tables * bool)
  (calls : list review_call) (db : Tables) : Tables * list bool :=
  match calls with
  | [] => (db, [])
  | c :: rest =>
      let (db1, r) := call c db in
      let (db2, rs) := run_calls call rest db1 in
      (db2, r :: rs)
  end.
End ReviewCalls.

(** The request [request_id] has been reviewed: no row with this id is
    still Pending. *)
Definition overtime_terminal (request_id : Z) (db : Tables) : Prop :=
  forall r, In r (overtime_requests db) ->
            OvertimeModel.id r = request_id ->
            OvertimeModel.status r <> Pending.

(** The same for a late-consideration request. *)
Definition late_terminal (request_id : Z) (db : Tables) : Prop :=
  forall r, In r (late_considerations db) ->
            LateConsiderationModel.id r = request_id ->
            LateConsiderationModel.status r <> Pending.

(** How many Pending overtime requests the store holds for employee [e]
    on date [d]. *)
Definition pending_overtime (e : Z) (d : date) (db : Tables) : nat :=
  List.length (filter (overtime_pending_for e d) (overtime_requests db)).

(** The invariant on overtime requests: at most one Pending request per
    (employee, date). *)
Definition at_most_one_pending_overtime (db : Tables) : Prop :=
  forall e d, (pending_overtime e d db <= 1)%nat.

(** A late-consideration request of employee [e] for date [d], whatever
    its status. *)
Definition late_for (e : Z) (d : date) (r : LateConsiderationModel.row)
  : bool :=
  (LateConsiderationModel.employee_id r =? e)
  && (LateConsiderationModel.attendance_date r =? d).

(** How many late-consideration requests, of any status, the store holds
    for employee [e] on date [d], and how many Pending ones. *)
Definition late_requests (e : Z) (d : date) (db : Tables) : nat :=
  List.length (filter (late_for e d) (late_considerations db)).

Definition pending_late (e : Z) (d : date) (db : Tables) : nat :=
  List.length (filter (late_pending_for e d) (late_considerations db)).

(** The invariants on late-consideration requests: at most one Pending
    request, and at most one request of any status, per (employee,
    date). *)
Definition at_most_one_pending_late (db : Tables) : Prop :=
  forall e d, (pending_late e d db <= 1)%nat.

Definition at_most_one_late_request (db : Tables) : Prop :=
  forall e d, (late_requests e d db <= 1)%nat.

(** The store after [n] successive calls of [f]. *)
Fixpoint repeat_call (n : nat) (f : Tables -> Tables * bool) (db : Tables)
  : Tables :=
  match n with
  | O => db
  | S k => repeat_call k f (fst (f db))
  end.

(** What a [mark_all_notified] call that runs does to one row, for
    employee [e]: a reviewed (Approved or Rejected) request of that
    employee comes out as [notify r], the same row with its flag raised;
    every other row, and so every Pending request and every request of
    another employee, comes out as it was. *)
Definition flag_step {A : Type} (owner : A -> Z) (st : A -> request_status)
  (flag : A -> bool) (notify : A -> A) (e : Z) (r r' : A) : Prop :=
  (owner r = e /\ reviewed (st r) = true
   /\ r' = notify r /\ flag r' = true /\ st r' = st r)
  \/ ((owner r <> e \/ st r = Pending) /\ r' = r).

(** What one [mark_all_notified] call does to the table [table], given
    whether its UPDATE raised: a call that raises returns [False] and the
    store it was given; a call that runs returns [True] and that store
    with only this table replaced, row by row as [step] says. *)
Definition marks_reviewed {A : Type} (table : Tables -> list A)
  (set_table : Tables -> list A -> Tables) (step : A -> A -> Prop)
  (raised : bool) (db : Tables) (call : Tables * bool) : Prop :=
  if raised then call = (db, false)
  else exists rows,
      call = (set_table db rows, true) /\ Forall2 step (table db) rows.

(** Employee 1 has an Approved and a Pending overtime request, employee 2
    a Rejected one; none has been notified. *)
Definition ledger_db : Tables :=
  mk_tables [] [] [] []
    [OvertimeModel.mk_row 1 1 monday (NFloat 2) "release" Approved
       (Some 7) (Some (at_ monday 9 0 0)) None false;
     OvertimeModel.mk_row 2 1 (monday + 1) (NFloat 1) "audit" Pending
       None None None false;
     OvertimeModel.mk_row 3 2 monday (NFloat 1) "audit" Rejected
       (Some 7) (Some (at_ monday 9 0 0)) None false]
    [] 0.

(** Employee 1 was late on Monday and on Tuesday.  Their
    late-consideration request for Monday has been approved, and they have
    a Pending overtime request for Monday. *)
Definition late_week_records : list AttendanceModel.row :=
  [AttendanceModel.mk_row 2 1 (monday + 1) (hms 8 40 0) (hms 17 0 0)
     PNone PNone None None None None (Some "Late, Undertime");
   AttendanceModel.mk_row 1 1 monday (hms 8 30 0) (hms 17 0 0)
     PNone PNone None None None None (Some "Late, Undertime")].

Definition late_week_db : Tables :=
  mk_tables [] [] (rev late_week_records) []
    [OvertimeModel.mk_row 1 1 monday (NFloat 2) "release" Pending
       None None None false]
    [LateConsiderationModel.mk_row 1 1 monday "traffic" None Approved
       (Some 7) (Some (at_ monday 9 0 0)) None true]
    0.

(** A day shift from 08:00 to 17:00 assigned to nobody but flagged as the
    default, and a night shift from 22:00 to 07:00 assigned to employee 2. *)
Definition shift_db : Tables :=
  mk_tables
    [EmployeeModel.mk_row 1 (Some 10) None;
     EmployeeModel.mk_row 2 (Some 10) (Some 2)]
    [ShiftModel.mk_row 1 (Some "Day") (hms 8 0 0) (hms 17 0 0) (Some 15)
       (Some (NInt 3)) true true;
     ShiftModel.mk_row 2 (Some "Night") (hms 22 0 0) (hms 7 0 0) (Some 15)
       (Some (NInt 3)) false true]
    [] [] [] [] 0.

(** Zero, a positive finite number or plus infinity. *)
Definition nonneg_sf (x : spec_float) : Prop :=
  match x with
  | S754_zero _ => True
  | S754_finite false _ _ => True
  | S754_infinity false => True
  | _ => False
  end.

(** The exact value of a non-negative float with exponent at least -64,
    in units of [2^-64]; -1 for any other float. *)
Definition scaled (x : spec_float) : Z :=
  match x with
  | S754_zero false => 0
  | S754_finite false m e => if -64 <=? e then Z.pos m * 2 ^ (e + 64) else -1
  | _ => -1
  end.

(** The unrounded hour figure [compute_paid_hours] derives from a span of
    [d] whole seconds. *)
Definition hours_f (d : Z) : float :=
  to_float (AttendanceController.hours_of (d * 1000000)).

(** The exact value of the hour figure for [s] seconds. *)
Definition hscaled (s : Z) : Z := scaled (Prim2SF (hours_f s)).

(** [p] holds on the [n] integers from [lo] upwards. *)
Fixpoint forall_range (n : nat) (lo : Z) (p : Z -> bool) : bool :=
  match n with
  | O => true
  | S k => p lo && forall_range k (lo + 1) p
  end.

(** The hour figure for [s] seconds is positive and not below the one for
    [s - 1] seconds. *)
Definition hours_check (s : Z) : bool :=
  (0 <? hscaled s) && (hscaled (s - 1) <=? hscaled s).

(** The longest span between two times of day, in seconds. *)
Definition last_second : Z := 86399.

(** The wall-clock time [s] seconds after midnight. *)
Definition clock (s : Z) : time :=
  mk_time (s / 3600) ((s mod 3600) / 60) (s mod 60) 0.

(** [v] is a time of day of [s] whole seconds in one of the shapes the
    controllers receive: a [timedelta] read from a TIME column (a
    fraction of a second is dropped by [int]), a [datetime.time], or an
    ['%H:%M:%S'] string. *)
Definition reads_as (v : pyval) (s : Z) : Prop :=
  0 <= s < 86400
  /\ match v with
     | PTimedelta delta => s * 1000000 <= delta < (s + 1) * 1000000
     | PTime t => t = clock s
     | PStr str => strptime_HMS str = Ok (clock s)
     | PNone | PDatetime _ => False
     end.

(** The rounded hour figure for a span of [- d] seconds is at most zero,
    and below zero exactly from 18 seconds on. *)
Definition overnight_check (d : Z) : bool :=
  let t := float_round2 (hours_f (- d)) in
  PrimFloat.leb t 0%float && Bool.eqb (PrimFloat.ltb t 0%float) (18 <=? d).

(** The float nearest to [n / 100]. *)
Definition cents (n : Z) : num :=
  NFloat (PrimFloat.div (float_of_Z n) (float_of_Z 100)).

(** A night shift starting at 23:50 with a 15-minute grace period,
    assigned to employee 1. *)
Definition night_db : Tables :=
  mk_tables
    [EmployeeModel.mk_row 1 (Some 10) (Some 1)]
    [ShiftModel.mk_row 1 (Some "Night") (hms 23 50 0) (hms 8 0 0) (Some 15)
       (Some (NInt 3)) true true]
    [] [] [] [] 0.

(** *** Vocabulary of the further properties *)

(** An active shift of the store that a row of employee [e] points to. *)
Definition assigned_to (e : Z) (db : Tables) (s : ShiftModel.row) : Prop :=
  In s (shifts db) /\ ShiftModel.is_active s = true
  /\ exists emp, In emp (employees db) /\ EmployeeModel.id emp = e
                 /\ EmployeeModel.shift_id emp = Some (ShiftModel.id s).

(** A shift time the check-in guard cannot turn into a time of day: an
    unset column, a TIME value outside one day, or a string that is not
    ['%H:%M:%S']. *)
Definition unreadable (v : pyval) : Prop :=
  match v with
  | PNone => True
  | PTimedelta delta => delta <= -1000000 \/ usec_per_day <= delta
  | PStr s => strptime_HMS s = Raise ValueError
  | PTime _ | PDatetime _ => False
  end.

(** The default shift ends at 25:00:00, a value a TIME column can hold
    but a time of day cannot. *)
Definition long_shift_db : Tables :=
  mk_tables
    [EmployeeModel.mk_row 1 (Some 10) None]
    [ShiftModel.mk_row 1 (Some "Day") (hms 8 0 0) (hms 25 0 0) (Some 15)
       (Some (NInt 3)) true true]
    [] [] [] [] 0.

(** The fields of a [datetime.time] are within their ranges. *)
Definition valid_time (t : time) : Prop :=
  0 <= hour t <= 23 /\ 0 <= minute t <= 59 /\ 0 <= second t <= 59
  /\ 0 <= microsecond t <= 999999.

(** The whole seconds of [t] since midnight. *)
Definition seconds_of (t : time) : Z :=
  (hour t * 60 + minute t) * 60 + second t.

(** How many attendance records the store holds for employee [e] on
    date [d]. *)
Definition records_of (e : Z) (d : date) (db : Tables) : nat :=
  List.length (filter (attendance_of e d) (attendance db)).

(** The invariant on attendance: at most one record per employee and
    date. *)
Definition one_record_per_day (db : Tables) : Prop :=
  forall e d, (records_of e d db <= 1)%nat.

(** The record [Q_CHECK_IN] creates. *)
Definition checked_in_row (i e : Z) (d : date) (t : time)
  : AttendanceModel.row :=
  AttendanceModel.mk_row i e d (PTimedelta (seconds_of t * 1000000))
    PNone PNone PNone None None None None (Some "Incomplete").

(** The shift start and the grace period [check_out] grades a day with:
    those of the resolved shift, 08:00:00 and 15 minutes without one. *)
Definition shift_start_of (shift : option ShiftModel.row) : pyval :=
  match shift with
  | Some s => ShiftModel.start_time s
  | None => PStr "08:00:00"
  end.

Definition grace_period_of (shift : option ShiftModel.row) : Z :=
  match shift with
  | Some s => AttendanceController.int_or (ShiftModel.grace_period_mins s) 15
  | None => 15
  end.

(** [max(0, round(paid_hours - 8, 2))]. *)
Definition overtime_of (paid_hours : num) : num :=
  num_max (NInt 0)
    (round2 (num_sub paid_hours AttendanceModel.STANDARD_WORKING_HOURS)).

(** What [Q_CHECK_OUT] makes of a record. *)
Definition checked_out_row (time_out : pyval)
  (total lunch paid overtime : num) (status : string)
  (r : AttendanceModel.row) : AttendanceModel.row :=
  AttendanceModel.mk_row
    (AttendanceModel.id r) (AttendanceModel.employee_id r)
    (AttendanceModel.date_ r) (AttendanceModel.time_in r) time_out
    (AttendanceModel.lunch_start r) (AttendanceModel.lunch_end r)
    (Some total) (Some lunch) (Some paid) (Some overtime) (Some status).

(** The four labels a graded day can carry. *)
Definition status_label (late complete : bool) : string :=
  (if late then "Late" else "On Time") ++ ", "
  ++ (if complete then "Complete" else "Undertime").

(** Employee 1 of [shift_db] has checked in at 08:00:00 on the Monday. *)
Definition morning_db : Tables :=
  fst (AttendanceController.check_in no_error 1 (at_ monday 8 0 0) shift_db).

(** The store and the message after the check-out at 17:00:00. *)
Definition evening : Tables * outcome :=
  match AttendanceController.check_out no_error 1 (at_ monday 17 0 0)
          morning_db with
  | Ok out => out
  | Raise _ => (morning_db, (false, "", "", ""))
  end.

(** No minimum of hours before lunch is configured for the employee: no
    shift is resolved, or the column of the shift is NULL or zero. *)
Definition no_minimum_configured (shift : option ShiftModel.row) : Prop :=
  match shift with
  | None => True
  | Some s =>
      match ShiftModel.min_hours_before_lunch s with
      | None => True
      | Some x => num_truthy x = false
      end
  end.

(** [int(remaining.total_seconds() / 60)] for a [remaining] of [R] whole
    seconds is [R // 60]. *)
Definition minutes_check (R : Z) : bool :=
  match int_of_float
          (PrimFloat.div (total_seconds (R * 1000000)) (float_of_Z 60)) with
  | Ok m => m =? R / 60
  | Raise _ => false
  end.

(** The longest wait for lunch under the default of three hours: asked at
    00:00:00 after a check-in stored as 23:59:59. *)
Definition longest_wait : Z := 97199.

(** A store without shifts in which employee 1 has checked in at
    08:00:00 on the Monday. *)
Definition unscheduled_morning_db : Tables :=
  fst (AttendanceController.check_in no_error 1 (at_ monday 8 0 0) empty_db).

(** What [Q_DEDUCT_CREDITS] makes of an employee row. *)
Definition debit_row (days : option Z) (emp : EmployeeModel.row)
  : EmployeeModel.row :=
  EmployeeModel.mk_row (EmployeeModel.id emp)
    (deduct (EmployeeModel.leave_credits emp) days)
    (EmployeeModel.shift_id emp).

(** The row [LeaveModel.Q_INSERT] creates. *)
Definition pending_leave (i e : Z) (ty : string) (sd ed : date)
  (days : option Z) (why : string) (ev : option string) : LeaveModel.row :=
  LeaveModel.mk_row i e ty sd ed days why ev Pending None None None false.

(** What a reviewer action makes of a Pending overtime request and of a
    Pending late-consideration request. *)
Definition reviewed_overtime (c : review_call) (r : OvertimeModel.row)
  : OvertimeModel.row :=
  match c with
  | ApproveCall now rb rem => review_overtime Approved rb now rem r
  | RejectCall now rb rem => review_overtime Rejected rb now rem r
  end.

Definition reviewed_late (c : review_call) (r : LateConsiderationModel.row)
  : LateConsiderationModel.row :=
  match c with
  | ApproveCall now rb rem => review_late Approved rb now rem r
  | RejectCall now rb rem => review_late Rejected rb now rem r
  end.

(** A server on which the debit of leave credits raises and nothing else
    does. *)
Definition debit_fails : engine :=
  fun _ call =>
    match call with
    | Execute (LeaveStmt (LeaveModel.Q_DEDUCT_CREDITS _ _)) => true
    | _ => false
    end.

(** A server on which the count of Pending overtime requests raises and
    nothing else does. *)
Definition count_fails : engine :=
  fun _ call =>
    match call with
    | Fetch (OvertimeSelect (OvertimeModel.Q_HAS_PENDING _ _)) => true
    | _ => false
    end.

(** Employee 1 already has a Pending overtime request for the Monday. *)
Definition pending_overtime_db : Tables :=
  mk_tables [] [] [] []
    [OvertimeModel.mk_row 1 1 monday (NFloat 2) "release" Pending
       None None None false] [] 0.

(** The end of [check_out] once the hours [res] and the label are
    computed: the single UPDATE and the message that follows it. *)
Definition graded_check_out (db_error : engine) (e : Z) (now : datetime)
  (db : Tables) (label : string) (res : hours_dict) : Tables * outcome :=
  let params :=
    AttendanceModel.Q_CHECK_OUT (strftime_HMS (dt_time now))
      (h_total_time res) (h_lunch_duration res) (h_paid_hours res)
      (overtime_of (h_paid_hours res)) label e (dt_date now) in
  if db_error db (Execute (AttendanceStmt params)) then
    (db, (false, "Check Out Failed",
          "Failed to record check-out. Please try again.", "error"))
  else
    (run_statement (AttendanceStmt params) db,
     (true, "Check Out Successful",
      "Checked out at " ++ strftime_IMp (dt_time now) ++ nl
      ++ "Paid Hours: " ++ format_2f (h_paid_hours res) ++ nl
      ++ "Status: " ++ label, "info")).

(** Employee 1 of [shift_db] checked in at 08:00:00 and had lunch from
    12:00:00 to 13:00:00. *)
Definition lunched_db : Tables :=
  fst (AttendanceController.end_lunch no_error 1 (at_ monday 13 0 0)
         (fst (AttendanceController.start_lunch no_error 1 (at_ monday 12 0 0)
                 morning_db))).

(** A server on which every SELECT raises. *)
Definition reads_fail : engine :=
  fun _ call =>
    match call with
    | Fetch _ => true
    | _ => false
    end.

(** How many overtime requests of employee [e] for date [d] are Pending
    or Approved. *)
Definition live_overtime (e : Z) (d : date) (db : Tables) : nat :=
  List.length
    (filter (fun r => (OvertimeModel.employee_id r =? e)
                      && (OvertimeModel.request_date r =? d)
                      && negb (status_eqb (OvertimeModel.status r) Rejected))
       (overtime_requests db)).

(* ================================================================== *)
(** * Properties *)

(** ** Generic facts about [update_where] *)

Lemma update_where_none {A : Type} (cond : A -> bool) (upd : A -> A)
  (rows : list A) :
  (forall r, In r rows -> cond r = false) -> update_where cond upd rows = rows.
Proof.
  unfold update_where. induction rows as [|r rows IH]; intros Hnone.
  - reflexivity.
  - simpl. rewrite (Hnone r (or_introl eq_refl)). f_equal.
    apply IH. intros r' Hr'. apply Hnone. now right.
Qed.

Lemma update_where_idem {A : Type} (cond : A -> bool) (upd : A -> A)
  (rows : list A) :
  (forall r, cond r = true -> cond (upd r) = false) ->
  update_where cond upd (update_where cond upd rows)
  = update_where cond upd rows.
Proof.
  intros Hoff. unfold update_where. rewrite map_map.
  apply map_ext. intros r. destruct (cond r) eqn:Hc.
  - now rewrite (Hoff r Hc).
  - now rewrite Hc.
Qed.

(** The store is a record: two stores with equal fields are equal. *)
Lemma tables_eta (t : Tables) :
  mk_tables (employees t) (shifts t) (attendance t) (leave_requests t)
            (overtime_requests t) (late_considerations t) (last_insert_id t)
  = t.
Proof. now destruct t. Qed.

(* ------------------------------------------------------------------ *)
(** ** Leave approval *)

(** C1 (the code departs from the claim).  The leave request of
    [leave_db 10] is approved by reviewer 7; the very same call repeated by
    reviewer 8 on the now Approved request succeeds again, overwrites the
    reviewer and debits the five days a second time, taking the balance
    from 5 to 0.  [Q_APPROVE] of the leave model has no
    [status = 'Pending'] condition and [approve_leave] never looks at the
    status it has just read. *)
Theorem approve_leave_twice_debits_twice :
  let first :=
    LeaveController.approve_leave no_error (at_ monday 9 0 0) 1 7 None
      (leave_db 10) in
  let second :=
    LeaveController.approve_leave no_error (at_ monday 9 5 0) 1 8 None
      (fst first) in
  snd first = (true, "Leave request approved successfully.")
  /\ map LeaveModel.status (leave_requests (fst first)) = [Approved]
  /\ map EmployeeModel.leave_credits (employees (fst first)) = [Some 5]
  /\ snd second = (true, "Leave request approved successfully.")
  /\ map LeaveModel.reviewed_by (leave_requests (fst second)) = [Some 8]
  /\ map EmployeeModel.leave_credits (employees (fst second)) = [Some 0].
Proof. vm_compute. repeat split; reflexivity. Qed.

(** C2.  When the employee's balance [C] is below the [D] days of the
    request, [approve_leave] answers with the insufficient-credits message
    and returns the store it was given: the request and the balance read
    afterwards are the ones read before. *)
Theorem approve_leave_insufficient_credits
  (db_error : engine) (now : datetime) (leave_id reviewer : Z)
  (remarks : option string) (db : Tables) (leave : LeaveModel.row)
  (C D : Z) :
  LeaveController.get_leave_by_id db_error leave_id db = Some leave ->
  Database.fetch_one db_error
    (LeaveModel.Q_SELECT_EMPLOYEE_CREDITS (LeaveModel.employee_id leave)) db
  = Some (LeaveModel.mk_credits (Some C)) ->
  LeaveModel.days_count leave = Some D ->
  C < D ->
  let after :=
    LeaveController.approve_leave db_error now leave_id reviewer remarks db in
  snd after
  = (false, "Insufficient leave credits. Available: " ++ str_of_Z C
            ++ ", Required: " ++ str_of_Z D)
  /\ fst after = db
  /\ LeaveController.get_leave_by_id db_error leave_id (fst after)
     = Some leave
  /\ LeaveController.get_employee_credits db_error
       (LeaveModel.employee_id leave) (fst after) = Some C.
Proof.
  intros Hleave Hemp Hdays Hlt after.
  assert (Hafter :
    after = (db, (false, "Insufficient leave credits. Available: "
                         ++ str_of_Z C ++ ", Required: " ++ str_of_Z D))).
  { unfold after, LeaveController.approve_leave.
    unfold LeaveController.get_leave_by_id in Hleave.
    rewrite Hleave, Hemp. cbn [LeaveModel.leave_credits int_or_0].
    rewrite Hdays. cbn [int_or_0].
    destruct (Z.ltb_spec C D) as [_|Hge]; [reflexivity|lia]. }
  rewrite Hafter. cbn [fst snd]. repeat split.
  - exact Hleave.
  - unfold LeaveController.get_employee_credits. now rewrite Hemp.
Qed.

Lemma approve_leave_insufficient_credits_witness :
  let db := leave_db 3 in
  let after :=
    LeaveController.approve_leave no_error (at_ monday 9 0 0) 1 7 None db in
  snd after
  = (false, "Insufficient leave credits. Available: 3, Required: 5")
  /\ fst after = db
  /\ map LeaveModel.status (leave_requests (fst after)) = [Pending]
  /\ LeaveController.get_employee_credits no_error 1 (fst after) = Some 3.
Proof.
  intros db after.
  destruct (@approve_leave_insufficient_credits no_error (at_ monday 9 0 0)
              1 7 None db
              (LeaveModel.mk_row 1 1 "Vacation" monday (monday + 4) (Some 5)
                 "trip" None Pending None None None false) 3 5)
    as (Hmsg & Hdb & _ & Hcred);
    [reflexivity | reflexivity | reflexivity | lia |].
  fold after in Hmsg, Hdb, Hcred.
  split; [exact Hmsg|]. split; [exact Hdb|]. split; [|exact Hcred].
  rewrite Hdb. reflexivity.
Defined.

(* ------------------------------------------------------------------ *)
(** ** Overtime and late-consideration review *)

Lemma overtime_stmt_noop (request_id : Z) (c : review_call) (db : Tables) :
  overtime_terminal request_id db ->
  run_statement (overtime_stmt_of request_id c) db = db.
Proof.
  intros Hterm.
  assert (Hnone : forall r, In r (overtime_requests db) ->
                            overtime_pending_id request_id r = false).
  { intros r Hin. unfold overtime_pending_id.
    destruct (Z.eqb_spec (OvertimeModel.id r) request_id) as [Heq|];
      [|reflexivity].
    specialize (Hterm r Hin Heq).
    destruct (OvertimeModel.status r); [congruence | reflexivity..]. }
  destruct c; cbn [overtime_stmt_of run_statement run_overtime_stmt];
    rewrite (update_where_none _ _ _ Hnone);
    unfold set_overtime_requests; apply tables_eta.
Qed.

Lemma late_stmt_noop (request_id : Z) (c : review_call) (db : Tables) :
  late_terminal request_id db ->
  run_statement (late_stmt_of request_id c) db = db.
Proof.
  intros Hterm.
  assert (Hnone : forall r, In r (late_considerations db) ->
                            late_pending_id request_id r = false).
  { intros r Hin. unfold late_pending_id.
    destruct (Z.eqb_spec (LateConsiderationModel.id r) request_id) as [Heq|];
      [|reflexivity].
    specialize (Hterm r Hin Heq).
    destruct (LateConsiderationModel.status r);
      [congruence | reflexivity..]. }
  destruct c; cbn [late_stmt_of run_statement run_late_stmt];
    rewrite (update_where_none _ _ _ Hnone);
    unfold set_late_considerations; apply tables_eta.
Qed.

Lemma overtime_call_terminal (db_error : engine) (request_id : Z)
  (c : review_call) (db : Tables) :
  overtime_terminal request_id db ->
  overtime_call db_error request_id c db
  = (db, negb (db_error db (Execute (overtime_stmt_of request_id c)))).
Proof.
  intros Hterm. pose proof (overtime_stmt_noop c Hterm) as Hnoop.
  destruct c; cbn [overtime_call overtime_stmt_of] in *;
    unfold OvertimeController.approve_request,
           OvertimeController.reject_request, Database.execute_query;
    destruct (db_error db _); cbn [negb]; now rewrite ?Hnoop.
Qed.

Lemma late_call_terminal (db_error : engine) (request_id : Z)
  (c : review_call) (db : Tables) :
  late_terminal request_id db ->
  late_call db_error request_id c db
  = (db, negb (db_error db (Execute (late_stmt_of request_id c)))).
Proof.
  intros Hterm. pose proof (late_stmt_noop c Hterm) as Hnoop.
  destruct c; cbn [late_call late_stmt_of] in *;
    unfold StaffDashboardController.approve_late_consideration,
           StaffDashboardController.reject_late_consideration,
           Database.execute_query;
    destruct (db_error db _); cbn [negb]; now rewrite ?Hnoop.
Qed.

(** C3 as stated fails.  A Pending overtime request is approved by
    reviewer 7 and the call returns [True]; a second approval and a
    rejection of the now Approved request return [True] as well, the very
    answer of the successful review, while the store stays as the first
    approval left it.  The same holds for the Approved late-consideration
    request of [reviewed_db]. *)
Lemma review_of_terminal_request_reports_success :
  let pending_db :=
    mk_tables [] [] [] []
      [OvertimeModel.mk_row 1 1 monday (NFloat 2) "release" Pending
         None None None false] [] 0 in
  let first :=
    OvertimeController.approve_request no_error (at_ monday 9 0 0) 1 7 None
      pending_db in
  snd first = true
  /\ map OvertimeModel.status (overtime_requests (fst first)) = [Approved]
  /\ OvertimeController.approve_request no_error (at_ monday 10 0 0) 1 8 None
       (fst first) = (fst first, true)
  /\ OvertimeController.reject_request no_error (at_ monday 10 0 0) 1 8
       (Some "late") (fst first) = (fst first, true)
  /\ StaffDashboardController.approve_late_consideration no_error
       (at_ monday 10 0 0) 1 8 None reviewed_db = (reviewed_db, true).
Proof. vm_compute. repeat split; reflexivity. Qed.

(** C3, amended.  Once an overtime or late-consideration request is no
    longer Pending, any sequence of approve/reject calls on its id leaves
    the whole store unchanged, and each call returns [True] exactly when
    its UPDATE ran without a database error: a review that changed nothing
    is reported like one that did. *)
Theorem terminal_request_is_never_rewritten
  (db_error : engine) (request_id : Z) (calls : list review_call)
  (db : Tables) :
  (overtime_terminal request_id db ->
   run_calls (overtime_call db_error request_id) calls db
   = (db, map (fun c => negb (db_error db
                                (Execute (overtime_stmt_of request_id c))))
              calls))
  /\ (late_terminal request_id db ->
      run_calls (late_call db_error request_id) calls db
      = (db, map (fun c => negb (db_error db
                                   (Execute (late_stmt_of request_id c))))
                 calls)).
Proof.
  split; intros Hterm; induction calls as [|c rest IH]; try reflexivity.
  - cbn [run_calls map]. rewrite (overtime_call_terminal db_error c Hterm).
    now rewrite IH.
  - cbn [run_calls map]. rewrite (late_call_terminal db_error c Hterm).
    now rewrite IH.
Qed.

Lemma terminal_request_is_never_rewritten_witness :
  let calls :=
    [ApproveCall (at_ monday 10 0 0) 8 None;
     RejectCall (at_ monday 10 5 0) 9 (Some "late");
     ApproveCall (at_ monday 10 9 0) 8 None] in
  run_calls (overtime_call no_error 1) calls reviewed_db
  = (reviewed_db, [true; true; true])
  /\ run_calls (late_call no_error 1) calls reviewed_db
     = (reviewed_db, [true; true; true]).
Proof.
  intros calls.
  destruct (terminal_request_is_never_rewritten no_error 1 calls reviewed_db)
    as [Hot Hlate].
  split.
  - apply Hot. intros r [<-|[]] _. discriminate.
  - apply Hlate. intros r [<-|[]] _. discriminate.
Defined.

(* ------------------------------------------------------------------ *)
(** ** Duplicate submissions *)

Lemma has_pending_overtime_counts (db_error : engine) (e : Z) (d : date)
  (db : Tables) :
  db_error db (Fetch (OvertimeSelect (OvertimeModel.Q_HAS_PENDING e d)))
  = false ->
  StaffDashboardController.has_pending_overtime db_error e d db
  = (0 <? Z.of_nat (pending_overtime e d db)).
Proof.
  intros Hok. unfold StaffDashboardController.has_pending_overtime,
    Database.fetch_one. now rewrite Hok.
Qed.

Lemma pending_overtime_insert (e e' : Z) (d d' : date) (hours : num)
  (why : string) (db : Tables) :
  pending_overtime e' d'
    (run_statement (OvertimeModel.Q_INSERT e d hours why) db)
  = (pending_overtime e' d' db
     + (if Z.eqb e e' && Z.eqb d d' then 1 else 0))%nat.
Proof.
  unfold pending_overtime.
  cbn [run_statement run_overtime_stmt set_last_insert_id
       set_overtime_requests overtime_requests].
  rewrite filter_app, length_app. f_equal.
  cbn [filter]. unfold overtime_pending_for at 1.
  cbn [OvertimeModel.employee_id OvertimeModel.request_date
       OvertimeModel.status status_eqb].
  rewrite andb_true_r. now destruct (Z.eqb e e' && Z.eqb d d').
Qed.

(** C4 as stated fails for leave: the store already holds a Pending leave
    request of employee 1 for the same start and end dates, yet
    [create_leave_request] of the leave controller inserts a second one
    and returns its id, and the dashboard's [submit_leave] handler reports
    success in the same situation. *)
Lemma duplicate_leave_request_is_accepted :
  let db := leave_db 10 in
  let created :=
    LeaveController.create_leave_request no_error 1 "Vacation" monday
      (monday + 4) (Some 5) "again" None db in
  snd created = Some 2
  /\ map (fun r => (LeaveModel.employee_id r, LeaveModel.start_date r,
                    LeaveModel.end_date r, LeaveModel.status r))
         (leave_requests (fst created))
     = [(1, monday, monday + 4, Pending); (1, monday, monday + 4, Pending)]
  /\ snd (EmployeeDashboardView.submit_leave no_error 1 10 "Vacation" monday
            (monday + 4) "again" None db) = show_info "Success".
Proof. vm_compute. repeat split; reflexivity. Qed.

Lemma existsb_filter_length {A : Type} (p : A -> bool) (l : list A) :
  existsb p l = negb (Nat.eqb (List.length (filter p l)) 0).
Proof.
  induction l as [|x l IH]; [reflexivity|].
  cbn [existsb filter]. destruct (p x); [reflexivity | exact IH].
Qed.

Lemma existsb_map_const {A B : Type} (p : A -> bool) (x : A) (l : list B) :
  p x = false -> existsb p (map (fun _ => x) l) = false.
Proof.
  intros Hx. induction l as [|y l IH]; [reflexivity|].
  cbn [map existsb]. now rewrite Hx, IH.
Qed.

(** The dates of the rows [Q_SELECT_BY_EMPLOYEE] returns are the dates for
    which the employee has a request, whatever the join repeats. *)
Lemma late_by_employee_dates (e : Z) (d : date) (db : Tables) :
  existsb (Z.eqb d)
    (map LateConsiderationModel.attendance_date
       (run_select
          (LateSelect (LateConsiderationModel.Q_SELECT_BY_EMPLOYEE e)) db))
  = negb (Nat.eqb (late_requests e d db) 0).
Proof.
  unfold late_requests. rewrite <- existsb_filter_length.
  cbn [run_select run_late_query].
  generalize (employees db) as emps. intros emps.
  match goal with |- context [flat_map ?f _] => set (F := f) end.
  induction (late_considerations db) as [|lc l IH]; [reflexivity|].
  cbn [flat_map]. rewrite map_app, existsb_app.
  cbn [existsb]. f_equal; [|exact IH]. subst F. cbv beta.
  unfold late_for.
  rewrite (Z.eqb_sym (LateConsiderationModel.attendance_date lc) d).
  destruct (LateConsiderationModel.employee_id lc =? e); [|reflexivity].
  cbn [andb].
  destruct (filter _ emps) as [|x xs].
  - cbn [map existsb]. apply orb_false_r.
  - cbn [map existsb].
    destruct (d =? LateConsiderationModel.attendance_date lc) eqn:E;
      [reflexivity|].
    cbn [orb]. rewrite map_map.
    apply (existsb_map_const (Z.eqb d)
             (LateConsiderationModel.attendance_date lc) xs E).
Qed.

(** What the late-consideration dialog offers when its lookup of the
    existing requests does not fail: the late dates without a request. *)
Lemma date_combo_offer (db_error : engine) (e : Z)
  (late_records : list AttendanceModel.row) (date_combo : list date)
  (db : Tables) :
  db_error db (Fetch (LateSelect
                        (LateConsiderationModel.Q_SELECT_BY_EMPLOYEE e)))
  = false ->
  EmployeeDashboardView.show_request_late_consideration_dialog db_error e
    late_records db = inr date_combo ->
  date_combo
  = filter (fun d => Nat.eqb (late_requests e d db) 0)
           (map AttendanceModel.date_ late_records).
Proof.
  intros Hfetch Hdialog.
  unfold EmployeeDashboardView.show_request_late_consideration_dialog,
    StaffDashboardController.get_employee_late_considerations,
    Database.fetch_all in Hdialog.
  rewrite Hfetch in Hdialog.
  destruct late_records as [|r rs]; [discriminate|].
  rewrite (filter_ext _ (fun d => Nat.eqb (late_requests e d db) 0))
    in Hdialog.
  - destruct (filter _ (map AttendanceModel.date_ (r :: rs)));
      [discriminate | now injection Hdialog as <-].
  - intros d. rewrite late_by_employee_dates. apply negb_involutive.
Qed.

Lemma late_requests_insert (e e' : Z) (d d' : date) (why : string)
  (ev : option string) (db : Tables) :
  late_requests e' d'
    (run_statement (LateConsiderationModel.Q_INSERT e d why ev) db)
  = (late_requests e' d' db
     + (if Z.eqb e e' && Z.eqb d d' then 1 else 0))%nat.
Proof.
  unfold late_requests.
  cbn [run_statement run_late_stmt set_last_insert_id
       set_late_considerations late_considerations].
  rewrite filter_app, length_app. f_equal.
  cbn [filter]. unfold late_for at 1.
  cbn [LateConsiderationModel.employee_id
       LateConsiderationModel.attendance_date].
  now destruct (Z.eqb e e' && Z.eqb d d').
Qed.

Lemma pending_late_insert (e e' : Z) (d d' : date) (why : string)
  (ev : option string) (db : Tables) :
  pending_late e' d'
    (run_statement (LateConsiderationModel.Q_INSERT e d why ev) db)
  = (pending_late e' d' db
     + (if Z.eqb e e' && Z.eqb d d' then 1 else 0))%nat.
Proof.
  unfold pending_late.
  cbn [run_statement run_late_stmt set_last_insert_id
       set_late_considerations late_considerations].
  rewrite filter_app, length_app. f_equal.
  cbn [filter]. unfold late_pending_for at 1.
  cbn [LateConsiderationModel.employee_id
       LateConsiderationModel.attendance_date
       LateConsiderationModel.status status_eqb].
  rewrite andb_true_r. now destruct (Z.eqb e e' && Z.eqb d d').
Qed.

Lemma pending_late_le (e : Z) (d : date) (db : Tables) :
  (pending_late e d db <= late_requests e d db)%nat.
Proof.
  unfold pending_late, late_requests.
  induction (late_considerations db) as [|r l IH]; [apply Nat.le_refl|].
  cbn [filter]. unfold late_pending_for at 1, late_for at 1.
  destruct (LateConsiderationModel.employee_id r =? e);
    destruct (LateConsiderationModel.attendance_date r =? d);
    destruct (status_eqb (LateConsiderationModel.status r) Pending);
    cbn [andb List.length]; lia.
Qed.

(** The store [submit_consideration] leaves: the one it was given, or
    that store after the INSERT for the selected date. *)
Lemma submit_consideration_store (db_error : engine) (e : Z)
  (date_combo : list date) (current_index : nat) (why : string)
  (ev : option string) (db : Tables) :
  fst (EmployeeDashboardView.submit_consideration db_error e date_combo
         current_index why ev db) = db
  \/ exists selected_date,
       nth_error date_combo current_index = Some selected_date
       /\ fst (EmployeeDashboardView.submit_consideration db_error e
                 date_combo current_index why ev db)
          = run_statement
              (LateConsiderationModel.Q_INSERT e selected_date why ev) db.
Proof.
  unfold EmployeeDashboardView.submit_consideration,
    StaffDashboardController.create_late_consideration,
    Database.execute_query.
  destruct (nth_error date_combo current_index) as [sd|]; [|now left].
  destruct (String.eqb why ""); [now left|].
  destruct (db_error db (Execute _)); [now left|].
  right. exists sd. split; reflexivity.
Qed.

(** C4, amended.  The overtime handler [submit_overtime] looks for a
    Pending request of the same employee and date before it inserts:
    provided that lookup does not fail, it refuses with the "Duplicate
    Request" warning and writes nothing when one exists, and so it keeps
    at most one Pending overtime request per (employee, date).  The
    late-consideration dialog checks when it is opened, not when the
    request is submitted: provided its lookup of the employee's requests
    does not fail, it offers exactly the late dates for which the store
    holds no late-consideration request of the employee, whatever its
    status, and ends with "No Eligible Dates" when every late date has
    one; a submission of an offered date on that store therefore keeps at
    most one Pending request, and at most one request of any status, per
    (employee, date).  The submitting closure itself performs no check:
    whenever its INSERT runs, a Pending row for the selected date is
    appended.  Creating a leave request performs no duplicate check at
    all: whenever the INSERT runs, a new Pending row is appended whatever
    the store already holds. *)
Theorem duplicate_checks_guard_overtime_and_late_consideration
  (db_error : engine) (e : Z) (d : date) (hours : num) (reason : string)
  (db : Tables) :
  db_error db (Fetch (OvertimeSelect (OvertimeModel.Q_HAS_PENDING e d)))
  = false ->
  reason <> "" ->
  ((0 < pending_overtime e d db)%nat ->
   EmployeeDashboardView.submit_overtime db_error e d hours reason db
   = (db, show_warning "Duplicate Request"))
  /\ (at_most_one_pending_overtime db ->
      at_most_one_pending_overtime
        (fst (EmployeeDashboardView.submit_overtime db_error e d hours
                reason db)))
  /\ (forall late_records,
         db_error db
           (Fetch (LateSelect
                     (LateConsiderationModel.Q_SELECT_BY_EMPLOYEE e)))
         = false ->
         (forall date_combo,
             EmployeeDashboardView.show_request_late_consideration_dialog
               db_error e late_records db = inr date_combo ->
             (forall d',
                 In d' date_combo
                 <-> In d' (map AttendanceModel.date_ late_records)
                     /\ late_requests e d' db = 0%nat)
             /\ forall current_index why ev,
                 let db' :=
                   fst (EmployeeDashboardView.submit_consideration db_error
                          e date_combo current_index why ev db) in
                 (at_most_one_pending_late db ->
                  at_most_one_pending_late db')
                 /\ (at_most_one_late_request db ->
                     at_most_one_late_request db'))
         /\ (late_records <> [] ->
             (forall r, In r late_records ->
                        (0 < late_requests e (AttendanceModel.date_ r) db)%nat) ->
             EmployeeDashboardView.show_request_late_consideration_dialog
               db_error e late_records db
             = inl (show_info "No Eligible Dates")))
  /\ (forall date_combo current_index selected_date ev,
         nth_error date_combo current_index = Some selected_date ->
         db_error db
           (Execute (LateStmt (LateConsiderationModel.Q_INSERT e
                                 selected_date reason ev))) = false ->
         EmployeeDashboardView.submit_consideration db_error e date_combo
           current_index reason ev db
         = (run_statement
              (LateConsiderationModel.Q_INSERT e selected_date reason ev) db,
            Some (show_info "Success"))
         /\ late_considerations
              (run_statement
                 (LateConsiderationModel.Q_INSERT e selected_date reason ev)
                 db)
            = (late_considerations db
               ++ [LateConsiderationModel.mk_row
                     (next_id (map LateConsiderationModel.id
                                 (late_considerations db)))
                     e selected_date reason ev Pending None None None
                     false])%list)
  /\ (forall ty sd ed days why ev,
         db_error db (Execute (LeaveStmt
                       (LeaveModel.Q_INSERT e ty sd ed days why ev))) = false ->
         leave_requests
           (fst (LeaveController.create_leave_request db_error e ty sd ed
                   days why ev db))
         = (leave_requests db
            ++ [LeaveModel.mk_row
                  (next_id (map LeaveModel.id (leave_requests db)))
                  e ty sd ed days why ev Pending None None None false])%list).
Proof.
  intros Hfetch Hreason.
  assert (Hne : String.eqb reason "" = false).
  { destruct (String.eqb_spec reason ""); [contradiction | reflexivity]. }
  pose proof (has_pending_overtime_counts db_error e d db Hfetch) as Hhas.
  split; [|split; [|split; [|split]]].
  - intros Hpos. unfold EmployeeDashboardView.submit_overtime.
    rewrite Hne, Hhas.
    destruct (Z.ltb_spec 0 (Z.of_nat (pending_overtime e d db)));
      [reflexivity | lia].
  - intros Hinv. unfold EmployeeDashboardView.submit_overtime.
    rewrite Hne, Hhas.
    destruct (Z.ltb_spec 0 (Z.of_nat (pending_overtime e d db)))
      as [|Hzero]; [exact Hinv|].
    destruct (StaffDashboardController.get_approved_overtime_for_date
                db_error e d db); [exact Hinv|].
    unfold StaffDashboardController.create_overtime_request,
      Database.execute_query.
    destruct (db_error db (Execute _)); [exact Hinv|].
    cbn [fst]. intros e' d'. rewrite pending_overtime_insert.
    specialize (Hinv e' d').
    destruct (Z.eqb_spec e e') as [<-|]; destruct (Z.eqb_spec d d') as [<-|];
      cbn [andb]; lia.
  - intros late_records Hlate. split.
    + intros date_combo Hdialog.
      pose proof (@date_combo_offer _ _ _ _ _ Hlate Hdialog) as Hcombo.
      assert (Hoffer : forall d',
                 In d' date_combo
                 <-> In d' (map AttendanceModel.date_ late_records)
                     /\ late_requests e d' db = 0%nat).
      { intros d'. rewrite Hcombo, filter_In, Nat.eqb_eq. reflexivity. }
      split; [exact Hoffer|].
      intros current_index why ev db'. subst db'.
      destruct (submit_consideration_store db_error e date_combo
                  current_index why ev db) as [->|[sd [Hnth ->]]];
        [split; intros H; exact H|].
      assert (Hnone : late_requests e sd db = 0%nat).
      { apply Hoffer. eapply nth_error_In. exact Hnth. }
      pose proof (pending_late_le e sd db) as Hle.
      split; intros Hinv e' d'.
      * rewrite pending_late_insert. specialize (Hinv e' d').
        destruct (Z.eqb_spec e e') as [<-|];
          destruct (Z.eqb_spec sd d') as [<-|]; cbn [andb]; lia.
      * rewrite late_requests_insert. specialize (Hinv e' d').
        destruct (Z.eqb_spec e e') as [<-|];
          destruct (Z.eqb_spec sd d') as [<-|]; cbn [andb]; lia.
    + intros Hrecords Hall.
      destruct (EmployeeDashboardView.show_request_late_consideration_dialog
                  db_error e late_records db) as [m|date_combo] eqn:Hdialog.
      * unfold EmployeeDashboardView.show_request_late_consideration_dialog
          in Hdialog.
        destruct late_records as [|r rs]; [contradiction|].
        match type of Hdialog with
        | match ?c with _ => _ end = _ => destruct c
        end; [now injection Hdialog as <- | discriminate].
      * exfalso.
        pose proof (@date_combo_offer _ _ _ _ _ Hlate Hdialog) as Hcombo.
        assert (Hin : exists d', In d' date_combo).
        { unfold EmployeeDashboardView.show_request_late_consideration_dialog
            in Hdialog.
          destruct late_records as [|r rs]; [discriminate|].
          match type of Hdialog with
          | match ?c with _ => _ end = _ => destruct c as [|d' l]
          end; [discriminate|].
          injection Hdialog as <-. exists d'. now left. }
        destruct Hin as [d' Hin].
        rewrite Hcombo, filter_In, Nat.eqb_eq, in_map_iff in Hin.
        destruct Hin as [[r [<- Hr]] Hzero].
        specialize (Hall r Hr). lia.
  - intros date_combo current_index selected_date ev Hnth Hins.
    unfold EmployeeDashboardView.submit_consideration,
      StaffDashboardController.create_late_consideration,
      Database.execute_query.
    rewrite Hnth, Hne, Hins. split; reflexivity.
  - intros ty sd ed days why ev Hins.
    unfold LeaveController.create_leave_request, Database.execute_query.
    rewrite Hins. reflexivity.
Qed.

Lemma duplicate_checks_guard_overtime_and_late_consideration_witness :
  EmployeeDashboardView.submit_overtime no_error 1 monday (NFloat 3)
    "again" late_week_db
  = (late_week_db, show_warning "Duplicate Request")
  /\ EmployeeDashboardView.show_request_late_consideration_dialog no_error 1
       late_week_records late_week_db = inr [monday + 1]
  /\ at_most_one_late_request
       (fst (EmployeeDashboardView.submit_consideration no_error 1
               [monday + 1] 0 "traffic" None late_week_db)).
Proof.
  destruct (@duplicate_checks_guard_overtime_and_late_consideration
              no_error 1 monday (NFloat 3) "again" late_week_db)
    as [Hdup [_ [Hlate _]]]; [reflexivity | discriminate |].
  split; [apply Hdup; vm_compute; lia|].
  split; [reflexivity|].
  destruct (Hlate late_week_records) as [Hoffer _]; [reflexivity|].
  destruct (Hoffer [monday + 1]) as [_ Hkeep]; [reflexivity|].
  apply (Hkeep 0%nat "traffic" None).
  intros e d. unfold late_requests, late_week_db.
  cbn [late_considerations filter].
  destruct (late_for e d _); cbn [List.length]; lia.
Defined.

(* ------------------------------------------------------------------ *)
(** ** Notification ledger *)

Lemma repeat_call_idem (f : Tables -> Tables * bool) :
  (forall db, fst (f (fst (f db))) = fst (f db)) ->
  forall n db, (1 <= n)%nat -> repeat_call n f db = fst (f db).
Proof.
  intros Hidem n. induction n as [|k IH]; intros db Hn; [lia|].
  cbn [repeat_call]. destruct k as [|k]; [reflexivity|].
  rewrite IH by lia. apply Hidem.
Qed.

Lemma execute_query_idem (db_error : engine) (s : statement) :
  (forall db, run_statement s (run_statement s db) = run_statement s db) ->
  forall db,
    fst (Database.execute_query db_error s
           (fst (Database.execute_query db_error s db)))
    = fst (Database.execute_query db_error s db).
Proof.
  intros Hidem db. unfold Database.execute_query.
  destruct (db_error db (Execute s)) eqn:E; cbn [fst].
  - now rewrite E.
  - destruct (db_error (run_statement s db) (Execute s)); cbn [fst];
      [reflexivity | apply Hidem].
Qed.

Lemma mark_all_leave_idem (e : Z) (db : Tables) :
  let s := LeaveStmt (LeaveModel.Q_MARK_ALL_NOTIFIED e) in
  run_statement s (run_statement s db) = run_statement s db.
Proof.
  cbn [run_statement run_leave_stmt]. unfold set_leave_requests.
  cbn [leave_requests employees shifts attendance overtime_requests
       late_considerations last_insert_id].
  f_equal. apply update_where_idem. intros r _.
  cbn [notify_leave LeaveModel.employee_notified negb]. apply andb_false_r.
Qed.

Lemma mark_all_overtime_idem (e : Z) (db : Tables) :
  let s := OvertimeStmt (OvertimeModel.Q_MARK_ALL_NOTIFIED e) in
  run_statement s (run_statement s db) = run_statement s db.
Proof.
  cbn [run_statement run_overtime_stmt]. unfold set_overtime_requests.
  cbn [leave_requests employees shifts attendance overtime_requests
       late_considerations last_insert_id].
  f_equal. apply update_where_idem. intros r _.
  cbn [notify_overtime OvertimeModel.employee_notified negb].
  apply andb_false_r.
Qed.

Lemma mark_all_late_idem (e : Z) (db : Tables) :
  let s := LateStmt (LateConsiderationModel.Q_MARK_ALL_NOTIFIED e) in
  run_statement s (run_statement s db) = run_statement s db.
Proof.
  cbn [run_statement run_late_stmt]. unfold set_late_considerations.
  cbn [leave_requests employees shifts attendance overtime_requests
       late_considerations last_insert_id].
  f_equal. apply update_where_idem. intros r _.
  cbn [notify_late LateConsiderationModel.employee_notified negb].
  apply andb_false_r.
Qed.

Lemma update_where_Forall2 {A : Type} (R : A -> A -> Prop) (cond : A -> bool)
  (upd : A -> A) (rows : list A) :
  (forall r, R r r) -> (forall r, cond r = true -> R r (upd r)) ->
  Forall2 R rows (update_where cond upd rows).
Proof.
  intros Hrefl Hupd. induction rows as [|r rows IH]; constructor.
  - destruct (cond r) eqn:E; [now apply Hupd | apply Hrefl].
  - exact IH.
Qed.

Lemma update_where_Forall2_cond {A : Type} (R : A -> A -> Prop)
  (cond : A -> bool) (upd : A -> A) (rows : list A) :
  (forall r, cond r = false -> R r r) ->
  (forall r, cond r = true -> R r (upd r)) ->
  Forall2 R rows (update_where cond upd rows).
Proof.
  intros Hkeep Hupd. induction rows as [|r rows IH]; constructor.
  - destruct (cond r) eqn:E; [now apply Hupd | now apply Hkeep].
  - exact IH.
Qed.

(** The UPDATE behind [mark_all_notified], row by row: [notify] raises
    the flag and leaves the status, and changes nothing in a row whose
    flag is already raised. *)
Lemma mark_all_flag_step {A : Type} (owner : A -> Z)
  (st : A -> request_status) (flag : A -> bool) (notify : A -> A) (e : Z)
  (rows : list A) :
  (forall r, flag (notify r) = true) ->
  (forall r, st (notify r) = st r) ->
  (forall r, flag r = true -> notify r = r) ->
  Forall2 (flag_step owner st flag notify e) rows
    (update_where
       (fun r => (owner r =? e) && reviewed (st r) && negb (flag r))
       notify rows).
Proof.
  intros Hflag Hst Hsame. apply update_where_Forall2_cond; intros r Hc.
  - destruct (Z.eqb_spec (owner r) e) as [Ho|Ho]; [|right; auto].
    destruct (reviewed (st r)) eqn:Hs.
    + cbn [andb] in Hc. apply negb_false_iff in Hc.
      left. rewrite (Hsame r Hc). auto.
    + right. split; [right|reflexivity].
      destruct (st r); [reflexivity | discriminate | discriminate].
  - apply andb_prop in Hc as [Hc _]. apply andb_prop in Hc as [Ho Hs].
    left. apply Z.eqb_eq in Ho. auto.
Qed.

(** C8.  For each of the three request types, calling [mark_all_notified]
    for an employee [n >= 1] times leaves the store one call leaves.  A
    call that runs returns [True] and raises the notified flag of every
    request of that employee whose status is Approved or Rejected, and
    changes nothing else: Pending requests, other employees' requests
    and the other tables are left as they are.  A call whose UPDATE raises
    returns [False] and leaves the store as it was. *)
Theorem mark_all_notified_idempotent
  (db_error : engine) (e : Z) (db : Tables) (n : nat) :
  (1 <= n)%nat ->
  (repeat_call n (LeaveController.mark_all_notified db_error e) db
   = fst (LeaveController.mark_all_notified db_error e db)
   /\ repeat_call n (OvertimeController.mark_all_notified db_error e) db
      = fst (OvertimeController.mark_all_notified db_error e db)
   /\ repeat_call n
        (StaffDashboardController.mark_all_late_considerations_notified
           db_error e) db
      = fst (StaffDashboardController.mark_all_late_considerations_notified
               db_error e db))
  /\ marks_reviewed leave_requests set_leave_requests
       (flag_step LeaveModel.employee_id LeaveModel.status
          LeaveModel.employee_notified notify_leave e)
       (db_error db (Execute (LeaveStmt (LeaveModel.Q_MARK_ALL_NOTIFIED e))))
       db
       (LeaveController.mark_all_notified db_error e db)
  /\ marks_reviewed overtime_requests set_overtime_requests
       (flag_step OvertimeModel.employee_id OvertimeModel.status
          OvertimeModel.employee_notified notify_overtime e)
       (db_error db
          (Execute (OvertimeStmt (OvertimeModel.Q_MARK_ALL_NOTIFIED e))))
       db
       (OvertimeController.mark_all_notified db_error e db)
  /\ marks_reviewed late_considerations set_late_considerations
       (flag_step LateConsiderationModel.employee_id
          LateConsiderationModel.status
          LateConsiderationModel.employee_notified notify_late e)
       (db_error db
          (Execute (LateStmt (LateConsiderationModel.Q_MARK_ALL_NOTIFIED e))))
       db
       (StaffDashboardController.mark_all_late_considerations_notified
          db_error e db).
Proof.
  intros Hn. split; [repeat split|split; [|split]].
  - apply repeat_call_idem; [|exact Hn]. intros db0.
    apply execute_query_idem. intros db1. apply mark_all_leave_idem.
  - apply repeat_call_idem; [|exact Hn]. intros db0.
    apply execute_query_idem. intros db1. apply mark_all_overtime_idem.
  - apply repeat_call_idem; [|exact Hn]. intros db0.
    apply execute_query_idem. intros db1. apply mark_all_late_idem.
  - unfold marks_reviewed, LeaveController.mark_all_notified,
      Database.execute_query.
    destruct (db_error db _); [reflexivity|].
    eexists. split; [reflexivity|].
    apply mark_all_flag_step; try reflexivity.
    intros [] Hf. cbn in Hf. now subst.
  - unfold marks_reviewed, OvertimeController.mark_all_notified,
      Database.execute_query.
    destruct (db_error db _); [reflexivity|].
    eexists. split; [reflexivity|].
    apply mark_all_flag_step; try reflexivity.
    intros [] Hf. cbn in Hf. now subst.
  - unfold marks_reviewed,
      StaffDashboardController.mark_all_late_considerations_notified,
      Database.execute_query.
    destruct (db_error db _); [reflexivity|].
    eexists. split; [reflexivity|].
    apply mark_all_flag_step; try reflexivity.
    intros [] Hf. cbn in Hf. now subst.
Qed.

Lemma mark_all_notified_idempotent_witness :
  repeat_call 3 (OvertimeController.mark_all_notified no_error 1) ledger_db
  = fst (OvertimeController.mark_all_notified no_error 1 ledger_db)
  /\ map OvertimeModel.employee_notified
       (overtime_requests
          (fst (OvertimeController.mark_all_notified no_error 1 ledger_db)))
     = [true; false; false].
Proof.
  split.
  - apply (@mark_all_notified_idempotent no_error 1 ledger_db 3). lia.
  - reflexivity.
Defined.

(* ------------------------------------------------------------------ *)
(** ** Attendance: the check-in window *)

Lemma flat_map_all_nil {A B : Type} (f : A -> list B) (l : list A) :
  (forall x, In x l -> f x = []) -> flat_map f l = [].
Proof.
  induction l as [|x l IH]; intros Hnil; [reflexivity|].
  cbn [flat_map]. rewrite (Hnil x (or_introl eq_refl)). cbn [app].
  apply IH. intros y Hy. apply Hnil. now right.
Qed.

Lemma no_active_shift_no_rows (db : Tables) :
  (forall s, In s (shifts db) -> ShiftModel.is_active s = false) ->
  forall q : ShiftModel.query ShiftModel.row, run_shift_query q db = [].
Proof.
  intros Hoff q.
  assert (Hfilter : forall f,
    filter (fun s => f s && ShiftModel.is_active s) (shifts db) = []).
  { intros f. induction (shifts db) as [|s l IH]; [reflexivity|].
    cbn [filter]. rewrite (Hoff s (or_introl eq_refl)), andb_false_r.
    apply IH. intros s' Hs'. apply Hoff. now right. }
  refine (match q in ShiftModel.query R
                return R = ShiftModel.row -> run_shift_query q db = []
          with
          | ShiftModel.Q_SELECT_DEFAULT => fun _ => _
          | ShiftModel.Q_SELECT_FIRST_ACTIVE => fun _ => _
          | ShiftModel.Q_SELECT_EMPLOYEE_SHIFT e => fun _ => _
          end eq_refl); cbn [run_shift_query].
  - now rewrite Hfilter.
  - replace (filter ShiftModel.is_active (shifts db))
      with (filter (fun s => true && ShiftModel.is_active s) (shifts db))
      by (apply filter_ext; reflexivity).
    now rewrite Hfilter.
  - apply flat_map_all_nil. intros s Hs. apply flat_map_all_nil.
    intros emp _. now rewrite (Hoff s Hs), andb_false_r.
Qed.

(** C7.  On a day other than Sunday with no record yet for today,
    [can_check_in] refuses exactly when the current time is outside the
    window of the resolved shift: after the end for a day shift
    ([start < end]), strictly between end and start for a night shift
    ([start > end]).  When no shift is resolved the check-in is allowed,
    and no shift is resolved when the store has no active shift. *)
Theorem can_check_in_window_guard
  (db_error : engine) (e : Z) (now : datetime) (db : Tables) :
  weekday (dt_date now) <> 6 ->
  AttendanceController.get_today_record db_error e now db = None ->
  (forall shift start_t end_t,
      AttendanceController._get_employee_shift db_error e db = Some shift ->
      AttendanceController.to_time (ShiftModel.start_time shift)
      = Ok (PTime start_t) ->
      AttendanceController.to_time (ShiftModel.end_time shift)
      = Ok (PTime end_t) ->
      (time_key start_t < time_key end_t ->
       (allowed (AttendanceController.can_check_in db_error e now db) = false
        <-> time_key end_t < time_key (dt_time now)))
      /\ (time_key end_t < time_key start_t ->
          (allowed (AttendanceController.can_check_in db_error e now db)
           = false
           <-> time_key end_t < time_key (dt_time now) < time_key start_t)))
  /\ (AttendanceController._get_employee_shift db_error e db = None ->
      AttendanceController.can_check_in db_error e now db
      = (true, "", "", ""))
  /\ ((forall s, In s (shifts db) -> ShiftModel.is_active s = false) ->
      AttendanceController._get_employee_shift db_error e db = None).
Proof.
  intros Hday Hrecord.
  assert (Hsun : (weekday (dt_date now) =? 6) = false)
    by now apply Z.eqb_neq.
  split; [|split].
  - intros shift start_t end_t Hshift Hstart Hend.
    unfold AttendanceController.can_check_in.
    rewrite Hsun, Hrecord, Hshift.
    unfold AttendanceController.shift_window_check.
    rewrite Hend, Hstart.
    cbn [bind py_lt py_gt]. unfold time_lt.
    split; intros Horder.
    + destruct (Z.ltb_spec (time_key start_t) (time_key end_t)); [|lia].
      destruct (Z.ltb_spec (time_key end_t) (time_key (dt_time now)));
        cbn [bind allowed fst]; split; intros; (lia || congruence).
    + destruct (Z.ltb_spec (time_key start_t) (time_key end_t)); [lia|].
      cbn [bind].
      destruct (Z.ltb_spec (time_key end_t) (time_key (dt_time now)));
        cbn [bind];
        [destruct (Z.ltb_spec (time_key (dt_time now)) (time_key start_t))|];
        cbn [bind allowed fst]; split; intros; (lia || congruence).
  - intros Hnone. unfold AttendanceController.can_check_in.
    now rewrite Hsun, Hrecord, Hnone.
  - intros Hoff. unfold AttendanceController._get_employee_shift,
      Database.fetch_one. cbn [run_select].
    rewrite !(no_active_shift_no_rows db Hoff).
    repeat (destruct (db_error db _)); reflexivity.
Qed.

Lemma can_check_in_window_guard_witness :
  AttendanceController.can_check_in no_error 1 (at_ monday 17 30 0) shift_db
  = (false, "Outside Shift Schedule",
     "Your shift (Day) is 08:00 AM - 05:00 PM." ++ nl
     ++ "Check-in is not allowed after your shift has ended.", "warning")
  /\ allowed (AttendanceController.can_check_in no_error 1
                (at_ monday 17 30 0) shift_db) = false.
Proof.
  split; [reflexivity|].
  destruct (@can_check_in_window_guard no_error 1 (at_ monday 17 30 0)
              shift_db) as [Hwin _]; [discriminate | reflexivity |].
  destruct (Hwin (ShiftModel.mk_row 1 (Some "Day") (hms 8 0 0) (hms 17 0 0)
                    (Some 15) (Some (NInt 3)) true true)
                 (mk_time 8 0 0 0) (mk_time 17 0 0 0))
    as [Hday _]; [reflexivity..|].
  apply Hday; reflexivity.
Defined.

(** Scenarios of the guard: an open window, the night-shift gap, the
    night shift before midnight, and a store without shifts. *)
Example can_check_in_scenarios :
  AttendanceController.can_check_in no_error 1 (at_ (monday + 1) 9 0 0)
    shift_db = (true, "", "", "")
  /\ allowed (AttendanceController.can_check_in no_error 2
                (at_ monday 12 0 0) shift_db) = false
  /\ allowed (AttendanceController.can_check_in no_error 2
                (at_ monday 23 0 0) shift_db) = true
  /\ allowed (AttendanceController.can_check_in no_error 2
                (at_ monday 6 59 59) shift_db) = true
  /\ allowed (AttendanceController.can_check_in no_error 1
                (at_ monday 23 0 0) empty_db) = true
  /\ allowed (AttendanceController.can_check_in no_error 1
                (at_ sunday 9 0 0) shift_db) = false.
Proof. vm_compute. repeat split; reflexivity. Qed.

(* ------------------------------------------------------------------ *)
(** ** Attendance: mutating calls and their guards *)

(** C10.  Whatever the day, the time, the shift and the record of today,
    [check_in], [start_lunch] and [end_lunch] succeed exactly when their
    single write does not raise, and when it runs the row is inserted or
    updated; [check_out] alone first reads today's record and returns its
    refusal, with the store untouched, when there is none or when
    [time_out] is already set. *)
Theorem mutating_calls_skip_their_guards
  (db_error : engine) (e : Z) (now : datetime) (db : Tables) :
  let tm := strftime_HMS (dt_time now) in
  let today := dt_date now in
  (* check_in *)
  (allowed (snd (AttendanceController.check_in db_error e now db))
   = negb (db_error db (Execute (AttendanceStmt
             (AttendanceModel.Q_CHECK_IN e today tm))))
   /\ (db_error db (Execute (AttendanceStmt
          (AttendanceModel.Q_CHECK_IN e today tm))) = false ->
       attendance (fst (AttendanceController.check_in db_error e now db))
       = (attendance db
          ++ [AttendanceModel.mk_row
                (next_id (map AttendanceModel.id (attendance db))) e today
                (sql_time tm) PNone PNone PNone None None None None
                (Some "Incomplete")])%list))
  (* start_lunch *)
  /\ (allowed (snd (AttendanceController.start_lunch db_error e now db))
      = negb (db_error db (Execute (AttendanceStmt
                (AttendanceModel.Q_START_LUNCH tm e today))))
      /\ (db_error db (Execute (AttendanceStmt
             (AttendanceModel.Q_START_LUNCH tm e today))) = false ->
          attendance (fst (AttendanceController.start_lunch db_error e now db))
          = update_where (attendance_of e today)
              (with_lunch_start (sql_time tm)) (attendance db)))
  (* end_lunch *)
  /\ (allowed (snd (AttendanceController.end_lunch db_error e now db))
      = negb (db_error db (Execute (AttendanceStmt
                (AttendanceModel.Q_END_LUNCH tm e today))))
      /\ (db_error db (Execute (AttendanceStmt
             (AttendanceModel.Q_END_LUNCH tm e today))) = false ->
          attendance (fst (AttendanceController.end_lunch db_error e now db))
          = update_where (attendance_of e today)
              (with_lunch_end (sql_time tm)) (attendance db)))
  (* check_out *)
  /\ (AttendanceController.get_today_record db_error e now db = None ->
      AttendanceController.check_out db_error e now db
      = Ok (db, (false, "Not Checked In",
                 "You have not checked in today.", "warning")))
  /\ (forall r,
         AttendanceController.get_today_record db_error e now db = Some r ->
         truthy (AttendanceModel.time_out r) = true ->
         AttendanceController.check_out db_error e now db
         = Ok (db, (false, "Already Checked Out",
                    "You have already checked out today.", "warning"))).
Proof.
  intros tm today.
  repeat match goal with |- _ /\ _ => split end.
  - unfold AttendanceController.check_in, Database.execute_query.
    fold tm today. now destruct (db_error db _).
  - intros Hok. unfold AttendanceController.check_in, Database.execute_query.
    fold tm today. now rewrite Hok.
  - unfold AttendanceController.start_lunch, Database.execute_query.
    fold tm today. now destruct (db_error db _).
  - intros Hok.
    unfold AttendanceController.start_lunch, Database.execute_query.
    fold tm today. now rewrite Hok.
  - unfold AttendanceController.end_lunch, Database.execute_query.
    fold tm today. now destruct (db_error db _).
  - intros Hok.
    unfold AttendanceController.end_lunch, Database.execute_query.
    fold tm today. now rewrite Hok.
  - intros Hnone. unfold AttendanceController.check_out. now rewrite Hnone.
  - intros r Hsome Hout. unfold AttendanceController.check_out.
    now rewrite Hsome, Hout.
Qed.

Lemma mutating_calls_skip_their_guards_witness :
  allowed (snd (AttendanceController.check_in no_error 1 (at_ sunday 9 0 0)
                  shift_db)) = true
  /\ AttendanceController.check_out no_error 1 (at_ monday 17 0 0) shift_db
     = Ok (shift_db, (false, "Not Checked In",
                      "You have not checked in today.", "warning")).
Proof.
  destruct (mutating_calls_skip_their_guards no_error 1 (at_ sunday 9 0 0)
              shift_db) as [[Hin _] _].
  destruct (mutating_calls_skip_their_guards no_error 1 (at_ monday 17 0 0)
              shift_db) as (_ & _ & _ & Hnone & _).
  split; [rewrite Hin; reflexivity | apply Hnone; reflexivity].
Defined.

(** The guards say no and the mutating calls go through all the same: a
    check-in on a Sunday, a check-in after the end of the shift, a second
    check-in on the same day, a lunch started five minutes after the
    check-in of a shift asking for three hours of work first; a second
    check-out is refused by [check_out] itself. *)
Example guards_are_advisory :
  let on_sunday := at_ sunday 9 0 0 in
  let late_evening := at_ monday 18 0 0 in
  let morning := at_ monday 8 0 0 in
  let in_db := fst (AttendanceController.check_in no_error 1 morning shift_db) in
  let out_db :=
    match AttendanceController.check_out no_error 1 (at_ monday 17 0 0) in_db
    with
    | Ok (db, _) => db
    | Raise _ => in_db
    end in
  (allowed (AttendanceController.can_check_in no_error 1 on_sunday shift_db)
   = false
   /\ allowed (snd (AttendanceController.check_in no_error 1 on_sunday
                      shift_db)) = true)
  /\ (allowed (AttendanceController.can_check_in no_error 1 late_evening
                 shift_db) = false
      /\ allowed (snd (AttendanceController.check_in no_error 1 late_evening
                         shift_db)) = true)
  /\ (allowed (AttendanceController.can_check_in no_error 1 morning in_db)
      = false
      /\ List.length
           (attendance
              (fst (AttendanceController.check_in no_error 1 morning in_db)))
         = 2%nat)
  /\ (AttendanceController.can_start_lunch no_error 1 (at_ monday 8 5 0)
        in_db
      = Ok (false, "Cannot Start Lunch Yet",
            "You need to work at least 3 hours before lunch." ++ nl
            ++ "Earliest lunch: 11:00 AM" ++ nl
            ++ "(175 minutes remaining)", "warning")
      /\ allowed (snd (AttendanceController.start_lunch no_error 1
                         (at_ monday 8 5 0) in_db)) = true
      /\ map AttendanceModel.lunch_start
           (attendance
              (fst (AttendanceController.start_lunch no_error 1
                      (at_ monday 8 5 0) in_db))) = [hms 8 5 0])
  /\ map AttendanceModel.status (attendance out_db)
     = [Some "On Time, Complete"]
  /\ AttendanceController.check_out no_error 1 (at_ monday 17 30 0) out_db
     = Ok (out_db, (false, "Already Checked Out",
                    "You have already checked out today.", "warning")).
Proof. vm_compute. repeat split; reflexivity. Qed.

(* ------------------------------------------------------------------ *)
(** ** Signs of binary64 results

    The sign of a difference, of a quotient and of [round(x, 2)], read off
    the specification of the binary64 operations. *)

Lemma leb_zero_nonneg (x : float) :
  nonneg_sf (Prim2SF x) -> PrimFloat.leb 0%float x = true.
Proof.
  intros H. rewrite leb_spec.
  change (Prim2SF 0%float) with (S754_zero false).
  destruct (Prim2SF x) as [s|s| |s m e]; cbn in *; try destruct s; tauto.
Qed.

Lemma shr_1_nonneg (mrs : shr_record) :
  0 <= shr_m mrs -> 0 <= shr_m (shr_1 mrs).
Proof.
  destruct mrs as [m r s]. cbn [shr_m]. intros Hm.
  destruct m as [|p|p]; [cbn; lia | | lia].
  destruct p; cbn; lia.
Qed.

Lemma iter_pos_invariant {A : Type} (P : A -> Prop) (f : A -> A) :
  (forall x, P x -> P (f x)) -> forall n x, P x -> P (iter_pos f n x).
Proof.
  intros Hf n. induction n as [n IH|n IH|]; intros x Hx; cbn [iter_pos]; auto.
Qed.

Lemma shr_nonneg (mrs : shr_record) (e n : Z) :
  0 <= shr_m mrs -> 0 <= shr_m (fst (shr mrs e n)).
Proof.
  intros Hm. destruct n; cbn [shr fst]; try exact Hm.
  now apply (iter_pos_invariant (fun r => 0 <= shr_m r) shr_1 shr_1_nonneg).
Qed.

Lemma shr_fexp_nonneg (m e : Z) (l : location) :
  0 <= m -> 0 <= shr_m (fst (shr_fexp prec emax m e l)).
Proof.
  intros Hm. unfold shr_fexp. apply shr_nonneg.
  destruct l as [|[]]; exact Hm.
Qed.

Lemma binary_round_aux_nonneg (m e : Z) (l : location) :
  0 <= m -> nonneg_sf (binary_round_aux prec emax false m e l).
Proof.
  intros Hm. unfold binary_round_aux.
  pose proof (shr_fexp_nonneg e l Hm) as H1.
  destruct (shr_fexp prec emax m e l) as [mrs1 e1]. cbn [fst] in H1.
  assert (H2 : 0 <= round_nearest_even (shr_m mrs1) (loc_of_shr_record mrs1)).
  { unfold round_nearest_even.
    destruct (loc_of_shr_record mrs1) as [|[]]; try lia.
    destruct (Z.even (shr_m mrs1)); lia. }
  pose proof (shr_fexp_nonneg e1 loc_Exact H2) as H3.
  destruct (shr_fexp prec emax _ e1 loc_Exact) as [mrs2 e2]. cbn [fst] in H3.
  destruct (shr_m mrs2); [exact I | | lia].
  now destruct (e2 <=? emax - prec).
Qed.

Lemma binary_normalize_nonneg (m e : Z) :
  0 <= m -> nonneg_sf (binary_normalize prec emax m e false).
Proof.
  intros Hm. destruct m as [|p|p]; [exact I | | lia].
  cbn [binary_normalize]. unfold binary_round.
  destruct (shl_align p e _) as [mz ez].
  apply binary_round_aux_nonneg. lia.
Qed.

Lemma float_of_Z_nonneg (n : Z) :
  0 <= n -> nonneg_sf (Prim2SF (float_of_Z n)).
Proof.
  intros Hn. unfold float_of_Z.
  destruct (Z.ltb_spec n 0); [lia|].
  rewrite of_uint63_spec. apply binary_normalize_nonneg.
  apply Uint63.to_Z_bounded.
Qed.

Lemma SFdiv_nonneg (x : spec_float) (my : positive) (ey : Z) :
  nonneg_sf x ->
  nonneg_sf (SFdiv prec emax x (S754_finite false my ey)).
Proof.
  destruct x as [s|s| |s mx ex]; cbn [nonneg_sf SFdiv xorb]; try tauto.
  - destruct s; tauto.
  - destruct s; [tauto|]. intros _. cbn [xorb].
    unfold SFdiv_core_binary.
    set (m' := match _ with Zpos _ => _ | Z0 => _ | Zneg _ => _ end).
    assert (Hm' : 0 <= m').
    { subst m'. destruct (_ - _ - _); try lia. apply Z.shiftl_nonneg. lia. }
    pose proof (Z.div_pos m' (Z.pos my) Hm' ltac:(lia)) as Hq.
    unfold Z.div in Hq.
    destruct (Z.div_eucl m' (Z.pos my)) as [q r]. cbn [fst] in Hq.
    now apply binary_round_aux_nonneg.
Qed.

Lemma round_half_even_nonneg (a b : Z) :
  0 <= a -> 0 < b -> 0 <= round_half_even a b.
Proof.
  intros Ha Hb. unfold round_half_even.
  pose proof (Z.div_pos a b Ha Hb).
  destruct (_ ?= _); [destruct (Z.even _)| |]; lia.
Qed.

Lemma hundredths_nonneg (m : positive) (e : Z) : 0 <= hundredths m e.
Proof.
  unfold hundredths. destruct (Z.leb_spec 0 e).
  - apply Z.mul_nonneg_nonneg; [lia | apply Z.pow_nonneg; lia].
  - apply round_half_even_nonneg; [lia|]. apply Z.pow_pos_nonneg; lia.
Qed.

Lemma float_round2_nonneg (x : float) :
  nonneg_sf (Prim2SF x) -> nonneg_sf (Prim2SF (float_round2 x)).
Proof.
  intros Hx. unfold float_round2.
  destruct (Prim2SF x) as [s|s| |s m e] eqn:E;
    try (rewrite E; exact Hx).
  destruct (-6 <=? e); [rewrite E; exact Hx|].
  cbn [nonneg_sf] in Hx. destruct s; [tauto|].
  rewrite div_spec.
  change (Prim2SF (float_of_Z 100))
    with (S754_finite false 7036874417766400 (-46)).
  apply SFdiv_nonneg, float_of_Z_nonneg, hundredths_nonneg.
Qed.

Lemma shl_align_fst (m : positive) (e e' : Z) :
  e' <= e -> Z.pos (fst (shl_align m e e')) = Z.pos m * 2 ^ (e - e').
Proof.
  intros Hle. unfold shl_align.
  destruct (e' - e) as [|d|d] eqn:E; cbn [fst].
  - replace (e - e') with 0 by lia. lia.
  - lia.
  - replace (e - e') with (Z.pos d) by lia.
    change (Pos.iter xO m d) with (shift_pos d m).
    rewrite shift_pos_correct. change (Zpower_pos 2 d) with (2 ^ Z.pos d).
    lia.
Qed.

Lemma scaled_pos (x : spec_float) :
  0 < scaled x ->
  exists m e, x = S754_finite false m e /\ -64 <= e
              /\ scaled x = Z.pos m * 2 ^ (e + 64).
Proof.
  destruct x as [[]|[]| |[] m e]; cbn [scaled]; try lia.
  destruct (Z.leb_spec (-64) e); [|lia]. intros _. now exists m, e.
Qed.

Lemma SFsub_nonneg (x y : spec_float) :
  0 < scaled y -> scaled y <= scaled x -> nonneg_sf (SFsub prec emax x y).
Proof.
  intros Hy Hle.
  destruct (scaled_pos y Hy) as (my & ey & -> & Hey & Ey).
  destruct (scaled_pos x ltac:(lia)) as (mx & ex & -> & Hex & Ex).
  rewrite Ex, Ey in Hle.
  cbn [SFsub cond_Zopp]. apply binary_normalize_nonneg.
  rewrite !shl_align_fst by lia.
  set (ez := Z.min ex ey) in *.
  assert (Hx : 2 ^ (ex + 64) = 2 ^ (ex - ez) * 2 ^ (ez + 64)).
  { rewrite <- Z.pow_add_r by lia. f_equal. lia. }
  assert (Hy' : 2 ^ (ey + 64) = 2 ^ (ey - ez) * 2 ^ (ez + 64)).
  { rewrite <- Z.pow_add_r by lia. f_equal. lia. }
  rewrite Hx, Hy' in Hle.
  assert (Hc : 0 < 2 ^ (ez + 64)) by (apply Z.pow_pos_nonneg; lia).
  nia.
Qed.

Lemma forall_range_spec (p : Z -> bool) (n : nat) (lo : Z) :
  forall_range n lo p = true ->
  forall s, lo <= s < lo + Z.of_nat n -> p s = true.
Proof.
  revert lo. induction n as [|k IH]; intros lo H s Hs; [lia|].
  cbn [forall_range] in H. apply andb_prop in H as [Hlo Hrest].
  destruct (Z.eq_dec s lo) as [->|Hne]; [exact Hlo|].
  apply (IH (lo + 1) Hrest). lia.
Qed.

Lemma hours_table : forall_range (Z.to_nat last_second) 1 hours_check = true.
Proof. vm_compute. reflexivity. Qed.

Lemma hscaled_step (s : Z) :
  1 <= s <= last_second -> 0 < hscaled s /\ hscaled (s - 1) <= hscaled s.
Proof.
  intros Hs.
  assert (H : hours_check s = true).
  { apply (@forall_range_spec hours_check (Z.to_nat last_second) 1 hours_table).
    rewrite Z2Nat.id; unfold last_second in *; lia. }
  unfold hours_check in H. apply andb_prop in H as [H1 H2]. lia.
Qed.

Lemma hscaled_mono (lo hi : Z) :
  0 <= lo <= hi -> hi <= last_second -> hscaled lo <= hscaled hi.
Proof.
  intros Hlo Hhi.
  replace hi with (lo + Z.of_nat (Z.to_nat (hi - lo))) in * by lia.
  induction (Z.to_nat (hi - lo)) as [|k IH].
  - replace (lo + Z.of_nat 0) with lo by lia. lia.
  - pose proof (@hscaled_step (lo + Z.of_nat (S k)) ltac:(lia)) as [_ Hstep].
    replace (lo + Z.of_nat (S k) - 1) with (lo + Z.of_nat k) in Hstep by lia.
    specialize (IH ltac:(lia) ltac:(lia)). lia.
Qed.

(* ------------------------------------------------------------------ *)
(** ** Paid hours *)

Lemma time_key_clock (s : Z) : time_key (clock s) = s * 1000000.
Proof.
  unfold time_key, clock. cbn [hour minute second microsecond].
  Z.to_euclidean_division_equations. lia.
Qed.

Lemma time_type_clock (s : Z) :
  0 <= s < 86400 ->
  time_type (s / 3600) ((s mod 3600) / 60) (s mod 60) = Ok (clock s).
Proof.
  intros Hs. unfold time_type.
  assert (H : (0 <=? s / 3600) && (s / 3600 <=? 23)
              && (0 <=? s mod 3600 / 60) && (s mod 3600 / 60 <=? 59)
              && (0 <=? s mod 60) && (s mod 60 <=? 59) = true).
  { rewrite !andb_true_iff, !Z.leb_le.
    Z.to_euclidean_division_equations. lia. }
  now rewrite H.
Qed.

Lemma digit_char_roundtrip (d : Z) :
  0 <= d <= 9 ->
  digit_of (digit_char d) = Some d
  /\ Ascii.eqb (digit_char d) ":"%char = false.
Proof.
  intros Hd.
  assert (H : d = 0 \/ d = 1 \/ d = 2 \/ d = 3 \/ d = 4 \/ d = 5 \/ d = 6
              \/ d = 7 \/ d = 8 \/ d = 9) by lia.
  repeat (destruct H as [->|H]; [split; reflexivity|]).
  subst d. split; reflexivity.
Qed.

Lemma strptime_two_digit_fields (h m s : Z) :
  0 <= h < 100 -> 0 <= m < 100 -> 0 <= s < 100 ->
  strptime_HMS (two_digits h ++ ":" ++ two_digits m ++ ":" ++ two_digits s)
  = time_type h m s.
Proof.
  intros Hh Hm Hs. unfold strptime_HMS, two_digits.
  destruct (@digit_char_roundtrip (h / 10)) as [H1 E1];
    [Z.to_euclidean_division_equations; lia|].
  destruct (@digit_char_roundtrip (h mod 10)) as [H2 E2];
    [Z.to_euclidean_division_equations; lia|].
  destruct (@digit_char_roundtrip (m / 10)) as [M1 F1];
    [Z.to_euclidean_division_equations; lia|].
  destruct (@digit_char_roundtrip (m mod 10)) as [M2 F2];
    [Z.to_euclidean_division_equations; lia|].
  destruct (@digit_char_roundtrip (s / 10)) as [S1 G1];
    [Z.to_euclidean_division_equations; lia|].
  destruct (@digit_char_roundtrip (s mod 10)) as [S2 G2];
    [Z.to_euclidean_division_equations; lia|].
  cbn [append split_colon]. rewrite E1, E2. cbn [split_colon Ascii.eqb Bool.eqb].
  rewrite F1, F2. cbn [split_colon Ascii.eqb Bool.eqb]. rewrite G1, G2.
  cbn [split_colon rev app field_of].
  rewrite H1, H2, M1, M2, S1, S2.
  replace (10 * (h / 10) + h mod 10) with h
    by (Z.to_euclidean_division_equations; lia).
  replace (10 * (m / 10) + m mod 10) with m
    by (Z.to_euclidean_division_equations; lia).
  replace (10 * (s / 10) + s mod 10) with s
    by (Z.to_euclidean_division_equations; lia).
  reflexivity.
Qed.

(** Reading back what [strftime('%H:%M:%S')] printed gives the time without
    its microseconds. *)
Lemma strptime_strftime (s : Z) :
  0 <= s < 86400 -> strptime_HMS (strftime_HMS (clock s)) = Ok (clock s).
Proof.
  intros Hs. unfold strftime_HMS, clock. cbn [hour minute second].
  rewrite strptime_two_digit_fields
    by (Z.to_euclidean_division_equations; lia).
  now apply time_type_clock.
Qed.

Lemma reads_as_now_string (s : Z) :
  0 <= s < 86400 -> reads_as (PStr (strftime_HMS (clock s))) s.
Proof. intros Hs. split; [exact Hs | now apply strptime_strftime]. Qed.

Lemma to_datetime_reads_as (today : date) (v : pyval) (s : Z) :
  reads_as v s ->
  AttendanceController.to_datetime today v = Ok (Some (combine today (clock s))).
Proof.
  intros [Hs Hv]. destruct v as [|str|delta|t|x]; try contradiction;
    cbn [AttendanceController.to_datetime].
  - now rewrite Hv.
  - unfold time_of_timedelta, int_total_seconds.
    replace (Z.quot delta 1000000) with s.
    + now rewrite time_type_clock.
    + rewrite Z.quot_div_nonneg by lia.
      apply Z.div_unique with (r := delta - s * 1000000); lia.
  - now subst t.
Qed.

Lemma datetime_sub_clock (today : date) (a b : Z) :
  datetime_sub (combine today (clock a)) (combine today (clock b))
  = (a - b) * 1000000.
Proof.
  unfold datetime_sub, datetime_key, combine. cbn [dt_date dt_time].
  rewrite !time_key_clock. lia.
Qed.

Lemma sub_zero_r (x : float) : PrimFloat.sub x (float_of_Z 0) = x.
Proof.
  apply Prim2SF_inj. rewrite sub_spec.
  change (Prim2SF (float_of_Z 0)) with (S754_zero false).
  destruct (Prim2SF x) as [[]|[]| |s m e]; reflexivity.
Qed.

Lemma hours_of_seconds (d : Z) :
  AttendanceController.hours_of (d * 1000000) = NFloat (hours_f d).
Proof. reflexivity. Qed.

Lemma hours_f_zero : Prim2SF (hours_f 0) = S754_zero false.
Proof. reflexivity. Qed.

Lemma hours_f_nonneg (d : Z) :
  0 <= d <= last_second -> nonneg_sf (Prim2SF (hours_f d)).
Proof.
  intros Hd. destruct (Z.eq_dec d 0) as [->|Hne].
  - now rewrite hours_f_zero.
  - destruct (@hscaled_step d ltac:(lia)) as [Hpos _].
    destruct (scaled_pos _ Hpos) as (m & e & -> & _). exact I.
Qed.

Lemma hours_diff_nonneg (total lunch : Z) :
  0 <= lunch <= total -> total <= last_second ->
  nonneg_sf (Prim2SF (PrimFloat.sub (hours_f total) (hours_f lunch))).
Proof.
  intros Hl Ht. rewrite sub_spec.
  destruct (Z.eq_dec lunch 0) as [->|Hne].
  - rewrite hours_f_zero.
    pose proof (@hours_f_nonneg total ltac:(lia)) as Hn.
    destruct (Prim2SF (hours_f total)) as [[]|[]| |[] m e];
      cbn in *; tauto.
  - destruct (@hscaled_step lunch ltac:(lia)) as [Hpos _].
    apply SFsub_nonneg; [exact Hpos|].
    apply hscaled_mono; lia.
Qed.

(** [round(x, 2) >= 0] as the controller would test it. *)
Lemma round2_ge_zero (x : float) :
  nonneg_sf (Prim2SF x) -> num_ge (round2 (NFloat x)) (NInt 0) = true.
Proof.
  intros Hx. cbn [round2 num_ge to_float].
  change (float_of_Z 0) with 0%float.
  now apply leb_zero_nonneg, float_round2_nonneg.
Qed.

Lemma compute_paid_hours_seconds (today : date) (v_in v_out v_ls v_le : pyval)
  (tin tout : Z) :
  reads_as v_in tin -> reads_as v_out tout ->
  let total := NFloat (hours_f (tout - tin)) in
  (truthy v_ls && truthy v_le = false ->
   AttendanceController.compute_paid_hours today v_in v_out v_ls v_le
   = Ok (mk_hours (round2 total) (NInt 0) (round2 total)))
  /\ (forall ls le,
         truthy v_ls && truthy v_le = true ->
         reads_as v_ls ls -> reads_as v_le le ->
         let lunch := NFloat (hours_f (le - ls)) in
         AttendanceController.compute_paid_hours today v_in v_out v_ls v_le
         = Ok (mk_hours (round2 total) (round2 lunch)
                        (round2 (num_sub total lunch)))).
Proof.
  intros Hin Hout total. unfold AttendanceController.compute_paid_hours.
  rewrite (to_datetime_reads_as today Hin), (to_datetime_reads_as today Hout).
  cbn [bind]. rewrite datetime_sub_clock, hours_of_seconds. fold total.
  split.
  - intros ->. cbn [bind]. unfold total at 2.
    cbn [num_sub to_float round2]. now rewrite sub_zero_r.
  - intros ls le -> Hls Hle.
    rewrite (to_datetime_reads_as today Hls), (to_datetime_reads_as today Hle).
    cbn [bind]. now rewrite datetime_sub_clock, hours_of_seconds.
Qed.

Lemma overnight_table :
  forall_range (Z.to_nat last_second) 1 overnight_check = true.
Proof. vm_compute. reflexivity. Qed.

Lemma overnight_total (d : Z) :
  1 <= d <= last_second ->
  let t := round2 (NFloat (hours_f (- d))) in
  num_ge (NInt 0) t = true /\ (num_lt t (NInt 0) = true <-> 18 <= d).
Proof.
  intros Hd.
  assert (H : overnight_check d = true).
  { apply (@forall_range_spec overnight_check (Z.to_nat last_second) 1
             overnight_table).
    rewrite Z2Nat.id; unfold last_second in *; lia. }
  unfold overnight_check in H. apply andb_prop in H as [Hle Hlt].
  apply Bool.eqb_prop in Hlt.
  cbn [round2 num_ge num_lt to_float]. change (float_of_Z 0) with 0%float.
  split; [exact Hle|]. rewrite Hlt. apply Z.leb_le.
Qed.

(** C5 as stated fails: check-in 08:00:00, lunch from 12:00:00 to 13:00:10,
    check-out 17:00:20.  The outputs are 9.01, 1.0 and 8.0 hours, and 8.0
    is not 9.01 - 1.0: the paid figure is the rounding of the unrounded
    difference, not the difference of the rounded outputs. *)
Lemma paid_hours_is_not_the_difference_of_the_outputs :
  AttendanceController.compute_paid_hours monday (hms 8 0 0)
    (PStr "17:00:20") (hms 12 0 0) (hms 13 0 10)
  = Ok (mk_hours (cents 901) (cents 100) (cents 800))
  /\ num_eqb (cents 800) (num_sub (cents 901) (cents 100)) = false.
Proof. vm_compute. split; reflexivity. Qed.

(** C5, amended.  For times of day given in whole seconds with
    [timeIn <= lunchStart <= lunchEnd <= timeOut], [compute_paid_hours]
    returns [total_time = round(T, 2)], [lunch_duration = round(L, 2)] and
    [paid_hours = round(T - L, 2)], where [T] and [L] are the unrounded
    spans in hours; [paid_hours] is never negative.  When a lunch bound is
    missing (or is the zero [timedelta]), [lunch_duration] is 0 and
    [paid_hours] equals [total_time]. *)
Theorem paid_hours_rounds_the_unrounded_difference
  (today : date) (v_in v_out v_ls v_le : pyval) (tin tout : Z) :
  reads_as v_in tin -> reads_as v_out tout -> tin <= tout ->
  let total := NFloat (hours_f (tout - tin)) in
  (truthy v_ls && truthy v_le = false ->
   AttendanceController.compute_paid_hours today v_in v_out v_ls v_le
   = Ok (mk_hours (round2 total) (NInt 0) (round2 total))
   /\ num_ge (round2 total) (NInt 0) = true)
  /\ (forall ls le,
         truthy v_ls && truthy v_le = true ->
         reads_as v_ls ls -> reads_as v_le le ->
         tin <= ls <= le -> le <= tout ->
         let lunch := NFloat (hours_f (le - ls)) in
         AttendanceController.compute_paid_hours today v_in v_out v_ls v_le
         = Ok (mk_hours (round2 total) (round2 lunch)
                        (round2 (num_sub total lunch)))
         /\ num_ge (round2 (num_sub total lunch)) (NInt 0) = true).
Proof.
  intros Hin Hout Hle total.
  destruct (compute_paid_hours_seconds today v_ls v_le Hin Hout)
    as [Hnone Hboth].
  pose proof (proj1 Hin) as Rin. pose proof (proj1 Hout) as Rout.
  split.
  - intros Hskip. split; [now apply Hnone|].
    apply round2_ge_zero, hours_f_nonneg. unfold last_second. lia.
  - intros ls le Hcount Hls Hlunch Hord Hend lunch.
    split; [now apply Hboth|].
    apply round2_ge_zero, hours_diff_nonneg; unfold last_second; lia.
Qed.

Lemma paid_hours_rounds_the_unrounded_difference_witness :
  AttendanceController.compute_paid_hours monday (hms 8 0 0)
    (PStr "17:00:20") (hms 12 0 0) (hms 13 0 10)
  = Ok (mk_hours (round2 (NFloat (hours_f 32420)))
                 (round2 (NFloat (hours_f 3610)))
                 (round2 (num_sub (NFloat (hours_f 32420))
                                  (NFloat (hours_f 3610)))))
  /\ num_ge (round2 (num_sub (NFloat (hours_f 32420))
                             (NFloat (hours_f 3610)))) (NInt 0) = true.
Proof.
  destruct (@paid_hours_rounds_the_unrounded_difference monday (hms 8 0 0)
              (PStr "17:00:20") (hms 12 0 0) (hms 13 0 10) 28800 61220)
    as [_ Hboth].
  - split; [lia | cbn; lia].
  - split; [lia | reflexivity].
  - lia.
  - apply (Hboth 43200 46810).
    + reflexivity.
    + split; [lia | cbn; lia].
    + split; [lia | cbn; lia].
    + lia.
    + lia.
Defined.

(** C9 as stated fails: a night shift from 22:00 to 06:00 with the lunch
    break taken from 23:30 to 00:30.  [total_time] is -16.0, but the lunch
    span is read as -23.0 hours and [paid_hours] comes out as +7.0. *)
Lemma overnight_paid_hours_can_be_positive :
  AttendanceController.compute_paid_hours monday (hms 22 0 0)
    (PStr "06:00:00") (hms 23 30 0) (hms 0 30 0)
  = Ok (mk_hours (NFloat (float_of_Z (-16))) (NFloat (float_of_Z (-23)))
                 (NFloat (float_of_Z 7)))
  /\ num_lt (NFloat (float_of_Z 7)) (NInt 0) = false.
Proof. vm_compute. split; reflexivity. Qed.

(** C9, amended.  No 24-hour wraparound is applied: when the check-out
    time of day is earlier than the check-in time of day (whole seconds),
    [total_time] is [round((out - in) / 3600, 2)], which is never positive
    and is below zero exactly when the gap is at least 18 seconds.  With no
    lunch interval counted, [paid_hours] is that same figure; with one
    counted it is [round(T - L, 2)] of the unrounded spans. *)
Theorem overnight_span_is_not_wrapped
  (today : date) (v_in v_out v_ls v_le : pyval) (tin tout : Z) :
  reads_as v_in tin -> reads_as v_out tout -> tout < tin ->
  let total := NFloat (hours_f (tout - tin)) in
  (num_ge (NInt 0) (round2 total) = true
   /\ (num_lt (round2 total) (NInt 0) = true <-> 18 <= tin - tout))
  /\ (truthy v_ls && truthy v_le = false ->
      AttendanceController.compute_paid_hours today v_in v_out v_ls v_le
      = Ok (mk_hours (round2 total) (NInt 0) (round2 total)))
  /\ (forall ls le,
         truthy v_ls && truthy v_le = true ->
         reads_as v_ls ls -> reads_as v_le le ->
         let lunch := NFloat (hours_f (le - ls)) in
         AttendanceController.compute_paid_hours today v_in v_out v_ls v_le
         = Ok (mk_hours (round2 total) (round2 lunch)
                        (round2 (num_sub total lunch)))).
Proof.
  intros Hin Hout Hlt total.
  pose proof (proj1 Hin) as Rin. pose proof (proj1 Hout) as Rout.
  split.
  - unfold total. replace (tout - tin) with (- (tin - tout)) by lia.
    apply overnight_total. unfold last_second. lia.
  - apply (compute_paid_hours_seconds today v_ls v_le Hin Hout).
Qed.

Lemma overnight_span_is_not_wrapped_witness :
  AttendanceController.compute_paid_hours monday (hms 22 0 0)
    (PStr "06:00:00") PNone PNone
  = Ok (mk_hours (round2 (NFloat (hours_f (-57600)))) (NInt 0)
                 (round2 (NFloat (hours_f (-57600)))))
  /\ num_lt (round2 (NFloat (hours_f (-57600)))) (NInt 0) = true.
Proof.
  destruct (@overnight_span_is_not_wrapped monday (hms 22 0 0)
              (PStr "06:00:00") PNone PNone 79200 21600)
    as [[_ Hneg] [Hnone _]].
  - split; [lia | cbn; lia].
  - split; [lia | reflexivity].
  - lia.
  - split; [now apply Hnone | apply Hneg; lia].
Defined.

(* ------------------------------------------------------------------ *)
(** ** Status label *)

Lemma time_key_of_key (us : Z) :
  0 <= us < usec_per_day -> time_key (time_of_key us) = us.
Proof.
  unfold usec_per_day, time_key, time_of_key.
  cbn [hour minute second microsecond]. intros Hus.
  Z.to_euclidean_division_equations. lia.
Qed.

(** What [determine_status] computes on two [datetime.time] arguments:
    the end of the grace period is taken as a time of day, that is modulo
    24 hours. *)
Lemma determine_status_label (today : date) (t_in t_start : time)
  (paid : num) (grace : Z) :
  AttendanceController.determine_status today (PTime t_in) paid
    (PTime t_start) grace
  = Ok ((if (time_key t_start + grace * 60000000) mod usec_per_day
            <? time_key t_in
         then "Late" else "On Time")
        ++ ", "
        ++ (if num_ge paid (NInt 8) then "Complete" else "Undertime")).
Proof.
  unfold AttendanceController.determine_status.
  cbn [bind py_gt py_lt]. unfold time_lt, datetime_add.
  cbn [dt_time bind]. rewrite time_key_of_key.
  - unfold datetime_key, combine, timedelta_minutes. cbn [dt_date dt_time].
    replace (today * usec_per_day + time_key t_start + grace * 60000000)
      with (time_key t_start + grace * 60000000 + today * usec_per_day)
      by lia.
    now rewrite Z.mod_add by (unfold usec_per_day; lia).
  - apply Z.mod_pos_bound. unfold usec_per_day. lia.
Qed.

(** As long as the grace period ends before midnight the label is the one
    C6 describes: "Late" exactly when the check-in is after
    [shiftStart + gracePeriod], "Complete" exactly when
    [paid_hours >= 8]. *)
Lemma determine_status_same_day (today : date) (t_in t_start : time)
  (paid : num) (grace : Z) :
  0 <= time_key t_start + grace * 60000000 < usec_per_day ->
  AttendanceController.determine_status today (PTime t_in) paid
    (PTime t_start) grace
  = Ok ((if time_key t_start + grace * 60000000 <? time_key t_in
         then "Late" else "On Time")
        ++ ", "
        ++ (if num_ge paid (NInt 8) then "Complete" else "Undertime")).
Proof.
  intros Hday. rewrite determine_status_label.
  now rewrite Z.mod_small by exact Hday.
Qed.

(** C6 (the code departs from the claim).  A shift starting at 23:50 with
    a 15-minute grace period: a check-in at 23:55 is within
    [shiftStart + gracePeriod], yet it is labelled "Late", because the end
    of the grace period is reduced to the time of day 00:05.  The label
    reaches the store when that employee checks in at 23:55 and out at
    23:58.  The spec's own scenarios, which stay clear of midnight, come
    out as stated. *)
Theorem determine_status_grace_end_wraps_at_midnight :
  AttendanceController.determine_status monday (hms 23 55 0) (NInt 0)
    (hms 23 50 0) 15 = Ok "Late, Undertime"
  /\ time_key (mk_time 23 55 0 0)
     <= time_key (mk_time 23 50 0 0) + timedelta_minutes 15
  /\ (let in_db :=
        fst (AttendanceController.check_in no_error 1 (at_ monday 23 55 0)
               night_db) in
      allowed (AttendanceController.can_check_in no_error 1
                 (at_ monday 23 55 0) night_db) = true
      /\ match AttendanceController.check_out no_error 1
                 (at_ monday 23 58 0) in_db with
         | Ok (db, _) =>
             map AttendanceModel.status (attendance db)
             = [Some "Late, Undertime"]
         | Raise _ => False
         end)
  /\ AttendanceController.determine_status monday (hms 8 0 0) (cents 850)
       (PStr "08:00:00") 15 = Ok "On Time, Complete"
  /\ AttendanceController.determine_status monday (hms 8 15 0) (cents 850)
       (PStr "08:00:00") 15 = Ok "On Time, Complete"
  /\ AttendanceController.determine_status monday (hms 8 20 0) (cents 850)
       (PStr "08:00:00") 15 = Ok "Late, Complete".
Proof. vm_compute. repeat split; try reflexivity; discriminate. Qed.

(* ================================================================== *)
(** * Further properties

    The operations around the ones above: shift resolution, the
    attendance day from check-in to check-out as the handlers of the
    employee dashboard drive it, the leave balance, and the notification
    of reviews. *)

(** ** Shift resolution *)

Lemma hd_error_In {A : Type} (l : list A) (x : A) :
  hd_error l = Some x -> In x l.
Proof. destruct l; simpl; [discriminate | intros [= ->]; now left]. Qed.

Lemma hd_error_firstn_1 {A : Type} (l : list A) :
  hd_error (firstn 1 l) = hd_error l.
Proof. now destruct l. Qed.

Lemma In_hd_error {A : Type} (l : list A) (x : A) :
  In x l -> exists y, hd_error l = Some y.
Proof. destruct l; simpl; [tauto | eauto]. Qed.

Lemma employee_shift_rows (e : Z) (db : Tables) (s : ShiftModel.row) :
  In s (run_shift_query (ShiftModel.Q_SELECT_EMPLOYEE_SHIFT e) db)
  <-> assigned_to e db s.
Proof.
  unfold assigned_to. simpl. rewrite in_flat_map. split.
  - intros (x & Hx & Hin). apply in_flat_map in Hin.
    destruct Hin as (emp & Hemp & Hin).
    destruct (opt_Z_eqb (EmployeeModel.shift_id emp) (ShiftModel.id x)
              && (EmployeeModel.id emp =? e) && ShiftModel.is_active x) eqn:C;
      [| destruct Hin].
    destruct Hin as [<- | []].
    apply andb_prop in C. destruct C as [C Hact].
    apply andb_prop in C. destruct C as [Hsid Hid].
    repeat split; auto. exists emp. repeat split; auto.
    + now apply Z.eqb_eq.
    + unfold opt_Z_eqb in Hsid.
      destruct (EmployeeModel.shift_id emp); [| discriminate].
      apply Z.eqb_eq in Hsid. now subst.
  - intros (Hin & Hact & emp & Hemp & Hid & Hsid).
    exists s. split; [exact Hin |]. apply in_flat_map. exists emp.
    split; [exact Hemp |].
    unfold opt_Z_eqb. rewrite Hsid, Hact, Z.eqb_refl.
    apply Z.eqb_eq in Hid. rewrite Hid. now left.
Qed.

Lemma fetch_one_In (db_error : engine) {R : Type} (q : select R)
  (db : Tables) (r : R) :
  Database.fetch_one db_error q db = Some r -> In r (run_select q db).
Proof.
  unfold Database.fetch_one. destruct (db_error db (Fetch q));
    [discriminate | apply hd_error_In].
Qed.

Lemma firstn_1_In {A : Type} (l : list A) (x : A) :
  In x (firstn 1 l) -> In x l.
Proof. destruct l; simpl; [tauto | intros [<- | []]; now left]. Qed.

Lemma resolved_shift_in_store (db_error : engine) (e : Z) (db : Tables)
  (s : ShiftModel.row) :
  AttendanceController._get_employee_shift db_error e db = Some s ->
  In s (shifts db) /\ ShiftModel.is_active s = true.
Proof.
  unfold AttendanceController._get_employee_shift. intros H.
  destruct (Database.fetch_one db_error
              (ShiftModel.Q_SELECT_EMPLOYEE_SHIFT e) db) eqn:H1.
  { injection H as ->. apply fetch_one_In in H1.
    apply employee_shift_rows in H1. destruct H1 as (? & ? & _). auto. }
  destruct (Database.fetch_one db_error ShiftModel.Q_SELECT_DEFAULT db) eqn:H2.
  { injection H as ->. apply fetch_one_In in H2. simpl in H2.
    apply firstn_1_In, filter_In in H2. destruct H2 as [? H2].
    apply andb_prop in H2. tauto. }
  apply fetch_one_In in H. simpl in H.
  apply firstn_1_In, filter_In in H. tauto.
Qed.

(** X1: whatever shift [_get_employee_shift] resolves is an active shift
    of the store.  When the employee is assigned an active shift and the
    first lookup runs, it is an assigned shift that is resolved: the
    default only stands in when there is none.  As long as some shift is
    active and the last lookup runs, a shift is resolved.  The lookups of
    the shift, staff-dashboard and admin-dashboard controllers resolve
    the same shift as the attendance controller. *)
Theorem resolved_shift_is_active_and_assigned_first
  (db_error : engine) (e : Z) (db : Tables) :
  (forall s,
      AttendanceController._get_employee_shift db_error e db = Some s ->
      In s (shifts db) /\ ShiftModel.is_active s = true)
  /\ (db_error db (Fetch (ShiftSelect (ShiftModel.Q_SELECT_EMPLOYEE_SHIFT e)))
      = false ->
      (exists s, assigned_to e db s) ->
      exists s', AttendanceController._get_employee_shift db_error e db
                 = Some s' /\ assigned_to e db s')
  /\ (db_error db (Fetch (ShiftSelect ShiftModel.Q_SELECT_FIRST_ACTIVE))
      = false ->
      (exists s, In s (shifts db) /\ ShiftModel.is_active s = true) ->
      AttendanceController._get_employee_shift db_error e db <> None)
  /\ ShiftController.get_employee_shift db_error e db
     = AttendanceController._get_employee_shift db_error e db
  /\ StaffDashboardReview.get_employee_shift db_error e db
     = AttendanceController._get_employee_shift db_error e db
  /\ AdminDashboardController.get_employee_shift db_error e db
     = AttendanceController._get_employee_shift db_error e db.
Proof.
  split; [intros s; apply resolved_shift_in_store |].
  split.
  { intros Hfetch (s & Hs).
    apply employee_shift_rows in Hs.
    destruct (In_hd_error _ _ Hs) as (s' & Hhd).
    exists s'. split.
    - unfold AttendanceController._get_employee_shift, Database.fetch_one.
      rewrite Hfetch.
      change (run_select (ShiftSelect (ShiftModel.Q_SELECT_EMPLOYEE_SHIFT e)) db)
        with (run_shift_query (ShiftModel.Q_SELECT_EMPLOYEE_SHIFT e) db).
      now rewrite Hhd.
    - apply employee_shift_rows. now apply hd_error_In. }
  split.
  { intros Hfetch (s & Hin & Hact).
    unfold AttendanceController._get_employee_shift.
    destruct (Database.fetch_one db_error
                (ShiftModel.Q_SELECT_EMPLOYEE_SHIFT e) db); [discriminate |].
    destruct (Database.fetch_one db_error ShiftModel.Q_SELECT_DEFAULT db);
      [discriminate |].
    unfold Database.fetch_one. rewrite Hfetch.
    change (run_select (ShiftSelect ShiftModel.Q_SELECT_FIRST_ACTIVE) db)
      with (firstn 1 (filter ShiftModel.is_active (shifts db))).
    rewrite hd_error_firstn_1.
    assert (Hf : In s (filter ShiftModel.is_active (shifts db)))
      by (apply filter_In; auto).
    destruct (In_hd_error _ _ Hf) as (y & ->). discriminate. }
  repeat split.
Qed.

Lemma resolved_shift_is_active_and_assigned_first_witness :
  exists s', AttendanceController._get_employee_shift no_error 2 shift_db
             = Some s' /\ assigned_to 2 shift_db s'.
Proof.
  apply (resolved_shift_is_active_and_assigned_first no_error 2 shift_db).
  - reflexivity.
  - exists (ShiftModel.mk_row 2 (Some "Night") (hms 22 0 0) (hms 7 0 0)
              (Some 15) (Some (NInt 3)) false true).
    split; [simpl; auto | split; [reflexivity |]].
    exists (EmployeeModel.mk_row 2 (Some 10) (Some 2)).
    split; [simpl; auto | split; reflexivity].
Defined.

(** ** Time columns outside one day *)

Lemma time_of_timedelta_in_range (delta : Z) :
  -1000000 < delta < usec_per_day ->
  time_of_timedelta delta = Ok (clock (Z.quot delta 1000000)).
Proof.
  unfold usec_per_day. intros H. unfold time_of_timedelta, int_total_seconds.
  apply time_type_clock.
  pose proof (Z.quot_rem' delta 1000000) as E.
  destruct (Z_lt_le_dec delta 0) as [Hneg | Hpos].
  - pose proof (Z.rem_bound_pos_neg delta 1000000 ltac:(lia) ltac:(lia)). lia.
  - pose proof (Z.rem_bound_pos delta 1000000 Hpos ltac:(lia)). lia.
Qed.

Lemma time_of_timedelta_out_of_range (delta : Z) :
  delta <= -1000000 \/ usec_per_day <= delta ->
  time_of_timedelta delta = Raise ValueError.
Proof.
  unfold usec_per_day. intros H. unfold time_of_timedelta, int_total_seconds.
  set (ts := Z.quot delta 1000000).
  assert (Hts : ts <= -1 \/ 86400 <= ts).
  { subst ts. pose proof (Z.quot_rem' delta 1000000) as E.
    destruct H as [H | H].
    - pose proof (Z.rem_bound_pos_neg delta 1000000 ltac:(lia) ltac:(lia)). lia.
    - pose proof (Z.rem_bound_pos delta 1000000 ltac:(lia) ltac:(lia)). lia. }
  unfold time_type.
  destruct Hts as [Hts | Hts].
  - assert (ts / 3600 < 0) by (apply Z.div_lt_upper_bound; lia).
    replace (0 <=? ts / 3600) with false by (symmetry; apply Z.leb_gt; lia).
    reflexivity.
  - assert (24 <= ts / 3600) by (apply Z.div_le_lower_bound; lia).
    replace (ts / 3600 <=? 23) with false by (symmetry; apply Z.leb_gt; lia).
    now rewrite andb_false_r.
Qed.

(** X2: a TIME value read from the store is turned into a time of day
    only when it lies within one day: from -1 second (exclusive, the
    fraction is dropped toward zero) up to 24 hours (exclusive) the
    conversion gives the whole second; at 24 hours or more, and at
    -1 second or less, [to_time] raises ValueError, and so do
    [compute_paid_hours] and [determine_status] when it is their
    [time_in]. *)
Theorem time_column_outside_a_day_raises (today : date) (delta : timedelta) :
  (-1000000 < delta < usec_per_day ->
   AttendanceController.to_time (PTimedelta delta)
   = Ok (PTime (clock (Z.quot delta 1000000)))
   /\ AttendanceController.to_datetime today (PTimedelta delta)
      = Ok (Some (combine today (clock (Z.quot delta 1000000)))))
  /\ (delta <= -1000000 \/ usec_per_day <= delta ->
      AttendanceController.to_time (PTimedelta delta) = Raise ValueError
      /\ (forall time_out lunch_start lunch_end,
             AttendanceController.compute_paid_hours today (PTimedelta delta)
               time_out lunch_start lunch_end = Raise ValueError)
      /\ (forall paid_hours shift_start grace,
             AttendanceController.determine_status today (PTimedelta delta)
               paid_hours shift_start grace = Raise ValueError)).
Proof.
  split.
  - intros H. unfold AttendanceController.to_time,
      AttendanceController.to_datetime.
    now rewrite (time_of_timedelta_in_range H).
  - intros H. pose proof (time_of_timedelta_out_of_range H) as E.
    unfold AttendanceController.to_time,
      AttendanceController.compute_paid_hours,
      AttendanceController.to_datetime,
      AttendanceController.determine_status.
    rewrite E. repeat split.
Qed.

Lemma time_column_outside_a_day_raises_witness :
  AttendanceController.to_time (PTimedelta 90000000000) = Raise ValueError
  /\ AttendanceController.to_time (PTimedelta (-500000))
     = Ok (PTime (clock 0)).
Proof.
  split.
  - apply (time_column_outside_a_day_raises monday 90000000000).
    right. unfold usec_per_day. lia.
  - apply (time_column_outside_a_day_raises monday (-500000)).
    unfold usec_per_day. lia.
Defined.

(** ** Check-in with shift times that cannot be read *)

Lemma py_lt_None_r (x : pyval) : py_lt x PNone = Raise TypeError.
Proof. now destruct x. Qed.

Lemma py_lt_None_l (x : pyval) : py_lt PNone x = Raise TypeError.
Proof. now destruct x. Qed.

Lemma to_time_unreadable (v : pyval) :
  unreadable v ->
  AttendanceController.to_time v = Raise ValueError
  \/ AttendanceController.to_time v = Ok PNone.
Proof.
  destruct v; simpl; intros H; try tauto.
  - left. now rewrite H.
  - left. now rewrite (time_of_timedelta_out_of_range H).
Qed.

Lemma shift_window_check_unreadable (shift : ShiftModel.row) (now : datetime) :
  unreadable (ShiftModel.start_time shift)
  \/ unreadable (ShiftModel.end_time shift) ->
  exists e, AttendanceController.shift_window_check shift now = Raise e.
Proof.
  unfold AttendanceController.shift_window_check. intros [H | H];
    apply to_time_unreadable in H.
  - destruct (AttendanceController.to_time (ShiftModel.end_time shift));
      cbn [bind]; [| eauto].
    destruct H as [-> | ->]; cbn [bind]; [eauto |].
    rewrite py_lt_None_l. cbn [bind]. eauto.
  - destruct H as [-> | ->]; cbn [bind]; [eauto |].
    destruct (AttendanceController.to_time (ShiftModel.start_time shift));
      cbn [bind]; [| eauto].
    rewrite py_lt_None_r. cbn [bind]. eauto.
Qed.

(** X3: [can_check_in] fails open on shift times it cannot read: on a
    day other than Sunday, with no record for today, it allows the
    check-in whenever the start or the end time of the resolved shift is
    NULL, a TIME value outside one day or a string that is not
    ['%H:%M:%S'], whatever the current time. *)
Theorem can_check_in_allows_when_shift_times_unreadable
  (db_error : engine) (e : Z) (now : datetime) (db : Tables)
  (shift : ShiftModel.row) :
  weekday (dt_date now) <> 6 ->
  AttendanceController.get_today_record db_error e now db = None ->
  AttendanceController._get_employee_shift db_error e db = Some shift ->
  unreadable (ShiftModel.start_time shift)
  \/ unreadable (ShiftModel.end_time shift) ->
  AttendanceController.can_check_in db_error e now db = (true, "", "", "").
Proof.
  intros Hday Hrec Hshift Hbad.
  unfold AttendanceController.can_check_in.
  apply Z.eqb_neq in Hday. rewrite Hday, Hrec, Hshift.
  destruct (shift_window_check_unreadable shift now Hbad) as (x & ->).
  reflexivity.
Qed.

Lemma can_check_in_allows_when_shift_times_unreadable_witness :
  AttendanceController.can_check_in no_error 1 (at_ monday 23 0 0)
    long_shift_db = (true, "", "", "").
Proof.
  apply (@can_check_in_allows_when_shift_times_unreadable no_error 1
           (at_ monday 23 0 0) long_shift_db
           (ShiftModel.mk_row 1 (Some "Day") (hms 8 0 0) (hms 25 0 0)
              (Some 15) (Some (NInt 3)) true true)).
  - vm_compute. discriminate.
  - reflexivity.
  - reflexivity.
  - right. right. vm_compute. discriminate.
Defined.

(** ** The stored form of the current time *)

Lemma seconds_of_range (t : time) :
  valid_time t -> 0 <= seconds_of t < 86400.
Proof. unfold valid_time, seconds_of. lia. Qed.

Lemma clock_seconds_of (t : time) :
  valid_time t ->
  clock (seconds_of t) = mk_time (hour t) (minute t) (second t) 0.
Proof.
  unfold valid_time, seconds_of, clock. intros (Hh & Hm & Hs & _).
  set (h := hour t) in *. set (m := minute t) in *. set (s := second t) in *.
  assert (E1 : ((h * 60 + m) * 60 + s) / 3600 = h)
    by (symmetry; apply (Z.div_unique _ 3600 h (m * 60 + s)); lia).
  assert (E2 : ((h * 60 + m) * 60 + s) mod 3600 = m * 60 + s)
    by (symmetry; apply (Z.mod_unique _ 3600 h (m * 60 + s)); lia).
  assert (E3 : (m * 60 + s) / 60 = m)
    by (symmetry; apply (Z.div_unique _ 60 m s); lia).
  assert (E4 : ((h * 60 + m) * 60 + s) mod 60 = s)
    by (symmetry; apply (Z.mod_unique _ 60 (h * 60 + m) s); lia).
  now rewrite E1, E2, E3, E4.
Qed.

Lemma strftime_HMS_seconds (t : time) :
  valid_time t -> strftime_HMS t = strftime_HMS (clock (seconds_of t)).
Proof. intros H. now rewrite (clock_seconds_of H). Qed.

Lemma reads_as_strftime (t : time) :
  valid_time t -> reads_as (PStr (strftime_HMS t)) (seconds_of t).
Proof.
  intros H. rewrite (strftime_HMS_seconds H).
  apply reads_as_now_string. now apply seconds_of_range.
Qed.

Lemma sql_time_strftime (t : time) :
  valid_time t ->
  sql_time (strftime_HMS t) = PTimedelta (seconds_of t * 1000000).
Proof.
  intros H. unfold sql_time. rewrite (strftime_HMS_seconds H).
  rewrite strptime_strftime by now apply seconds_of_range.
  now rewrite time_key_clock.
Qed.

(** ** Check-in: what is stored and what the guard then says *)

Lemma filter_app_last {A : Type} (p : A -> bool) (l : list A) (x : A) :
  p x = true -> filter p (l ++ [x]) = (filter p l ++ [x])%list.
Proof. intros H. rewrite filter_app. simpl. now rewrite H. Qed.

Lemma filter_none {A : Type} (p : A -> bool) (l : list A) :
  (forall x, In x l -> p x = false) -> filter p l = [].
Proof.
  induction l as [| a l IH]; simpl; intros H; [reflexivity |].
  rewrite (H a) by now left. apply IH. intros x Hx. apply H. now right.
Qed.

Lemma hd_error_app_nonempty {A : Type} (l : list A) (x : A) :
  exists y, hd_error (l ++ [x]) = Some y /\ (l = [] -> y = x).
Proof.
  destruct l as [| a l]; simpl.
  - exists x. auto.
  - exists a. split; [reflexivity | discriminate].
Qed.

Lemma attendance_of_refl (i e : Z) (d : date) (t : time) :
  attendance_of e d (checked_in_row i e d t) = true.
Proof. unfold attendance_of. simpl. now rewrite !Z.eqb_refl. Qed.

Lemma check_in_store (db_error : engine) (e : Z) (now : datetime)
  (db : Tables) :
  valid_time (dt_time now) ->
  allowed (snd (AttendanceController.check_in db_error e now db)) = true ->
  attendance (fst (AttendanceController.check_in db_error e now db))
  = (attendance db
     ++ [checked_in_row (next_id (map AttendanceModel.id (attendance db)))
           e (dt_date now) (dt_time now)])%list
  /\ employees (fst (AttendanceController.check_in db_error e now db))
     = employees db
  /\ shifts (fst (AttendanceController.check_in db_error e now db))
     = shifts db.
Proof.
  intros Hv. unfold AttendanceController.check_in, Database.execute_query.
  destruct (db_error db _); simpl; [discriminate |]. intros _.
  rewrite (sql_time_strftime Hv). repeat split.
Qed.

(** X4: a check-in that reports success is read back: for any later
    moment of the same date (the read not failing) [can_check_in] refuses
    and the check-in button is disabled; and when the employee had no
    record for that date, [get_today_record] returns the new record, whose
    [time_in] is the check-in time cut to the whole second, with status
    'Incomplete' and nothing else set. *)
Theorem check_in_is_read_back_and_closes_the_guard
  (db_error : engine) (e : Z) (now later : datetime) (db : Tables) :
  let after := fst (AttendanceController.check_in db_error e now db) in
  valid_time (dt_time now) ->
  allowed (snd (AttendanceController.check_in db_error e now db)) = true ->
  dt_date later = dt_date now ->
  db_error after
    (Fetch (AttendanceSelect (AttendanceModel.Q_GET_TODAY e (dt_date now))))
  = false ->
  allowed (AttendanceController.can_check_in db_error e later after) = false
  /\ checkin_btn (EmployeeDashboardAttendance.update_button_states
                    (AttendanceController.get_today_record db_error e later
                       after)) = false
  /\ ((forall r, In r (attendance db) ->
                 attendance_of e (dt_date now) r = false) ->
      AttendanceController.get_today_record db_error e later after
      = Some (checked_in_row
                (next_id (map AttendanceModel.id (attendance db)))
                e (dt_date now) (dt_time now))).
Proof.
  intros after Hv Hok Hdate Hfetch.
  destruct (check_in_store db_error e now db Hv Hok) as (Hatt & _ & _).
  fold after in Hatt.
  set (new := checked_in_row _ _ _ _) in *.
  assert (Hrec : AttendanceController.get_today_record db_error e later after
                 = hd_error (filter (attendance_of e (dt_date now))
                               (attendance db) ++ [new])%list).
  { unfold AttendanceController.get_today_record, Database.fetch_one.
    rewrite Hdate, Hfetch.
    change (run_select (AttendanceSelect
                          (AttendanceModel.Q_GET_TODAY e (dt_date now))) after)
      with (filter (attendance_of e (dt_date now)) (attendance after)).
    rewrite Hatt. rewrite filter_app_last by apply attendance_of_refl.
    reflexivity. }
  destruct (hd_error_app_nonempty
              (filter (attendance_of e (dt_date now)) (attendance db)) new)
    as (y & Hy & Hnew).
  rewrite Hy in Hrec.
  split; [| split].
  - unfold AttendanceController.can_check_in. rewrite Hrec.
    now destruct (weekday (dt_date later) =? 6).
  - rewrite Hrec. unfold EmployeeDashboardAttendance.update_button_states.
    destruct (truthy (AttendanceModel.time_out y)); [reflexivity |].
    destruct (truthy (AttendanceModel.lunch_start y));
      destruct (truthy (AttendanceModel.lunch_end y)); reflexivity.
  - intros Hnone. rewrite Hrec. f_equal. apply Hnew.
    now apply filter_none.
Qed.

Lemma check_in_is_read_back_and_closes_the_guard_witness :
  allowed (AttendanceController.can_check_in no_error 1 (at_ monday 9 30 0)
             (fst (AttendanceController.check_in no_error 1
                     (at_ monday 8 0 0) shift_db))) = false.
Proof.
  apply (check_in_is_read_back_and_closes_the_guard no_error 1
           (at_ monday 8 0 0) (at_ monday 9 30 0) shift_db).
  - unfold valid_time. simpl. lia.
  - reflexivity.
  - reflexivity.
  - reflexivity.
Defined.

(** ** One attendance record per employee and day *)

Lemma hd_error_None {A : Type} (l : list A) : hd_error l = None -> l = [].
Proof. destruct l; [reflexivity | discriminate]. Qed.

Lemma can_check_in_allowed_inv (db_error : engine) (e : Z) (now : datetime)
  (db : Tables) :
  allowed (AttendanceController.can_check_in db_error e now db) = true ->
  weekday (dt_date now) <> 6
  /\ AttendanceController.get_today_record db_error e now db = None.
Proof.
  unfold AttendanceController.can_check_in.
  destruct (weekday (dt_date now) =? 6) eqn:Hday; [discriminate |].
  destruct (AttendanceController.get_today_record db_error e now db);
    [discriminate |].
  intros _. split; [now apply Z.eqb_neq | reflexivity].
Qed.

Lemma records_of_check_in (e e' : Z) (d d' : date) (tm : string)
  (db : Tables) :
  records_of e' d'
    (run_statement (AttendanceStmt (AttendanceModel.Q_CHECK_IN e d tm)) db)
  = (records_of e' d' db + (if Z.eqb e e' && Z.eqb d d' then 1 else 0))%nat.
Proof.
  unfold records_of. simpl. rewrite filter_app, length_app. f_equal.
  simpl. unfold attendance_of at 1. simpl.
  now destruct (Z.eqb e e' && Z.eqb d d').
Qed.

(** X5: through the handler of the check-in button the store keeps at
    most one attendance record per employee and date, provided the read
    of today's record does not fail and the guard and the action fall on
    the same date: [handle_check_in] writes nothing when a record of
    today exists, on a Sunday, or when the question is declined. *)
Theorem handle_check_in_keeps_one_record_per_day
  (db_error : engine) (e : Z) (asked now : datetime) (confirmed : bool)
  (db : Tables) :
  let after :=
    fst (EmployeeDashboardAttendance.handle_check_in db_error e asked now
           confirmed db) in
  dt_date now = dt_date asked ->
  db_error db
    (Fetch (AttendanceSelect (AttendanceModel.Q_GET_TODAY e (dt_date asked))))
  = false ->
  (one_record_per_day db -> one_record_per_day after)
  /\ ((0 < records_of e (dt_date asked) db)%nat -> after = db)
  /\ (weekday (dt_date asked) = 6 -> after = db)
  /\ (confirmed = false -> after = db).
Proof.
  intros after Hdate Hfetch. subst after.
  unfold EmployeeDashboardAttendance.handle_check_in.
  destruct (allowed (AttendanceController.can_check_in db_error e asked db))
    eqn:Hguard; simpl; [| tauto].
  destruct (can_check_in_allowed_inv _ _ _ _ Hguard) as (Hday & Hrec).
  assert (Hzero : records_of e (dt_date asked) db = 0%nat).
  { unfold AttendanceController.get_today_record, Database.fetch_one in Hrec.
    rewrite Hfetch in Hrec. apply hd_error_None in Hrec.
    unfold records_of.
    change (run_select (AttendanceSelect
                          (AttendanceModel.Q_GET_TODAY e (dt_date asked))) db)
      with (filter (attendance_of e (dt_date asked)) (attendance db)) in Hrec.
    now rewrite Hrec. }
  destruct confirmed; simpl.
  2: { repeat split; auto. }
  unfold AttendanceController.check_in, Database.execute_query.
  destruct (db_error db (Execute _)); cbv beta iota delta [fst].
  { repeat split; auto. }
  repeat split; try lia; try tauto; try discriminate.
  intros Hinv e' d'.
  rewrite records_of_check_in.
  destruct (Z.eqb e e' && Z.eqb (dt_date now) d') eqn:Heq.
  - apply andb_prop in Heq. destruct Heq as [He Hd].
    apply Z.eqb_eq in He, Hd. subst e' d'. rewrite Hdate, Hzero. lia.
  - specialize (Hinv e' d'). lia.
Qed.

Lemma handle_check_in_keeps_one_record_per_day_witness :
  one_record_per_day
    (fst (EmployeeDashboardAttendance.handle_check_in no_error 1
            (at_ monday 8 0 0) (at_ monday 8 0 5) true
            (fst (AttendanceController.check_in no_error 1
                    (at_ monday 7 55 0) shift_db)))).
Proof.
  apply (handle_check_in_keeps_one_record_per_day no_error 1
           (at_ monday 8 0 0) (at_ monday 8 0 5) true
           (fst (AttendanceController.check_in no_error 1
                   (at_ monday 7 55 0) shift_db))).
  - reflexivity.
  - reflexivity.
  - intros e d. unfold records_of. simpl.
    destruct (attendance_of e d _); simpl; lia.
Defined.

(** ** The status label *)

Lemma determine_status_shape (today : date) (time_in shift_start : pyval)
  (grace : Z) :
  (exists e, forall paid,
      AttendanceController.determine_status today time_in paid shift_start
        grace = Raise e)
  \/ (exists late, forall paid,
         AttendanceController.determine_status today time_in paid
           shift_start grace
         = Ok (status_label late (num_ge paid (NInt 8)))).
Proof.
  unfold AttendanceController.determine_status.
  destruct (match time_in with
            | PDatetime x => Ok (PTime (dt_time x))
            | PTimedelta delta => t <- time_of_timedelta delta ;; Ok (PTime t)
            | v => Ok v
            end) as [check_in_time | x]; cbn [bind];
    [| left; exists x; reflexivity].
  destruct (match shift_start with
            | PTimedelta delta => t <- time_of_timedelta delta ;; Ok (PTime t)
            | PStr s => t <- strptime_HMS s ;; Ok (PTime t)
            | v => Ok v
            end) as [start | x]; cbn [bind];
    [| left; exists x; reflexivity].
  destruct (match start with
            | PTime t => Ok (combine today t)
            | _ => Raise TypeError
            end) as [start_dt | x]; cbn [bind];
    [| left; exists x; reflexivity].
  destruct (py_gt check_in_time _) as [late | x]; cbn [bind];
    [| left; exists x; reflexivity].
  right. exists late. reflexivity.
Qed.

(** X9: the two words of the status label are independent.  For the
    same check-in time, shift start and grace period, [determine_status]
    either raises the same exception whatever [paid_hours] is, or returns
    labels with the same punctuality word, in which the second word is
    'Complete' exactly when that call's [paid_hours >= 8]. *)
Theorem determine_status_axes_are_independent
  (today : date) (time_in shift_start : pyval) (grace : Z)
  (paid paid' : num) :
  match AttendanceController.determine_status today time_in paid shift_start
          grace,
        AttendanceController.determine_status today time_in paid'
          shift_start grace with
  | Ok l, Ok l' =>
      exists late,
        l = status_label late (num_ge paid (NInt 8))
        /\ l' = status_label late (num_ge paid' (NInt 8))
  | Raise e, Raise e' => e = e'
  | _, _ => False
  end.
Proof.
  destruct (determine_status_shape today time_in shift_start grace)
    as [(e & H) | (late & H)]; rewrite !H.
  - reflexivity.
  - exists late. split; reflexivity.
Qed.

(** ** Check-out: what is stored *)

Lemma ltb_leb (x y : float) :
  PrimFloat.ltb x y = true -> PrimFloat.leb x y = true.
Proof.
  rewrite FloatAxioms.ltb_spec, FloatAxioms.leb_spec.
  unfold SFltb, SFleb. now destruct (SFcompare _ _) as [[ | | ] |].
Qed.

Lemma overtime_of_nonneg (paid : num) :
  num_ge (overtime_of paid) (NInt 0) = true.
Proof.
  unfold overtime_of, num_max.
  destruct (num_lt (NInt 0) _) eqn:H; [| reflexivity].
  destruct (round2 _) as [z | f]; simpl in *.
  - apply Z.leb_le. apply Z.ltb_lt in H. lia.
  - now apply ltb_leb.
Qed.

Lemma filter_update_where_same {A : Type} (cond : A -> bool) (upd : A -> A)
  (rows : list A) :
  (forall r, cond (upd r) = cond r) ->
  filter cond (update_where cond upd rows) = map upd (filter cond rows).
Proof.
  intros Hkeep. unfold update_where.
  induction rows as [| a rows IH]; simpl; [reflexivity |].
  destruct (cond a) eqn:Ha; simpl.
  - rewrite Hkeep, Ha. simpl. now rewrite IH.
  - now rewrite Ha.
Qed.

Lemma In_update_where {A : Type} (cond : A -> bool) (upd : A -> A)
  (rows : list A) (r' : A) :
  In r' (update_where cond upd rows) ->
  exists r, In r rows /\ r' = (if cond r then upd r else r).
Proof.
  unfold update_where. intros H. apply in_map_iff in H.
  destruct H as (r & <- & Hin). eauto.
Qed.

Lemma check_out_success_inv (db_error : engine) (e : Z) (now : datetime)
  (db db' : Tables) (shown : outcome) :
  AttendanceController.check_out db_error e now db = Ok (db', shown) ->
  allowed shown = true ->
  exists r res status,
    AttendanceController.get_today_record db_error e now db = Some r
    /\ truthy (AttendanceModel.time_out r) = false
    /\ AttendanceController.compute_paid_hours (dt_date now)
         (AttendanceModel.time_in r) (PStr (strftime_HMS (dt_time now)))
         (AttendanceModel.lunch_start r) (AttendanceModel.lunch_end r)
       = Ok res
    /\ AttendanceController.determine_status (dt_date now)
         (AttendanceModel.time_in r) (h_paid_hours res)
         (shift_start_of
            (AttendanceController._get_employee_shift db_error e db))
         (grace_period_of
            (AttendanceController._get_employee_shift db_error e db))
       = Ok status
    /\ db' = run_statement
               (AttendanceStmt
                  (AttendanceModel.Q_CHECK_OUT (strftime_HMS (dt_time now))
                     (h_total_time res) (h_lunch_duration res)
                     (h_paid_hours res) (overtime_of (h_paid_hours res))
                     status e (dt_date now))) db.
Proof.
  unfold AttendanceController.check_out.
  destruct (AttendanceController.get_today_record db_error e now db)
    as [r |]; [| intros [= <- <-]; discriminate].
  destruct (truthy (AttendanceModel.time_out r)) eqn:Hout;
    [intros [= <- <-]; discriminate |].
  destruct (AttendanceController.compute_paid_hours _ _ _ _ _) as [res | x]
    eqn:Hres; cbn [bind]; [| discriminate].
  fold (shift_start_of (AttendanceController._get_employee_shift db_error e db)).
  fold (grace_period_of (AttendanceController._get_employee_shift db_error e db)).
  destruct (AttendanceController.determine_status _ _ _ _ _) as [status | x]
    eqn:Hstatus; cbn [bind]; [| discriminate].
  unfold Database.execute_query.
  destruct (db_error db (Execute _)); intros [= <- <-]; [discriminate |].
  intros _. exists r, res, status. repeat split; assumption.
Qed.

(** X8: what a successful [check_out] stores.  Every record of the
    employee for that date carries the clock time as [time_out], an
    [overtime_hours] equal to [max(0, round(paid_hours - 8, 2))], which is
    never negative, and one of the four status labels, 'Complete' exactly
    when its [paid_hours >= 8]; the records of other employees and dates
    are untouched, and no record changes its employee, date, [time_in] or
    lunch times. *)
Theorem check_out_grades_only_todays_record
  (db_error : engine) (e : Z) (now : datetime) (db db' : Tables)
  (shown : outcome) :
  AttendanceController.check_out db_error e now db = Ok (db', shown) ->
  allowed shown = true ->
  (forall r', In r' (attendance db') ->
              attendance_of e (dt_date now) r' = true ->
              exists paid late,
                AttendanceModel.paid_hours r' = Some paid
                /\ AttendanceModel.overtime_hours r' = Some (overtime_of paid)
                /\ num_ge (overtime_of paid) (NInt 0) = true
                /\ AttendanceModel.status r'
                   = Some (status_label late (num_ge paid (NInt 8)))
                /\ AttendanceModel.time_out r'
                   = sql_time (strftime_HMS (dt_time now)))
  /\ Forall2 (fun r r' => attendance_of e (dt_date now) r = false -> r' = r)
       (attendance db) (attendance db')
  /\ Forall2 (fun r r' =>
                AttendanceModel.employee_id r' = AttendanceModel.employee_id r
                /\ AttendanceModel.date_ r' = AttendanceModel.date_ r
                /\ AttendanceModel.time_in r' = AttendanceModel.time_in r
                /\ AttendanceModel.lunch_start r'
                   = AttendanceModel.lunch_start r
                /\ AttendanceModel.lunch_end r' = AttendanceModel.lunch_end r)
       (attendance db) (attendance db').
Proof.
  intros Hout Hok.
  destruct (check_out_success_inv _ _ _ _ Hout Hok)
    as (r & res & status & _ & _ & _ & Hstatus & ->).
  destruct (determine_status_shape (dt_date now) (AttendanceModel.time_in r)
              (shift_start_of
                 (AttendanceController._get_employee_shift db_error e db))
              (grace_period_of
                 (AttendanceController._get_employee_shift db_error e db)))
    as [(x & H) | (late & H)]; rewrite H in Hstatus; [discriminate |].
  injection Hstatus as <-.
  split; [| split].
  - intros r' Hin Hmine. simpl in Hin. apply In_update_where in Hin.
    destruct Hin as (r0 & _ & ->).
    destruct (attendance_of e (dt_date now) r0) eqn:H0.
    + exists (h_paid_hours res), late. repeat split.
      apply overtime_of_nonneg.
    + congruence.
  - simpl. apply update_where_Forall2; [auto | congruence].
  - simpl. apply update_where_Forall2; [auto |]. intros r0 _. simpl. auto.
Qed.

Lemma check_out_grades_only_todays_record_witness :
  Forall2 (fun r r' => attendance_of 1 monday r = false -> r' = r)
    (attendance morning_db) (attendance (fst evening)).
Proof.
  apply (@check_out_grades_only_todays_record no_error 1 (at_ monday 17 0 0)
           morning_db (fst evening) (snd evening)).
  - vm_compute. reflexivity.
  - vm_compute. reflexivity.
Defined.

(** ** Check-out closes the day *)

Lemma hd_error_map {A B : Type} (f : A -> B) (l : list A) :
  hd_error (map f l) = option_map f (hd_error l).
Proof. now destruct l. Qed.

Lemma get_today_record_inv (db_error : engine) (e : Z) (now : datetime)
  (db : Tables) (r : AttendanceModel.row) :
  AttendanceController.get_today_record db_error e now db = Some r ->
  hd_error (filter (attendance_of e (dt_date now)) (attendance db)) = Some r.
Proof.
  unfold AttendanceController.get_today_record, Database.fetch_one.
  now destruct (db_error db _).
Qed.

Lemma today_record_after_update (db_error : engine) (e : Z)
  (now later : datetime) (db : Tables) (s : AttendanceModel.stmt)
  (upd : AttendanceModel.row -> AttendanceModel.row)
  (r : AttendanceModel.row) :
  AttendanceController.get_today_record db_error e now db = Some r ->
  dt_date later = dt_date now ->
  attendance (run_statement (AttendanceStmt s) db)
  = update_where (attendance_of e (dt_date now)) upd (attendance db) ->
  (forall x, attendance_of e (dt_date now) (upd x)
             = attendance_of e (dt_date now) x) ->
  db_error (run_statement (AttendanceStmt s) db)
    (Fetch (AttendanceSelect (AttendanceModel.Q_GET_TODAY e (dt_date now))))
  = false ->
  AttendanceController.get_today_record db_error e later
    (run_statement (AttendanceStmt s) db) = Some (upd r).
Proof.
  intros Hrec Hdate Hatt Hkeep Hfetch.
  apply get_today_record_inv in Hrec.
  unfold AttendanceController.get_today_record, Database.fetch_one.
  rewrite Hdate, Hfetch.
  change (run_select (AttendanceSelect
                        (AttendanceModel.Q_GET_TODAY e (dt_date now)))
            (run_statement (AttendanceStmt s) db))
    with (filter (attendance_of e (dt_date now))
            (attendance (run_statement (AttendanceStmt s) db))).
  rewrite Hatt, (filter_update_where_same _ _ _ Hkeep), hd_error_map, Hrec.
  reflexivity.
Qed.

(** X7: a successful check-out closes the day unless it happens in the
    first second after midnight.  For any later moment of the same date
    [can_check_out] allows a further check-out exactly when the stored
    [time_out] is 00:00:00, which reads as unset; otherwise a second
    [check_out] is refused with 'Already Checked Out', leaves the store
    as it is, and all four buttons are disabled. *)
Theorem check_out_closes_the_day_unless_at_midnight
  (db_error : engine) (e : Z) (now later : datetime) (db db' : Tables)
  (shown : outcome) :
  valid_time (dt_time now) ->
  AttendanceController.check_out db_error e now db = Ok (db', shown) ->
  allowed shown = true ->
  dt_date later = dt_date now ->
  db_error db'
    (Fetch (AttendanceSelect (AttendanceModel.Q_GET_TODAY e (dt_date now))))
  = false ->
  allowed (AttendanceController.can_check_out db_error e later db')
  = (seconds_of (dt_time now) =? 0)
  /\ (seconds_of (dt_time now) <> 0 ->
      AttendanceController.check_out db_error e later db'
      = Ok (db', (false, "Already Checked Out",
                  "You have already checked out today.", "warning"))
      /\ EmployeeDashboardAttendance.update_button_states
           (AttendanceController.get_today_record db_error e later db')
         = mk_buttons false false false false).
Proof.
  intros Hv Hout Hok Hdate Hfetch.
  destruct (check_out_success_inv _ _ _ _ Hout Hok)
    as (r & res & status & Hrec & _ & _ & _ & ->).
  pose proof (today_record_after_update db_error e now later db
                (AttendanceModel.Q_CHECK_OUT (strftime_HMS (dt_time now))
                   (h_total_time res) (h_lunch_duration res)
                   (h_paid_hours res) (overtime_of (h_paid_hours res))
                   status e (dt_date now))
                (checked_out_row (sql_time (strftime_HMS (dt_time now)))
                   (h_total_time res) (h_lunch_duration res)
                   (h_paid_hours res) (overtime_of (h_paid_hours res))
                   status)
                Hrec Hdate eq_refl (fun x => eq_refl) Hfetch) as Hlater.
  assert (Htruthy :
            truthy (AttendanceModel.time_out
                      (checked_out_row (sql_time (strftime_HMS (dt_time now)))
                         (h_total_time res) (h_lunch_duration res)
                         (h_paid_hours res) (overtime_of (h_paid_hours res))
                         status r))
            = negb (seconds_of (dt_time now) =? 0)).
  { simpl. rewrite (sql_time_strftime Hv). simpl. f_equal.
    destruct (Z.eqb_spec (seconds_of (dt_time now)) 0) as [-> | Hne];
      [reflexivity | apply Z.eqb_neq; lia]. }
  split.
  - unfold AttendanceController.can_check_out. rewrite Hlater, Htruthy.
    now destruct (seconds_of (dt_time now) =? 0).
  - intros Hne. apply Z.eqb_neq in Hne. rewrite Hne in Htruthy. split.
    + unfold AttendanceController.check_out. now rewrite Hlater, Htruthy.
    + rewrite Hlater.
      unfold EmployeeDashboardAttendance.update_button_states.
      now rewrite Htruthy.
Qed.

Lemma check_out_closes_the_day_unless_at_midnight_witness :
  AttendanceController.check_out no_error 1 (at_ monday 17 30 0) (fst evening)
  = Ok (fst evening, (false, "Already Checked Out",
                      "You have already checked out today.", "warning")).
Proof.
  apply (@check_out_closes_the_day_unless_at_midnight no_error 1
           (at_ monday 17 0 0) (at_ monday 17 30 0) morning_db (fst evening)
           (snd evening)).
  - unfold valid_time. simpl. lia.
  - vm_compute. reflexivity.
  - vm_compute. reflexivity.
  - reflexivity.
  - reflexivity.
  - vm_compute. discriminate.
Defined.

(** ** A whole day: check-in, then check-out *)

Lemma quot_whole_seconds (delta s : Z) :
  0 <= s -> s * 1000000 <= delta < (s + 1) * 1000000 ->
  Z.quot delta 1000000 = s.
Proof.
  intros Hs H. rewrite Z.quot_div_nonneg by lia.
  symmetry. apply (Z.div_unique delta 1000000 s (delta - s * 1000000)); lia.
Qed.

Lemma time_of_timedelta_reads_as (delta s : Z) :
  reads_as (PTimedelta delta) s -> time_of_timedelta delta = Ok (clock s).
Proof.
  intros (Hs & H).
  rewrite time_of_timedelta_in_range by (unfold usec_per_day; lia).
  now rewrite (quot_whole_seconds (s := s)) by lia.
Qed.

Lemma determine_status_reads_as (today : date) (v_in v_start : pyval)
  (paid : num) (grace s_in s_start : Z) :
  (exists delta, v_in = PTimedelta delta) \/ (exists t, v_in = PTime t) ->
  reads_as v_in s_in -> reads_as v_start s_start ->
  0 <= s_start + grace * 60 < 86400 ->
  AttendanceController.determine_status today v_in paid v_start grace
  = Ok (status_label (s_start + grace * 60 <? s_in) (num_ge paid (NInt 8))).
Proof.
  intros Hshape Hin Hstart Hgrace.
  assert (E : AttendanceController.determine_status today v_in paid v_start
                grace
              = AttendanceController.determine_status today
                  (PTime (clock s_in)) paid (PTime (clock s_start)) grace).
  { unfold AttendanceController.determine_status.
    assert (E1 : match v_in with
                 | PDatetime x => Ok (PTime (dt_time x))
                 | PTimedelta delta =>
                     t <- time_of_timedelta delta ;; Ok (PTime t)
                 | v => Ok v
                 end = Ok (PTime (clock s_in))).
    { destruct Hshape as [(delta & ->) | (t & ->)].
      - now rewrite (time_of_timedelta_reads_as Hin).
      - destruct Hin as (_ & ->). reflexivity. }
    assert (E2 : match v_start with
                 | PTimedelta delta =>
                     t <- time_of_timedelta delta ;; Ok (PTime t)
                 | PStr s => t <- strptime_HMS s ;; Ok (PTime t)
                 | v => Ok v
                 end = Ok (PTime (clock s_start))).
    { destruct v_start as [| str | delta | t | x].
      - destruct Hstart as (_ & []).
      - destruct Hstart as (_ & ->). reflexivity.
      - now rewrite (time_of_timedelta_reads_as Hstart).
      - destruct Hstart as (_ & ->). reflexivity.
      - destruct Hstart as (_ & []). }
    rewrite E1, E2. reflexivity. }
  rewrite E, determine_status_same_day
    by (rewrite time_key_clock; unfold usec_per_day; lia).
  rewrite !time_key_clock. unfold status_label.
  replace (s_start * 1000000 + grace * 60000000 <? s_in * 1000000)
    with (s_start + grace * 60 <? s_in); [reflexivity |].
  destruct (Z.ltb_spec (s_start + grace * 60) s_in);
    symmetry; [apply Z.ltb_lt | apply Z.ltb_ge]; lia.
Qed.

Lemma update_where_app {A : Type} (cond : A -> bool) (upd : A -> A)
  (l l' : list A) :
  update_where cond upd (l ++ l')
  = (update_where cond upd l ++ update_where cond upd l')%list.
Proof. unfold update_where. apply map_app. Qed.

Lemma resolve_shift_same_tables (e : Z) (db db' : Tables) :
  employees db' = employees db -> shifts db' = shifts db ->
  AttendanceController._get_employee_shift no_error e db'
  = AttendanceController._get_employee_shift no_error e db.
Proof.
  intros He Hs.
  unfold AttendanceController._get_employee_shift, Database.fetch_one,
    no_error, run_select, run_shift_query.
  now rewrite He, Hs.
Qed.

(** X6: a day without lunch, on a server that raises no error.  After a
    check-in at [t_in] with no earlier record of that day, a check-out at
    [t_out >= t_in] succeeds and leaves exactly one changed record: the
    stored times are the two clock times cut to the second,
    [total_time = paid_hours = round((t_out - t_in) / 3600, 2) >= 0],
    [lunch_duration = 0], [overtime_hours = max(0, round(paid - 8, 2))],
    and the status is 'Late' exactly when the stored check-in second is
    after shift start plus grace (the grace period ending before
    midnight), 'Complete' exactly when [paid_hours >= 8]. *)
Theorem a_day_without_lunch_is_graded_from_the_stored_times
  (e : Z) (d : date) (t_in t_out : time) (db : Tables) (start : Z) :
  let shift := AttendanceController._get_employee_shift no_error e db in
  let grace := grace_period_of shift in
  let worked :=
    round2 (NFloat (hours_f (seconds_of t_out - seconds_of t_in))) in
  let label :=
    status_label (start + grace * 60 <? seconds_of t_in)
      (num_ge worked (NInt 8)) in
  let db1 :=
    fst (AttendanceController.check_in no_error e (mk_datetime d t_in) db) in
  valid_time t_in -> valid_time t_out ->
  seconds_of t_in <= seconds_of t_out ->
  (forall r, In r (attendance db) -> attendance_of e d r = false) ->
  reads_as (shift_start_of shift) start ->
  0 <= start + grace * 60 < 86400 ->
  AttendanceController.check_out no_error e (mk_datetime d t_out) db1
  = Ok (set_attendance db1
          (attendance db
           ++ [checked_out_row (PTimedelta (seconds_of t_out * 1000000))
                 worked (NInt 0) worked (overtime_of worked) label
                 (checked_in_row
                    (next_id (map AttendanceModel.id (attendance db)))
                    e d t_in)])%list,
        (true, "Check Out Successful",
         "Checked out at " ++ strftime_IMp t_out ++ nl
         ++ "Paid Hours: " ++ format_2f worked ++ nl
         ++ "Status: " ++ label, "info"))
  /\ num_ge worked (NInt 0) = true.
Proof.
  intros shift grace worked label db1 Hin Hout Hle Hnone Hstart Hgrace.
  pose proof (seconds_of_range Hin) as Rin.
  pose proof (seconds_of_range Hout) as Rout.
  destruct (check_in_store no_error e (mk_datetime d t_in) db Hin eq_refl)
    as (Hatt & Hemp & Hshifts).
  fold db1 in Hatt, Hemp, Hshifts. cbn [dt_date dt_time] in Hatt.
  set (new := checked_in_row _ e d t_in) in *.
  assert (Hrec : AttendanceController.get_today_record no_error e
                   (mk_datetime d t_out) db1 = Some new).
  { unfold AttendanceController.get_today_record, Database.fetch_one,
      no_error.
    change (run_select (AttendanceSelect
                          (AttendanceModel.Q_GET_TODAY e
                             (dt_date (mk_datetime d t_out)))) db1)
      with (filter (attendance_of e d) (attendance db1)).
    rewrite Hatt, filter_app_last by apply attendance_of_refl.
    now rewrite (filter_none _ _ Hnone). }
  assert (Hread_in : reads_as (AttendanceModel.time_in new) (seconds_of t_in)).
  { split; [exact Rin | simpl; lia]. }
  assert (Hhours :
            AttendanceController.compute_paid_hours d
              (AttendanceModel.time_in new) (PStr (strftime_HMS t_out))
              PNone PNone
            = Ok (mk_hours worked (NInt 0) worked)).
  { destruct (compute_paid_hours_seconds d PNone PNone Hread_in
                (reads_as_strftime Hout)) as [H _].
    apply H. reflexivity. }
  assert (Hshift : AttendanceController._get_employee_shift no_error e db1
                   = shift) by now apply resolve_shift_same_tables.
  assert (Hlabel :
            AttendanceController.determine_status d
              (AttendanceModel.time_in new) worked (shift_start_of shift)
              grace = Ok label).
  { apply determine_status_reads_as; auto. left. eexists. reflexivity. }
  split.
  - unfold AttendanceController.check_out. rewrite Hrec.
    cbn [dt_date dt_time].
    change (truthy (AttendanceModel.time_out new)) with false. cbv iota.
    change (AttendanceModel.lunch_start new) with PNone.
    change (AttendanceModel.lunch_end new) with PNone.
    rewrite Hhours. cbn [bind h_total_time h_lunch_duration h_paid_hours].
    rewrite Hshift.
    fold (shift_start_of shift). fold (grace_period_of shift). fold grace.
    rewrite Hlabel. cbn [bind].
    unfold Database.execute_query, no_error. cbv iota.
    f_equal. f_equal.
    unfold run_statement, run_attendance_stmt. f_equal.
    rewrite Hatt, update_where_app, (update_where_none _ _ _ Hnone).
    f_equal. unfold update_where. cbn [map]. subst new.
    rewrite attendance_of_refl, (sql_time_strftime Hout). reflexivity.
  - apply round2_ge_zero, hours_f_nonneg. unfold last_second. lia.
Qed.

Lemma a_day_without_lunch_is_graded_from_the_stored_times_witness :
  exists out,
    AttendanceController.check_out no_error 1 (at_ monday 17 0 0) morning_db
    = Ok out
    /\ map AttendanceModel.status (attendance (fst out))
       = [Some "On Time, Complete"].
Proof.
  eexists. split.
  - apply (@a_day_without_lunch_is_graded_from_the_stored_times 1 monday
             (mk_time 8 0 0 0) (mk_time 17 0 0 0) shift_db 28800).
    + unfold valid_time. simpl. lia.
    + unfold valid_time. simpl. lia.
    + vm_compute. discriminate.
    + intros r [].
    + split; [lia | vm_compute; split; [discriminate | reflexivity]].
    + vm_compute. split; [discriminate | reflexivity].
  - vm_compute. reflexivity.
Defined.

(** ** Lunch: the minimum of hours worked *)

Lemma datetime_key_add (x : datetime) (delta : timedelta) :
  datetime_key (datetime_add x delta) = datetime_key x + delta.
Proof.
  unfold datetime_add. set (k := datetime_key x + delta).
  unfold datetime_key at 1. cbn [dt_date dt_time].
  rewrite time_key_of_key
    by (apply Z.mod_pos_bound; unfold usec_per_day; lia).
  pose proof (Z.div_mod k usec_per_day ltac:(unfold usec_per_day; lia)).
  lia.
Qed.

Lemma min_hours_default (shift : option ShiftModel.row) :
  no_minimum_configured shift ->
  timedelta_hours (AttendanceController.min_hours_of shift)
  = Ok 10800000000.
Proof.
  unfold no_minimum_configured, AttendanceController.min_hours_of.
  destruct shift as [s |]; [| reflexivity].
  destruct (ShiftModel.min_hours_before_lunch s) as [x |]; [| reflexivity].
  now intros ->.
Qed.

Lemma min_hours_default_value (shift : option ShiftModel.row) :
  no_minimum_configured shift ->
  AttendanceController.min_hours_of shift = float_of_Z 3.
Proof.
  unfold no_minimum_configured, AttendanceController.min_hours_of.
  destruct shift as [s |]; [| reflexivity].
  destruct (ShiftModel.min_hours_before_lunch s) as [x |]; [| reflexivity].
  now intros ->.
Qed.

Lemma can_start_lunch_body
  (db_error : engine) (e : Z) (now : datetime) (db : Tables)
  (r : AttendanceModel.row) (d_in s_in : Z) (delta : timedelta) :
  AttendanceController.get_today_record db_error e now db = Some r ->
  truthy (AttendanceModel.lunch_start r) = false ->
  truthy (AttendanceModel.time_out r) = false ->
  AttendanceModel.time_in r = PTimedelta d_in ->
  reads_as (PTimedelta d_in) s_in ->
  timedelta_hours
    (AttendanceController.min_hours_of
       (AttendanceController._get_employee_shift db_error e db)) = Ok delta ->
  AttendanceController.can_start_lunch db_error e now db
  = if negb (d_in =? 0) then
      if time_key (dt_time now) <? s_in * 1000000 + delta then
        mins_left <-
          int_of_float
            (PrimFloat.div
               (total_seconds
                  (datetime_sub
                     (datetime_add (combine (dt_date now) (clock s_in)) delta)
                     now))
               (float_of_Z 60)) ;;
        Ok (false, "Cannot Start Lunch Yet",
            "You need to work at least "
            ++ format_0f
                 (AttendanceController.min_hours_of
                    (AttendanceController._get_employee_shift db_error e db))
            ++ " hours before lunch." ++ nl
            ++ "Earliest lunch: "
            ++ strftime_IMp
                 (dt_time
                    (datetime_add (combine (dt_date now) (clock s_in)) delta))
            ++ nl ++ "(" ++ str_of_Z mins_left ++ " minutes remaining)",
            "warning")
      else Ok (true, "", "", "")
    else Ok (true, "", "", "").
Proof.
  intros Hrec Hls Hout Hin Hread Hdelta.
  unfold AttendanceController.can_start_lunch.
  rewrite Hrec, Hls, Hout, Hin. cbn [truthy].
  destruct (negb (d_in =? 0)); [| reflexivity].
  rewrite (time_of_timedelta_reads_as Hread). cbn [bind].
  rewrite Hdelta. cbn [bind].
  rewrite datetime_key_add.
  replace (datetime_key now
           <? datetime_key (combine (dt_date now) (clock s_in)) + delta)
    with (time_key (dt_time now) <? s_in * 1000000 + delta);
    [reflexivity |].
  unfold datetime_key, combine. cbn [dt_date dt_time].
  rewrite time_key_clock.
  destruct (Z.ltb_spec (time_key (dt_time now)) (s_in * 1000000 + delta));
    symmetry; [apply Z.ltb_lt | apply Z.ltb_ge]; lia.
Qed.

(** X10: [can_start_lunch] waits for the minimum of hours worked.
    For a record with lunch not started, no check-out, and a [time_in]
    read from the store, where [delta] is the [timedelta] of the
    configured minimum: it allows exactly from [time_in + delta] on (never
    on the same day when that moment is past midnight); before, it never
    allows (its answer, when it returns one, is 'Cannot Start Lunch Yet');
    a [time_in] of 00:00:00 reads as unset and lifts the wait; and the
    minimum is three hours when no shift is resolved or its column is
    NULL or zero. *)
Theorem can_start_lunch_waits_for_the_minimum_hours
  (db_error : engine) (e : Z) (now : datetime) (db : Tables)
  (r : AttendanceModel.row) (d_in s_in : Z) (delta : timedelta) :
  AttendanceController.get_today_record db_error e now db = Some r ->
  truthy (AttendanceModel.lunch_start r) = false ->
  truthy (AttendanceModel.time_out r) = false ->
  AttendanceModel.time_in r = PTimedelta d_in ->
  reads_as (PTimedelta d_in) s_in ->
  timedelta_hours
    (AttendanceController.min_hours_of
       (AttendanceController._get_employee_shift db_error e db)) = Ok delta ->
  (d_in = 0 ->
   AttendanceController.can_start_lunch db_error e now db
   = Ok (true, "", "", ""))
  /\ (d_in <> 0 -> s_in * 1000000 + delta <= time_key (dt_time now) ->
      AttendanceController.can_start_lunch db_error e now db
      = Ok (true, "", "", ""))
  /\ (d_in <> 0 -> time_key (dt_time now) < s_in * 1000000 + delta ->
      forall shown,
        AttendanceController.can_start_lunch db_error e now db = Ok shown ->
        exists message,
          shown = (false, "Cannot Start Lunch Yet", message, "warning"))
  /\ (no_minimum_configured
        (AttendanceController._get_employee_shift db_error e db) ->
      delta = 10800000000).
Proof.
  intros Hrec Hls Hout Hin Hread Hdelta.
  rewrite (can_start_lunch_body _ _ _ _ Hrec Hls Hout Hin Hread Hdelta).
  repeat split.
  - intros ->. reflexivity.
  - intros Hne Hlate. apply Z.eqb_neq in Hne. rewrite Hne. cbn [negb].
    apply Z.ltb_ge in Hlate. now rewrite Hlate.
  - intros Hne Hearly shown. apply Z.eqb_neq in Hne. rewrite Hne. cbn [negb].
    apply Z.ltb_lt in Hearly. rewrite Hearly.
    destruct (int_of_float _) as [mins |]; cbn [bind]; [| discriminate].
    intros [= <-]. eexists. reflexivity.
  - intros Hdef. rewrite (min_hours_default _ Hdef) in Hdelta. congruence.
Qed.

Lemma can_start_lunch_waits_for_the_minimum_hours_witness :
  AttendanceController.can_start_lunch no_error 1 (at_ monday 11 0 0)
    morning_db = Ok (true, "", "", "").
Proof.
  apply (@can_start_lunch_waits_for_the_minimum_hours no_error 1
           (at_ monday 11 0 0) morning_db
           (checked_in_row 1 1 monday (mk_time 8 0 0 0))
           28800000000 28800 10800000000).
  - reflexivity.
  - reflexivity.
  - reflexivity.
  - reflexivity.
  - split; [lia | split; lia].
  - vm_compute. reflexivity.
  - discriminate.
  - vm_compute. discriminate.
Defined.

(** ** Lunch: what the refusal reports *)

Lemma minutes_table :
  forall_range (Z.to_nat longest_wait) 1 minutes_check = true.
Proof. vm_compute. reflexivity. Qed.

Lemma minutes_left (R : Z) :
  1 <= R <= longest_wait ->
  int_of_float (PrimFloat.div (total_seconds (R * 1000000)) (float_of_Z 60))
  = Ok (R / 60).
Proof.
  intros HR.
  assert (H : minutes_check R = true).
  { apply (@forall_range_spec minutes_check (Z.to_nat longest_wait) 1
             minutes_table).
    rewrite Z2Nat.id by (unfold longest_wait; lia). lia. }
  unfold minutes_check in H.
  destruct (int_of_float _) as [m |]; [| discriminate].
  apply Z.eqb_eq in H. now subst.
Qed.

Lemma time_of_key_seconds (s : Z) :
  0 <= s -> time_of_key (s * 1000000) = clock s.
Proof.
  intros Hs. unfold time_of_key, clock.
  replace (s * 1000000 / 3600000000) with (s / 3600)
    by (change 3600000000 with (3600 * 1000000);
        now rewrite Z.div_mul_cancel_r by lia).
  replace (s * 1000000 / 60000000) with (s / 60)
    by (change 60000000 with (60 * 1000000);
        now rewrite Z.div_mul_cancel_r by lia).
  rewrite Z.div_mul by lia. rewrite Z.mod_mul by lia.
  f_equal.
  pose proof (Z.div_mod s 3600 ltac:(lia)) as E.
  pose proof (Z.mod_pos_bound s 3600 ltac:(lia)) as B.
  set (q := s / 3600) in *. set (r := s mod 3600) in *.
  pose proof (Z.div_mod r 60 ltac:(lia)) as E'.
  pose proof (Z.mod_pos_bound r 60 ltac:(lia)) as B'.
  assert (Hr : 0 <= r / 60 < 60)
    by (split; [apply Z.div_pos; lia | apply Z.div_lt_upper_bound; lia]).
  assert (Hdiv : s / 60 = q * 60 + r / 60)
    by (symmetry; apply (Z.div_unique s 60 (q * 60 + r / 60) (r mod 60));
        lia).
  rewrite Hdiv.
  symmetry. apply (Z.mod_unique (q * 60 + r / 60) 60 q (r / 60)); lia.
Qed.

(** X11: what the refusal of [can_start_lunch] reports under the
    default of three hours, when the clock reads a whole second: the
    guard returns 'Cannot Start Lunch Yet' with the earliest lunch time
    [time_in + 3h] (on the 12-hour clock, wrapping at midnight) and the
    whole minutes left, rounded down. *)
Theorem lunch_refusal_reports_the_whole_minutes_left
  (db_error : engine) (e : Z) (now : datetime) (db : Tables)
  (r : AttendanceModel.row) (d_in s_in : Z) :
  AttendanceController.get_today_record db_error e now db = Some r ->
  truthy (AttendanceModel.lunch_start r) = false ->
  truthy (AttendanceModel.time_out r) = false ->
  AttendanceModel.time_in r = PTimedelta d_in ->
  d_in <> 0 ->
  reads_as (PTimedelta d_in) s_in ->
  no_minimum_configured
    (AttendanceController._get_employee_shift db_error e db) ->
  valid_time (dt_time now) ->
  microsecond (dt_time now) = 0 ->
  seconds_of (dt_time now) < s_in + 10800 ->
  AttendanceController.can_start_lunch db_error e now db
  = Ok (false, "Cannot Start Lunch Yet",
        "You need to work at least 3 hours before lunch." ++ nl
        ++ "Earliest lunch: "
        ++ strftime_IMp (clock ((s_in + 10800) mod 86400)) ++ nl
        ++ "("
        ++ str_of_Z ((s_in + 10800 - seconds_of (dt_time now)) / 60)
        ++ " minutes remaining)", "warning").
Proof.
  intros Hrec Hls Hout Hin Hne Hread Hdef Hv Hus Hearly.
  pose proof (seconds_of_range Hv) as Rnow.
  destruct Hread as (Rin & Hd).
  rewrite (can_start_lunch_body _ _ _ _ Hrec Hls Hout Hin (conj Rin Hd)
             (min_hours_default _ Hdef)).
  apply Z.eqb_neq in Hne. rewrite Hne. cbn [negb].
  assert (Hkey : time_key (dt_time now) = seconds_of (dt_time now) * 1000000)
    by (unfold time_key, seconds_of; lia).
  replace (time_key (dt_time now) <? s_in * 1000000 + 10800000000) with true
    by (symmetry; apply Z.ltb_lt; lia).
  rewrite (min_hours_default_value _ Hdef).
  replace (datetime_sub
             (datetime_add (combine (dt_date now) (clock s_in)) 10800000000)
             now)
    with ((s_in + 10800 - seconds_of (dt_time now)) * 1000000).
  2: { unfold datetime_sub. rewrite datetime_key_add.
       unfold datetime_key, combine. cbn [dt_date dt_time].
       rewrite time_key_clock. lia. }
  rewrite minutes_left by (unfold longest_wait; lia). cbn [bind].
  replace (dt_time
             (datetime_add (combine (dt_date now) (clock s_in)) 10800000000))
    with (clock ((s_in + 10800) mod 86400)).
  2: { unfold datetime_add, datetime_key, combine. cbn [dt_date dt_time].
       rewrite time_key_clock.
       replace ((dt_date now * usec_per_day + s_in * 1000000 + 10800000000)
                mod usec_per_day)
         with ((s_in + 10800) mod 86400 * 1000000).
       - symmetry. apply time_of_key_seconds.
         apply Z.mod_pos_bound. lia.
       - unfold usec_per_day.
         pose proof (Z.div_mod (s_in + 10800) 86400 ltac:(lia)) as E.
         pose proof (Z.mod_pos_bound (s_in + 10800) 86400 ltac:(lia)) as B.
         apply (Z.mod_unique _ 86400000000
                  (dt_date now + (s_in + 10800) / 86400)); lia. }
  reflexivity.
Qed.

Lemma lunch_refusal_reports_the_whole_minutes_left_witness :
  AttendanceController.can_start_lunch no_error 1 (at_ monday 8 5 0)
    unscheduled_morning_db
  = Ok (false, "Cannot Start Lunch Yet",
        "You need to work at least 3 hours before lunch." ++ nl
        ++ "Earliest lunch: " ++ strftime_IMp (clock (39600 mod 86400)) ++ nl
        ++ "(" ++ str_of_Z ((28800 + 10800 - 29100) / 60)
        ++ " minutes remaining)", "warning").
Proof.
  apply (@lunch_refusal_reports_the_whole_minutes_left no_error 1
           (at_ monday 8 5 0) unscheduled_morning_db
           (checked_in_row 1 1 monday (mk_time 8 0 0 0)) 28800000000 28800).
  - reflexivity.
  - reflexivity.
  - reflexivity.
  - reflexivity.
  - discriminate.
  - split; [lia | split; lia].
  - vm_compute. reflexivity.
  - unfold valid_time. simpl. lia.
  - reflexivity.
  - vm_compute. reflexivity.
Defined.

(** ** The four buttons and the guards behind them *)

(** X12: the buttons agree with the guards.  The check-in button is
    enabled exactly when there is no record of today; an enabled
    lunch-start button means a record with lunch not started and no
    check-out; whenever the lunch-end or the check-out button is enabled
    the corresponding guard allows the action; while a lunch is open
    only the lunch-end button is enabled; and the guard [can_check_out]
    allows a check-out that the button does not offer exactly during an
    open lunch. *)
Theorem enabled_buttons_pass_the_record_checks
  (db_error : engine) (e : Z) (now : datetime) (db : Tables) :
  let today_record :=
    AttendanceController.get_today_record db_error e now db in
  let b := EmployeeDashboardAttendance.update_button_states today_record in
  (checkin_btn b = true <-> today_record = None)
  /\ (lunch_start_btn b = true ->
      exists r, today_record = Some r
                /\ truthy (AttendanceModel.lunch_start r) = false
                /\ truthy (AttendanceModel.time_out r) = false)
  /\ (lunch_end_btn b = true ->
      AttendanceController.can_end_lunch db_error e now db
      = (true, "", "", ""))
  /\ (checkout_btn b = true ->
      AttendanceController.can_check_out db_error e now db
      = (true, "", "", ""))
  /\ (lunch_end_btn b = true ->
      checkin_btn b = false /\ lunch_start_btn b = false
      /\ checkout_btn b = false)
  /\ (allowed (AttendanceController.can_check_out db_error e now db) = true
      /\ checkout_btn b = false
      <-> exists r, today_record = Some r
                    /\ truthy (AttendanceModel.time_out r) = false
                    /\ truthy (AttendanceModel.lunch_start r) = true
                    /\ truthy (AttendanceModel.lunch_end r) = false).
Proof.
  intros today_record b. subst b.
  unfold AttendanceController.can_end_lunch,
    AttendanceController.can_check_out,
    EmployeeDashboardAttendance.update_button_states.
  fold today_record.
  destruct today_record as [r |];
    [ destruct (truthy (AttendanceModel.time_out r)) eqn:Hout;
      destruct (truthy (AttendanceModel.lunch_start r)) eqn:Hls;
      destruct (truthy (AttendanceModel.lunch_end r)) eqn:Hle | ];
    cbn [andb negb checkin_btn lunch_start_btn lunch_end_btn checkout_btn
         allowed fst];
    repeat split; intros;
    repeat match goal with
           | H : _ /\ _ |- _ => destruct H
           | H : exists _, _ |- _ => destruct H
           | H : Some _ = Some _ |- _ => injection H as <-
           end;
    try discriminate; try reflexivity; try congruence;
    try (exists r; repeat split; assumption).
Qed.

(** ** Lunch is recorded once *)

(** X13: lunch is recorded once.  With a record of today and a clock
    not in the first second after midnight: after a [start_lunch] that
    reports success the record read back carries that second as
    [lunch_start], [can_start_lunch] refuses with 'Lunch Already Started'
    and [can_end_lunch] allows (lunch not yet ended); after an
    [end_lunch] that reports success the record carries [lunch_end] and
    [can_end_lunch] refuses with 'Lunch Already Ended'. *)
Theorem lunch_is_recorded_once
  (db_error : engine) (e : Z) (now later : datetime) (db : Tables)
  (r : AttendanceModel.row) :
  let started :=
    fst (AttendanceController.start_lunch db_error e now db) in
  let ended := fst (AttendanceController.end_lunch db_error e now db) in
  let stored := PTimedelta (seconds_of (dt_time now) * 1000000) in
  valid_time (dt_time now) ->
  seconds_of (dt_time now) <> 0 ->
  AttendanceController.get_today_record db_error e now db = Some r ->
  dt_date later = dt_date now ->
  (allowed (snd (AttendanceController.start_lunch db_error e now db)) = true ->
   db_error started
     (Fetch (AttendanceSelect (AttendanceModel.Q_GET_TODAY e (dt_date now))))
   = false ->
   AttendanceController.get_today_record db_error e later started
   = Some (with_lunch_start stored r)
   /\ AttendanceController.can_start_lunch db_error e later started
      = Ok (false, "Lunch Already Started", "Lunch already started.",
            "warning")
   /\ (truthy (AttendanceModel.lunch_end r) = false ->
       AttendanceController.can_end_lunch db_error e later started
       = (true, "", "", "")))
  /\ (allowed (snd (AttendanceController.end_lunch db_error e now db)) = true ->
      db_error ended
        (Fetch (AttendanceSelect
                  (AttendanceModel.Q_GET_TODAY e (dt_date now))))
      = false ->
      AttendanceController.get_today_record db_error e later ended
      = Some (with_lunch_end stored r)
      /\ (truthy (AttendanceModel.lunch_start r) = true ->
          AttendanceController.can_end_lunch db_error e later ended
          = (false, "Lunch Already Ended",
             "You have already ended your lunch break.", "warning"))).
Proof.
  intros started ended stored Hv Hne Hrec Hdate.
  assert (Htruthy : truthy stored = true).
  { subst stored. simpl. apply negb_true_iff. apply Z.eqb_neq. lia. }
  split.
  - subst started. unfold AttendanceController.start_lunch,
      Database.execute_query.
    destruct (db_error db (Execute _)); cbn [fst snd allowed];
      [discriminate |].
    intros _ Hfetch.
    pose proof (today_record_after_update db_error e now later db
                  (AttendanceModel.Q_START_LUNCH (strftime_HMS (dt_time now))
                     e (dt_date now))
                  (with_lunch_start (sql_time (strftime_HMS (dt_time now))))
                  Hrec Hdate eq_refl (fun x => eq_refl) Hfetch) as Hlater.
    rewrite (sql_time_strftime Hv) in Hlater. fold stored in Hlater.
    split; [exact Hlater |]. split.
    + unfold AttendanceController.can_start_lunch. rewrite Hlater.
      cbn [AttendanceModel.lunch_start with_lunch_start].
      now rewrite Htruthy.
    + intros Hle. unfold AttendanceController.can_end_lunch. rewrite Hlater.
      cbn [AttendanceModel.lunch_start AttendanceModel.lunch_end
           with_lunch_start].
      now rewrite Htruthy, Hle.
  - subst ended. unfold AttendanceController.end_lunch,
      Database.execute_query.
    destruct (db_error db (Execute _)); cbn [fst snd allowed];
      [discriminate |].
    intros _ Hfetch.
    pose proof (today_record_after_update db_error e now later db
                  (AttendanceModel.Q_END_LUNCH (strftime_HMS (dt_time now))
                     e (dt_date now))
                  (with_lunch_end (sql_time (strftime_HMS (dt_time now))))
                  Hrec Hdate eq_refl (fun x => eq_refl) Hfetch) as Hlater.
    rewrite (sql_time_strftime Hv) in Hlater. fold stored in Hlater.
    split; [exact Hlater |].
    intros Hls. unfold AttendanceController.can_end_lunch. rewrite Hlater.
    cbn [AttendanceModel.lunch_start AttendanceModel.lunch_end
         with_lunch_end].
    now rewrite Hls, Htruthy.
Qed.

Lemma lunch_is_recorded_once_witness :
  AttendanceController.can_start_lunch no_error 1 (at_ monday 12 30 0)
    (fst (AttendanceController.start_lunch no_error 1 (at_ monday 12 0 0)
            morning_db))
  = Ok (false, "Lunch Already Started", "Lunch already started.", "warning").
Proof.
  apply (@lunch_is_recorded_once no_error 1 (at_ monday 12 0 0)
           (at_ monday 12 30 0) morning_db
           (checked_in_row 1 1 monday (mk_time 8 0 0 0))).
  - unfold valid_time. simpl. lia.
  - vm_compute. discriminate.
  - reflexivity.
  - reflexivity.
  - reflexivity.
  - reflexivity.
Defined.

Lemma enabled_buttons_pass_the_record_checks_witness :
  AttendanceController.can_check_out no_error 1 (at_ monday 17 0 0)
    morning_db = (true, "", "", "").
Proof.
  apply (enabled_buttons_pass_the_record_checks no_error 1
           (at_ monday 17 0 0) morning_db).
  reflexivity.
Defined.

(** ** Leave approval: the debit *)

Lemma fetch_one_hd (db_error : engine) {R : Type} (q : select R)
  (db : Tables) (r : R) :
  Database.fetch_one db_error q db = Some r ->
  hd_error (run_select q db) = Some r.
Proof.
  unfold Database.fetch_one. now destruct (db_error db (Fetch q)).
Qed.

Lemma leave_by_id_after_update (db_error : engine) (i : Z) (db db' : Tables)
  (upd : LeaveModel.row -> LeaveModel.row) (leave : LeaveModel.row) :
  LeaveController.get_leave_by_id db_error i db = Some leave ->
  leave_requests db'
  = update_where (fun r => LeaveModel.id r =? i) upd (leave_requests db) ->
  (forall r, LeaveModel.id (upd r) = LeaveModel.id r) ->
  db_error db' (Fetch (LeaveSelect (LeaveModel.Q_SELECT_BY_ID i))) = false ->
  LeaveController.get_leave_by_id db_error i db' = Some (upd leave).
Proof.
  intros Hget Hrows Hid Hfetch. apply fetch_one_hd in Hget.
  unfold LeaveController.get_leave_by_id, Database.fetch_one.
  rewrite Hfetch.
  change (run_select (LeaveSelect (LeaveModel.Q_SELECT_BY_ID i)) db')
    with (filter (fun r => LeaveModel.id r =? i) (leave_requests db')).
  change (run_select (LeaveSelect (LeaveModel.Q_SELECT_BY_ID i)) db)
    with (filter (fun r => LeaveModel.id r =? i) (leave_requests db)) in Hget.
  rewrite Hrows, filter_update_where_same, hd_error_map, Hget;
    [reflexivity |].
  intros r. now rewrite Hid.
Qed.

Lemma credits_after_debit (db_error : engine) (e : Z) (db db' : Tables)
  (days : option Z) (credits : option Z) :
  Database.fetch_one db_error (LeaveModel.Q_SELECT_EMPLOYEE_CREDITS e) db
  = Some (LeaveModel.mk_credits credits) ->
  employees db'
  = update_where (fun emp => EmployeeModel.id emp =? e) (debit_row days)
      (employees db) ->
  db_error db' (Fetch (LeaveSelect (LeaveModel.Q_SELECT_EMPLOYEE_CREDITS e)))
  = false ->
  LeaveController.get_employee_credits db_error e db' = deduct credits days.
Proof.
  intros Hget Hrows Hfetch. apply fetch_one_hd in Hget.
  unfold LeaveController.get_employee_credits, Database.fetch_one.
  rewrite Hfetch.
  change (run_select (LeaveSelect (LeaveModel.Q_SELECT_EMPLOYEE_CREDITS e))
            db')
    with (map (fun emp => LeaveModel.mk_credits
                            (EmployeeModel.leave_credits emp))
            (filter (fun emp => EmployeeModel.id emp =? e) (employees db'))).
  change (run_select (LeaveSelect (LeaveModel.Q_SELECT_EMPLOYEE_CREDITS e))
            db)
    with (map (fun emp => LeaveModel.mk_credits
                            (EmployeeModel.leave_credits emp))
            (filter (fun emp => EmployeeModel.id emp =? e) (employees db)))
    in Hget.
  rewrite Hrows, filter_update_where_same by reflexivity.
  rewrite !hd_error_map in *.
  destruct (hd_error (filter _ (employees db))) as [emp |];
    [| discriminate].
  simpl in *. injection Hget as ->. reflexivity.
Qed.

Lemma approve_leave_runs (db_error : engine) (now : datetime)
  (leave_id reviewer : Z) (remarks : option string) (db : Tables)
  (leave : LeaveModel.row) (credits : option Z) :
  LeaveController.get_leave_by_id db_error leave_id db = Some leave ->
  Database.fetch_one db_error
    (LeaveModel.Q_SELECT_EMPLOYEE_CREDITS (LeaveModel.employee_id leave)) db
  = Some (LeaveModel.mk_credits credits) ->
  int_or_0 (LeaveModel.days_count leave) <= int_or_0 credits ->
  db_error db
    (Execute (LeaveStmt (LeaveModel.Q_APPROVE now reviewer remarks leave_id)))
  = false ->
  LeaveController.approve_leave db_error now leave_id reviewer remarks db
  = (fst (Database.execute_query db_error
            (LeaveModel.Q_DEDUCT_CREDITS (LeaveModel.days_count leave)
               (LeaveModel.employee_id leave))
            (run_statement
               (LeaveStmt
                  (LeaveModel.Q_APPROVE now reviewer remarks leave_id)) db)),
     (true, "Leave request approved successfully.")).
Proof.
  intros Hleave Hcredits Hle Hrun.
  unfold LeaveController.approve_leave.
  unfold LeaveController.get_leave_by_id in Hleave.
  rewrite Hleave, Hcredits. cbn [LeaveModel.leave_credits].
  replace (int_or_0 credits <? int_or_0 (LeaveModel.days_count leave))
    with false by (symmetry; apply Z.ltb_ge; lia).
  unfold Database.execute_query. rewrite Hrun. cbn [negb].
  now destruct (db_error (run_statement _ db) _).
Qed.

(** X14: a leave approval that runs debits exactly the days of the
    request.  When the request and a balance [C >= D = days_count] are
    read and both statements run, [approve_leave] reports success, the
    request read back is Approved with this reviewer, time and remarks and
    otherwise unchanged, and the employee's balance read back is [C - D],
    which is not negative; only the rows with that request id and that
    employee id are written. *)
Theorem approve_leave_debits_exactly_the_days
  (db_error : engine) (now : datetime) (leave_id reviewer : Z)
  (remarks : option string) (db : Tables) (leave : LeaveModel.row)
  (C D : Z) :
  let approved_db :=
    run_statement
      (LeaveStmt (LeaveModel.Q_APPROVE now reviewer remarks leave_id)) db in
  let after :=
    LeaveController.approve_leave db_error now leave_id reviewer remarks db in
  let employee := LeaveModel.employee_id leave in
  LeaveController.get_leave_by_id db_error leave_id db = Some leave ->
  Database.fetch_one db_error (LeaveModel.Q_SELECT_EMPLOYEE_CREDITS employee)
    db = Some (LeaveModel.mk_credits (Some C)) ->
  LeaveModel.days_count leave = Some D ->
  D <= C ->
  db_error db
    (Execute (LeaveStmt (LeaveModel.Q_APPROVE now reviewer remarks leave_id)))
  = false ->
  db_error approved_db
    (Execute (LeaveStmt (LeaveModel.Q_DEDUCT_CREDITS (Some D) employee)))
  = false ->
  snd after = (true, "Leave request approved successfully.")
  /\ leave_requests (fst after)
     = update_where (fun r => LeaveModel.id r =? leave_id)
         (review_leave Approved reviewer now remarks) (leave_requests db)
  /\ employees (fst after)
     = update_where (fun emp => EmployeeModel.id emp =? employee)
         (debit_row (Some D)) (employees db)
  /\ (db_error (fst after)
        (Fetch (LeaveSelect (LeaveModel.Q_SELECT_BY_ID leave_id))) = false ->
      LeaveController.get_leave_by_id db_error leave_id (fst after)
      = Some (review_leave Approved reviewer now remarks leave))
  /\ (db_error (fst after)
        (Fetch (LeaveSelect (LeaveModel.Q_SELECT_EMPLOYEE_CREDITS employee)))
      = false ->
      LeaveController.get_employee_credits db_error employee (fst after)
      = Some (C - D))
  /\ 0 <= C - D.
Proof.
  intros approved_db after employee Hleave Hcredits Hdays Hle Hrun Hdebit.
  assert (Hafter :
            after
            = (run_statement
                 (LeaveStmt (LeaveModel.Q_DEDUCT_CREDITS (Some D) employee))
                 approved_db,
               (true, "Leave request approved successfully."))).
  { subst after.
    rewrite (@approve_leave_runs db_error now leave_id reviewer remarks db
               leave (Some C) Hleave Hcredits)
      by (rewrite ?Hdays; simpl; auto; lia).
    rewrite Hdays. fold employee. fold approved_db.
    unfold Database.execute_query. now rewrite Hdebit. }
  rewrite Hafter. cbn [fst snd].
  split; [reflexivity |]. split; [reflexivity |]. split; [reflexivity |].
  split; [| split; [| lia]].
  - intros Hfetch.
    apply (@leave_by_id_after_update db_error leave_id db _
             (review_leave Approved reviewer now remarks) leave Hleave);
      [reflexivity | reflexivity | exact Hfetch].
  - intros Hfetch.
    rewrite (@credits_after_debit db_error employee db
               (run_statement
                  (LeaveStmt (LeaveModel.Q_DEDUCT_CREDITS (Some D) employee))
                  approved_db)
               (Some D) (Some C) Hcredits eq_refl Hfetch).
    reflexivity.
Qed.

Lemma approve_leave_debits_exactly_the_days_witness :
  LeaveController.get_employee_credits no_error 1
    (fst (LeaveController.approve_leave no_error (at_ monday 9 0 0) 1 7 None
            (leave_db 10))) = Some (10 - 5).
Proof.
  apply (@approve_leave_debits_exactly_the_days no_error (at_ monday 9 0 0)
           1 7 None (leave_db 10)
           (LeaveModel.mk_row 1 1 "Vacation" monday (monday + 4) (Some 5)
              "trip" None Pending None None None false) 10 5);
    try reflexivity.
  lia.
Defined.

(** X15: [approve_leave] does not look at the result of the debit.
    With the request and a sufficient balance read: when the approving
    UPDATE raises, the call fails with 'Failed to approve leave request.'
    and the store is as before; when it runs and the debit raises, the
    call still reports 'Leave request approved successfully.', the
    request is Approved and no balance has changed. *)
Theorem approve_leave_reports_success_when_the_debit_fails
  (db_error : engine) (now : datetime) (leave_id reviewer : Z)
  (remarks : option string) (db : Tables) (leave : LeaveModel.row)
  (credits : option Z) :
  let approved_db :=
    run_statement
      (LeaveStmt (LeaveModel.Q_APPROVE now reviewer remarks leave_id)) db in
  let after :=
    LeaveController.approve_leave db_error now leave_id reviewer remarks db in
  LeaveController.get_leave_by_id db_error leave_id db = Some leave ->
  Database.fetch_one db_error
    (LeaveModel.Q_SELECT_EMPLOYEE_CREDITS (LeaveModel.employee_id leave)) db
  = Some (LeaveModel.mk_credits credits) ->
  int_or_0 (LeaveModel.days_count leave) <= int_or_0 credits ->
  (db_error db
     (Execute (LeaveStmt (LeaveModel.Q_APPROVE now reviewer remarks leave_id)))
   = true ->
   after = (db, (false, "Failed to approve leave request.")))
  /\ (db_error db
        (Execute (LeaveStmt
                    (LeaveModel.Q_APPROVE now reviewer remarks leave_id)))
      = false ->
      db_error approved_db
        (Execute (LeaveStmt
                    (LeaveModel.Q_DEDUCT_CREDITS (LeaveModel.days_count leave)
                       (LeaveModel.employee_id leave)))) = true ->
      after = (approved_db, (true, "Leave request approved successfully."))
      /\ employees (fst after) = employees db
      /\ leave_requests (fst after)
         = update_where (fun r => LeaveModel.id r =? leave_id)
             (review_leave Approved reviewer now remarks) (leave_requests db)).
Proof.
  intros approved_db after Hleave Hcredits Hle. split.
  - intros Hfail. subst after. unfold LeaveController.approve_leave.
    unfold LeaveController.get_leave_by_id in Hleave.
    rewrite Hleave, Hcredits. cbn [LeaveModel.leave_credits].
    replace (int_or_0 credits <? int_or_0 (LeaveModel.days_count leave))
      with false by (symmetry; apply Z.ltb_ge; lia).
    unfold Database.execute_query. now rewrite Hfail.
  - intros Hrun Hfail. subst after.
    rewrite (@approve_leave_runs db_error now leave_id reviewer remarks db
               leave credits Hleave Hcredits Hle Hrun).
    fold approved_db. unfold Database.execute_query. rewrite Hfail.
    repeat split.
Qed.

Lemma approve_leave_reports_success_when_the_debit_fails_witness :
  LeaveController.approve_leave debit_fails (at_ monday 9 0 0) 1 7 None
    (leave_db 10)
  = (run_statement
       (LeaveStmt (LeaveModel.Q_APPROVE (at_ monday 9 0 0) 7 None 1))
       (leave_db 10),
     (true, "Leave request approved successfully."))
  /\ map EmployeeModel.leave_credits
       (employees
          (fst (LeaveController.approve_leave debit_fails (at_ monday 9 0 0)
                  1 7 None (leave_db 10)))) = [Some 10].
Proof.
  split.
  - apply (@approve_leave_reports_success_when_the_debit_fails debit_fails
             (at_ monday 9 0 0) 1 7 None (leave_db 10)
             (LeaveModel.mk_row 1 1 "Vacation" monday (monday + 4) (Some 5)
                "trip" None Pending None None None false) (Some 10));
      try reflexivity.
    simpl. lia.
  - reflexivity.
Defined.

(** ** The three copies of the leave review *)

(** X16: the leave review of the staff-dashboard and admin-dashboard
    controllers is that of the leave controller without the message: for
    every store and every database-error behaviour [approve_leave] and
    [reject_leave] leave the same store and return the same flag in all
    three; and a review that returns False has written nothing. *)
Theorem leave_review_is_the_same_in_every_controller
  (db_error : engine) (now : datetime) (leave_id reviewer : Z)
  (remarks : option string) (db : Tables) :
  let approved :=
    LeaveController.approve_leave db_error now leave_id reviewer remarks db in
  let rejected :=
    LeaveController.reject_leave db_error now leave_id reviewer remarks db in
  StaffDashboardReview.approve_leave db_error now leave_id reviewer remarks db
  = (fst approved, fst (snd approved))
  /\ AdminDashboardController.approve_leave db_error now leave_id reviewer
       remarks db = (fst approved, fst (snd approved))
  /\ StaffDashboardReview.reject_leave db_error now leave_id reviewer remarks
       db = (fst rejected, fst (snd rejected))
  /\ AdminDashboardController.reject_leave db_error now leave_id reviewer
       remarks db = (fst rejected, fst (snd rejected))
  /\ (fst (snd approved) = false -> fst approved = db)
  /\ (fst (snd rejected) = false -> fst rejected = db).
Proof.
  cbv zeta.
  unfold StaffDashboardReview.approve_leave,
    AdminDashboardController.approve_leave, LeaveController.approve_leave,
    StaffDashboardReview.reject_leave, AdminDashboardController.reject_leave,
    LeaveController.reject_leave, Database.execute_query.
  destruct (db_error db
              (Execute (LeaveStmt
                          (LeaveModel.Q_REJECT now reviewer remarks
                             leave_id)))).
  all: destruct (Database.fetch_one db_error
                   (LeaveModel.Q_SELECT_BY_ID leave_id) db) as [leave |];
    [| repeat split; auto; discriminate].
  all: destruct (Database.fetch_one db_error
                   (LeaveModel.Q_SELECT_EMPLOYEE_CREDITS
                      (LeaveModel.employee_id leave)) db) as [emp |];
    [| repeat split; auto; discriminate].
  all: destruct (int_or_0 (LeaveModel.leave_credits emp)
                 <? int_or_0 (LeaveModel.days_count leave));
    [repeat split; auto; discriminate |].
  all: destruct (db_error db
                   (Execute (LeaveStmt
                               (LeaveModel.Q_APPROVE now reviewer remarks
                                  leave_id))));
    cbn [negb]; [repeat split; auto; discriminate |].
  all: destruct (db_error _ (Execute (LeaveStmt
                                        (LeaveModel.Q_DEDUCT_CREDITS _ _))));
    repeat split; auto; discriminate.
Qed.

Lemma leave_review_is_the_same_in_every_controller_witness :
  fst (LeaveController.approve_leave no_error (at_ monday 9 0 0) 1 7 None
         (leave_db 3)) = leave_db 3.
Proof.
  apply (leave_review_is_the_same_in_every_controller no_error
           (at_ monday 9 0 0) 1 7 None (leave_db 3)).
  reflexivity.
Defined.

(** ** Rejecting a leave request *)

(** X17: [reject_leave] never touches a balance, and it does not ask
    for the request to be Pending.  On a server that raises no error,
    rejecting a request that has just been approved succeeds and turns
    it into a Rejected one with the second reviewer, while the employee's
    balance stays at [C - D]: the debit of the approval is kept. *)
Theorem rejecting_an_approved_leave_keeps_the_debit
  (now later : datetime) (leave_id reviewer reviewer' : Z)
  (remarks remarks' : option string) (db : Tables) (leave : LeaveModel.row)
  (C D : Z) :
  let approved :=
    fst (LeaveController.approve_leave no_error now leave_id reviewer remarks
           db) in
  let rejected :=
    LeaveController.reject_leave no_error later leave_id reviewer' remarks'
      approved in
  LeaveController.get_leave_by_id no_error leave_id db = Some leave ->
  Database.fetch_one no_error
    (LeaveModel.Q_SELECT_EMPLOYEE_CREDITS (LeaveModel.employee_id leave)) db
  = Some (LeaveModel.mk_credits (Some C)) ->
  LeaveModel.days_count leave = Some D ->
  D <= C ->
  snd rejected = (true, "Leave request rejected.")
  /\ LeaveController.get_leave_by_id no_error leave_id (fst rejected)
     = Some (review_leave Rejected reviewer' later remarks' leave)
  /\ LeaveController.get_employee_credits no_error
       (LeaveModel.employee_id leave) approved = Some (C - D)
  /\ LeaveController.get_employee_credits no_error
       (LeaveModel.employee_id leave) (fst rejected) = Some (C - D)
  /\ (forall db_error db0,
         employees
           (fst (LeaveController.reject_leave db_error later leave_id
                   reviewer' remarks' db0)) = employees db0).
Proof.
  intros approved rejected Hleave Hcredits Hdays Hle.
  assert (Happroved :
            approved
            = run_statement
                (LeaveStmt (LeaveModel.Q_DEDUCT_CREDITS (Some D)
                              (LeaveModel.employee_id leave)))
                (run_statement
                   (LeaveStmt
                      (LeaveModel.Q_APPROVE now reviewer remarks leave_id))
                   db)).
  { subst approved.
    rewrite (@approve_leave_runs no_error now leave_id reviewer remarks db
               leave (Some C) Hleave Hcredits)
      by (rewrite ?Hdays; simpl; auto; lia).
    now rewrite Hdays. }
  assert (Hcred : LeaveController.get_employee_credits no_error
                    (LeaveModel.employee_id leave) approved = Some (C - D)).
  { rewrite Happroved.
    apply (@credits_after_debit no_error (LeaveModel.employee_id leave)
             db _ (Some D) (Some C) Hcredits); reflexivity. }
  split; [reflexivity |]. split; [| split; [exact Hcred | split]].
  - assert (H1 : LeaveController.get_leave_by_id no_error leave_id approved
                 = Some (review_leave Approved reviewer now remarks leave)).
    { rewrite Happroved.
      apply (@leave_by_id_after_update no_error leave_id db _
               (review_leave Approved reviewer now remarks) leave Hleave);
        reflexivity. }
    apply (@leave_by_id_after_update no_error leave_id approved _
             (review_leave Rejected reviewer' later remarks')
             (review_leave Approved reviewer now remarks leave) H1);
      reflexivity.
  - exact Hcred.
  - intros db_error db0. unfold LeaveController.reject_leave,
      Database.execute_query.
    now destruct (db_error db0 _).
Qed.

Lemma rejecting_an_approved_leave_keeps_the_debit_witness :
  LeaveController.get_employee_credits no_error 1
    (fst (LeaveController.reject_leave no_error (at_ monday 10 0 0) 1 8 None
            (fst (LeaveController.approve_leave no_error (at_ monday 9 0 0)
                    1 7 None (leave_db 10))))) = Some (10 - 5).
Proof.
  apply (@rejecting_an_approved_leave_keeps_the_debit (at_ monday 9 0 0)
           (at_ monday 10 0 0) 1 7 8 None None (leave_db 10)
           (LeaveModel.mk_row 1 1 "Vacation" monday (monday + 4) (Some 5)
              "trip" None Pending None None None false) 10 5);
    try reflexivity.
  lia.
Defined.

(** ** Creating a request and finding it again *)

Lemma next_id_above (ids : list Z) (x : Z) : In x ids -> x < next_id ids.
Proof.
  unfold next_id. induction ids as [| a ids IH]; cbn [fold_right In];
    [tauto |].
  intros [-> | H]; [lia |]. specialize (IH H). lia.
Qed.

Lemma create_leave_request_inv (db_error : engine) (e : Z) (ty : string)
  (sd ed : date) (days : option Z) (why : string) (ev : option string)
  (db db' : Tables) (i : Z) :
  LeaveController.create_leave_request db_error e ty sd ed days why ev db
  = (db', Some i) ->
  db' = run_statement
          (LeaveStmt (LeaveModel.Q_INSERT e ty sd ed days why ev)) db
  /\ i = next_id (map LeaveModel.id (leave_requests db)).
Proof.
  unfold LeaveController.create_leave_request, Database.execute_query,
    Database.get_last_insert_id.
  destruct (db_error db (Execute _)); [discriminate |].
  destruct (db_error _ LastInsertId); [discriminate |].
  intros [= <- <-]. split; reflexivity.
Qed.

Lemma create_request_inv (db_error : engine) (e : Z) (d : date)
  (hours : num) (why : string) (db db' : Tables) (i : Z) :
  OvertimeController.create_request db_error e d hours why db
  = (db', Some i) ->
  db' = run_statement
          (OvertimeStmt (OvertimeModel.Q_INSERT e d hours why)) db
  /\ i = next_id (map OvertimeModel.id (overtime_requests db)).
Proof.
  unfold OvertimeController.create_request, Database.execute_query,
    Database.get_last_insert_id.
  destruct (db_error db (Execute _)); [discriminate |].
  destruct (db_error _ LastInsertId); [discriminate |].
  intros [= <- <-]. split; reflexivity.
Qed.

(** X18: a created request is found again.  When
    [create_leave_request] returns an id, that id is above every id the
    table held, one Pending row with the given fields is appended, and
    [get_leave_by_id] of that id returns this row; when [create_request]
    returns an id for an overtime request, the id is fresh,
    [has_pending_request] holds for its employee and date, and a further
    [submit_overtime] for them is refused as 'Duplicate Request'. *)
Theorem a_created_request_is_found_again
  (db_error : engine) (e : Z) (db db' : Tables) (i : Z) :
  (forall ty sd ed days why ev,
      LeaveController.create_leave_request db_error e ty sd ed days why ev db
      = (db', Some i) ->
      (forall r, In r (leave_requests db) -> LeaveModel.id r < i)
      /\ leave_requests db'
         = (leave_requests db
            ++ [pending_leave i e ty sd ed days why ev])%list
      /\ (db_error db' (Fetch (LeaveSelect (LeaveModel.Q_SELECT_BY_ID i)))
          = false ->
          LeaveController.get_leave_by_id db_error i db'
          = Some (pending_leave i e ty sd ed days why ev)))
  /\ (forall d hours why,
         OvertimeController.create_request db_error e d hours why db
         = (db', Some i) ->
         (forall r, In r (overtime_requests db) -> OvertimeModel.id r < i)
         /\ (db_error db'
               (Fetch (OvertimeSelect (OvertimeModel.Q_HAS_PENDING e d)))
             = false ->
             OvertimeController.has_pending_request db_error e d db' = true
             /\ forall hours' why',
                 why' <> "" ->
                 EmployeeDashboardView.submit_overtime db_error e d hours'
                   why' db' = (db', show_warning "Duplicate Request"))).
Proof.
  split.
  - intros ty sd ed days why ev Hcreate.
    apply create_leave_request_inv in Hcreate. destruct Hcreate as [-> ->].
    split; [| split; [reflexivity |]].
    + intros r Hr. apply next_id_above. now apply in_map.
    + intros Hfetch.
      unfold LeaveController.get_leave_by_id, Database.fetch_one.
      rewrite Hfetch.
      change (hd_error
                (filter (fun r => LeaveModel.id r
                                  =? next_id (map LeaveModel.id
                                                (leave_requests db)))
                   (leave_requests db
                    ++ [pending_leave
                          (next_id (map LeaveModel.id (leave_requests db)))
                          e ty sd ed days why ev]))
              = Some (pending_leave
                        (next_id (map LeaveModel.id (leave_requests db)))
                        e ty sd ed days why ev)).
      rewrite filter_app_last by apply Z.eqb_refl.
      rewrite filter_none; [reflexivity |].
      intros r Hr. apply Z.eqb_neq.
      pose proof (next_id_above _ _ (in_map LeaveModel.id _ _ Hr)). lia.
  - intros d hours why Hcreate.
    apply create_request_inv in Hcreate. destruct Hcreate as [-> ->].
    split.
    + intros r Hr. apply next_id_above. now apply in_map.
    + intros Hfetch.
      assert (Hpending :
                (0 < pending_overtime e d
                       (run_statement
                          (OvertimeStmt (OvertimeModel.Q_INSERT e d hours why))
                          db))%nat).
      { rewrite pending_overtime_insert, !Z.eqb_refl. simpl. lia. }
      assert (Hhas :
                StaffDashboardController.has_pending_overtime db_error e d
                  (run_statement
                     (OvertimeStmt (OvertimeModel.Q_INSERT e d hours why)) db)
                = true).
      { rewrite has_pending_overtime_counts by exact Hfetch.
        apply Z.ltb_lt. lia. }
      split; [exact Hhas |].
      intros hours' why' Hwhy.
      unfold EmployeeDashboardView.submit_overtime.
      apply String.eqb_neq in Hwhy. now rewrite Hwhy, Hhas.
Qed.

Lemma a_created_request_is_found_again_witness :
  LeaveController.get_leave_by_id no_error 2
    (fst (LeaveController.create_leave_request no_error 1 "Sick" monday
            monday (Some 1) "flu" None (leave_db 10)))
  = Some (pending_leave 2 1 "Sick" monday monday (Some 1) "flu" None).
Proof.
  apply (a_created_request_is_found_again no_error 1 (leave_db 10)
           (fst (LeaveController.create_leave_request no_error 1 "Sick"
                   monday monday (Some 1) "flu" None (leave_db 10))) 2);
    reflexivity.
Defined.

(** ** What the leave dialog lets through *)

(** X19: the leave dialog stores only validated requests.
    [submit_leave] either leaves the store as it is or appends one
    Pending request whose [days_count] is [end - start + 1], with
    [start <= end], [days_count] not above the credits shown in the
    dialog and a non-empty reason, and changes no balance; it refuses, in
    this order, an end before the start ('Invalid Dates'), more days than
    credits shown ('Insufficient Credits') and an empty reason ('Missing
    Reason'). *)
Theorem submit_leave_stores_only_validated_requests
  (db_error : engine) (e shown_credits : Z) (ty : string) (start end_ : date)
  (reason : string) (evidence : option string) (db : Tables) :
  let submitted :=
    EmployeeDashboardView.submit_leave db_error e shown_credits ty start end_
      reason evidence db in
  let days := end_ - start + 1 in
  (fst submitted = db
   \/ (start <= end_ /\ days <= shown_credits /\ reason <> ""
       /\ snd submitted = show_info "Success"
       /\ leave_requests (fst submitted)
          = (leave_requests db
             ++ [pending_leave
                   (next_id (map LeaveModel.id (leave_requests db)))
                   e ty start end_ (Some days) reason evidence])%list
       /\ employees (fst submitted) = employees db))
  /\ (end_ < start -> submitted = (db, show_warning "Invalid Dates"))
  /\ (start <= end_ -> shown_credits < days ->
      submitted = (db, show_warning "Insufficient Credits"))
  /\ (start <= end_ -> days <= shown_credits -> reason = "" ->
      submitted = (db, show_warning "Missing Reason")).
Proof.
  intros submitted days. subst submitted.
  unfold EmployeeDashboardView.submit_leave,
    StaffDashboardController.create_leave_request, Database.execute_query.
  fold days.
  destruct (Z.ltb_spec days 1) as [H1 | H1].
  { repeat split; auto; intros; subst days; lia. }
  destruct (Z.ltb_spec shown_credits days) as [H2 | H2].
  { repeat split; auto; intros; subst days; lia. }
  destruct (String.eqb_spec reason "") as [H3 | H3].
  { repeat split; auto; intros; subst days; lia. }
  destruct (db_error db (Execute _)); cbn [fst snd].
  { repeat split; auto; intros; subst days; try lia; congruence. }
  split; [| repeat split; intros; subst days; try lia; congruence].
  right. repeat split; auto. subst days. lia.
Qed.

Lemma submit_leave_stores_only_validated_requests_witness :
  EmployeeDashboardView.submit_leave no_error 1 3 "Vacation" monday
    (monday + 4) "trip" None (leave_db 3)
  = (leave_db 3, show_warning "Insufficient Credits").
Proof.
  apply (submit_leave_stores_only_validated_requests no_error 1 3 "Vacation"
           monday (monday + 4) "trip" None (leave_db 3)).
  - unfold monday. lia.
  - unfold monday. lia.
Defined.

(** ** The duplicate check when the count cannot be read *)

(** X20: the duplicate check of overtime requests fails open.  When
    the counting query raises, [has_pending_request] and
    [has_pending_overtime] answer False; [submit_overtime] then inserts
    the request (no Approved one being found, the INSERT running) and the
    number of Pending requests of that employee and date grows by one,
    whatever it was. *)
Theorem overtime_duplicate_check_fails_open
  (db_error : engine) (e : Z) (d : date) (hours : num) (reason : string)
  (db : Tables) :
  db_error db (Fetch (OvertimeSelect (OvertimeModel.Q_HAS_PENDING e d)))
  = true ->
  OvertimeController.has_pending_request db_error e d db = false
  /\ StaffDashboardController.has_pending_overtime db_error e d db = false
  /\ (reason <> "" ->
      StaffDashboardController.get_approved_overtime_for_date db_error e d db
      = None ->
      db_error db
        (Execute (OvertimeStmt (OvertimeModel.Q_INSERT e d hours reason)))
      = false ->
      snd (EmployeeDashboardView.submit_overtime db_error e d hours reason db)
      = show_info "Success"
      /\ pending_overtime e d
           (fst (EmployeeDashboardView.submit_overtime db_error e d hours
                   reason db))
         = S (pending_overtime e d db)).
Proof.
  intros Hfail.
  assert (Hhas : StaffDashboardController.has_pending_overtime db_error e d db
                 = false).
  { unfold StaffDashboardController.has_pending_overtime,
      Database.fetch_one. now rewrite Hfail. }
  split; [exact Hhas | split; [exact Hhas |]].
  intros Hwhy Happroved Hrun.
  unfold EmployeeDashboardView.submit_overtime.
  apply String.eqb_neq in Hwhy. rewrite Hwhy, Hhas, Happroved.
  unfold StaffDashboardController.create_overtime_request,
    Database.execute_query.
  rewrite Hrun. cbn [fst snd]. split; [reflexivity |].
  rewrite pending_overtime_insert, !Z.eqb_refl. simpl. lia.
Qed.

Lemma overtime_duplicate_check_fails_open_witness :
  pending_overtime 1 monday
    (fst (EmployeeDashboardView.submit_overtime count_fails 1 monday
            (NFloat 3) "again" pending_overtime_db)) = 2%nat.
Proof.
  apply (@overtime_duplicate_check_fails_open count_fails 1 monday (NFloat 3)
           "again" pending_overtime_db); try reflexivity.
  discriminate.
Defined.

(** ** Notifications are shown once *)

Lemma filter_update_where_kill {A : Type} (cond : A -> bool) (upd : A -> A)
  (rows : list A) :
  (forall r, cond r = true -> cond (upd r) = false) ->
  filter cond (update_where cond upd rows) = [].
Proof.
  intros Hkill. unfold update_where.
  induction rows as [| a rows IH]; simpl; [reflexivity |].
  destruct (cond a) eqn:Ha.
  - now rewrite (Hkill a Ha).
  - now rewrite Ha.
Qed.

Lemma filter_update_where_other {A : Type} (cond cond' : A -> bool)
  (upd : A -> A) (rows : list A) :
  (forall r, cond r = true -> cond' r = false /\ cond' (upd r) = false) ->
  filter cond' (update_where cond upd rows) = filter cond' rows.
Proof.
  intros Hother. unfold update_where.
  induction rows as [| a rows IH]; simpl; [reflexivity |].
  destruct (cond a) eqn:Ha.
  - destruct (Hother a Ha) as [-> ->]. exact IH.
  - destruct (cond' a); now rewrite IH.
Qed.

Lemma length_zero_nil {A : Type} (l : list A) : List.length l = 0%nat -> l = [].
Proof. destruct l; [reflexivity | discriminate]. Qed.

Lemma check_notifications_store (e : Z) (db : Tables) :
  let lists :=
    (StaffDashboardReview.get_unnotified_leave_reviews no_error e db,
     StaffDashboardReview.get_unnotified_overtime_reviews no_error e db,
     StaffDashboardReview.get_unnotified_late_consideration_reviews no_error
       e db) in
  EmployeeDashboardAttendance._check_notifications no_error e db
  = (run_statement
       (LateStmt (LateConsiderationModel.Q_MARK_ALL_NOTIFIED e))
       (run_statement (OvertimeStmt (OvertimeModel.Q_MARK_ALL_NOTIFIED e))
          (run_statement (LeaveStmt (LeaveModel.Q_MARK_ALL_NOTIFIED e)) db)),
     lists).
Proof.
  intros lists. subst lists.
  unfold EmployeeDashboardAttendance._check_notifications.
  unfold StaffDashboardReview.get_unnotified_leave_reviews,
    StaffDashboardReview.get_unnotified_overtime_reviews,
    StaffDashboardReview.get_unnotified_late_consideration_reviews,
    Database.fetch_all, no_error.
  destruct (Nat.eqb _ 0) eqn:Hzero; [| reflexivity].
  apply Nat.eqb_eq in Hzero.
  apply Nat.eq_add_0 in Hzero. destruct Hzero as [Hzero H3].
  apply Nat.eq_add_0 in Hzero. destruct Hzero as [H1 H2].
  apply length_zero_nil in H1, H2, H3.
  f_equal.
  change (run_select (LeaveSelect (LeaveModel.Q_SELECT_UNNOTIFIED e)) db)
    with (filter (fun r => (LeaveModel.employee_id r =? e)
                           && reviewed (LeaveModel.status r)
                           && negb (LeaveModel.employee_notified r))
            (leave_requests db)) in H1.
  change (run_select (OvertimeSelect (OvertimeModel.Q_SELECT_UNNOTIFIED e)) db)
    with (filter (fun r => (OvertimeModel.employee_id r =? e)
                           && reviewed (OvertimeModel.status r)
                           && negb (OvertimeModel.employee_notified r))
            (overtime_requests db)) in H2.
  change (run_select
            (LateSelect (LateConsiderationModel.Q_SELECT_UNNOTIFIED e)) db)
    with (filter (fun r => (LateConsiderationModel.employee_id r =? e)
                           && reviewed (LateConsiderationModel.status r)
                           && negb (LateConsiderationModel.employee_notified r))
            (late_considerations db)) in H3.
  unfold run_statement, run_late_stmt, run_overtime_stmt, run_leave_stmt.
  destruct db as [emps shs att leaves ots lates lid].
  cbn [leave_requests overtime_requests late_considerations
       set_leave_requests set_overtime_requests set_late_considerations
       employees shifts attendance last_insert_id] in *.
  rewrite (update_where_none _ notify_leave leaves),
    (update_where_none _ notify_overtime ots),
    (update_where_none _ notify_late lates); [reflexivity | | |].
  - intros r Hr. destruct (_ && _) eqn:C; [| reflexivity].
    assert (In r (filter (fun r => (LateConsiderationModel.employee_id r =? e)
                           && reviewed (LateConsiderationModel.status r)
                           && negb (LateConsiderationModel.employee_notified r))
                    lates)) by (apply filter_In; auto).
    rewrite H3 in H. destruct H.
  - intros r Hr. destruct (_ && _) eqn:C; [| reflexivity].
    assert (In r (filter (fun r => (OvertimeModel.employee_id r =? e)
                           && reviewed (OvertimeModel.status r)
                           && negb (OvertimeModel.employee_notified r))
                    ots)) by (apply filter_In; auto).
    rewrite H2 in H. destruct H.
  - intros r Hr. destruct (_ && _) eqn:C; [| reflexivity].
    assert (In r (filter (fun r => (LeaveModel.employee_id r =? e)
                           && reviewed (LeaveModel.status r)
                           && negb (LeaveModel.employee_notified r))
                    leaves)) by (apply filter_In; auto).
    rewrite H1 in H. destruct H.
Qed.

(** X21: notifications are shown once.  On a server that raises no
    error, [_check_notifications] announces exactly the reviewed, not yet
    notified leave, overtime and late-consideration requests of the
    employee; run again on the store it leaves, it announces nothing and
    changes nothing; the requests waiting for other employees, the
    balances and the attendance records are as before. *)
Theorem notifications_are_shown_once (e : Z) (db : Tables) :
  let first := EmployeeDashboardAttendance._check_notifications no_error e db
  in
  snd first
  = (LeaveController.get_unnotified_reviews no_error e db,
     OvertimeController.get_unnotified_reviews no_error e db,
     StaffDashboardReview.get_unnotified_late_consideration_reviews no_error
       e db)
  /\ EmployeeDashboardAttendance._check_notifications no_error e (fst first)
     = (fst first, ([], [], []))
  /\ (forall other, other <> e ->
        LeaveController.get_unnotified_reviews no_error other (fst first)
        = LeaveController.get_unnotified_reviews no_error other db
        /\ OvertimeController.get_unnotified_reviews no_error other
             (fst first)
           = OvertimeController.get_unnotified_reviews no_error other db
        /\ StaffDashboardReview.get_unnotified_late_consideration_reviews
             no_error other (fst first)
           = StaffDashboardReview.get_unnotified_late_consideration_reviews
               no_error other db)
  /\ employees (fst first) = employees db
  /\ attendance (fst first) = attendance db.
Proof.
  intros first. subst first. rewrite check_notifications_store.
  cbn [fst snd].
  split; [reflexivity |].
  set (db3 := run_statement _ _).
  assert (Hleave : StaffDashboardReview.get_unnotified_leave_reviews no_error
                     e db3 = []).
  { subst db3. destruct db. apply filter_update_where_kill.
    intros r H. cbn. now rewrite andb_false_r. }
  assert (Hot : StaffDashboardReview.get_unnotified_overtime_reviews no_error
                  e db3 = []).
  { subst db3. destruct db. apply filter_update_where_kill.
    intros r H. cbn. now rewrite andb_false_r. }
  assert (Hlate :
            StaffDashboardReview.get_unnotified_late_consideration_reviews
              no_error e db3 = []).
  { subst db3. destruct db. apply filter_update_where_kill.
    intros r H. cbn. now rewrite andb_false_r. }
  split; [| split; [| split]].
  - unfold EmployeeDashboardAttendance._check_notifications.
    now rewrite Hleave, Hot, Hlate.
  - intros other Hother.
    assert (Hne : (e =? other) = false) by (apply Z.eqb_neq; congruence).
    subst db3. destruct db. repeat split;
      apply filter_update_where_other; intros r H;
      apply andb_prop in H; destruct H as [H _];
      apply andb_prop in H; destruct H as [H _];
      apply Z.eqb_eq in H; cbn; rewrite H, Hne; auto.
  - subst db3. now destruct db.
  - subst db3. now destruct db.
Qed.

Lemma notifications_are_shown_once_witness :
  OvertimeController.get_unnotified_reviews no_error 2
    (fst (EmployeeDashboardAttendance._check_notifications no_error 1
            ledger_db))
  = OvertimeController.get_unnotified_reviews no_error 2 ledger_db.
Proof.
  apply (notifications_are_shown_once 1 ledger_db). discriminate.
Defined.

(** ** A review reaches the employee and is final *)

Lemma In_update_where_hit {A : Type} (cond : A -> bool) (upd : A -> A)
  (rows : list A) (r : A) :
  In r rows -> cond r = true -> In (upd r) (update_where cond upd rows).
Proof.
  intros Hin Hc. unfold update_where. apply in_map_iff.
  exists r. now rewrite Hc.
Qed.

(** X22: a review reaches the employee.  When an approval or rejection
    of a Pending, not yet notified overtime request runs, the reviewed
    request (with the reviewer, the time and the remarks of that call) is
    among the unnotified reviews of its employee; the same holds for
    late-consideration requests. *)
Theorem a_review_is_announced_to_its_employee
  (db_error : engine) (request_id : Z) (c : review_call) (db : Tables) :
  (forall r,
      In r (overtime_requests db) ->
      OvertimeModel.id r = request_id ->
      OvertimeModel.status r = Pending ->
      OvertimeModel.employee_notified r = false ->
      db_error db (Execute (overtime_stmt_of request_id c)) = false ->
      let after := fst (overtime_call db_error request_id c db) in
      db_error after
        (Fetch (OvertimeSelect
                  (OvertimeModel.Q_SELECT_UNNOTIFIED
                     (OvertimeModel.employee_id r)))) = false ->
      In (reviewed_overtime c r)
        (OvertimeController.get_unnotified_reviews db_error
           (OvertimeModel.employee_id r) after))
  /\ (forall r,
         In r (late_considerations db) ->
         LateConsiderationModel.id r = request_id ->
         LateConsiderationModel.status r = Pending ->
         LateConsiderationModel.employee_notified r = false ->
         db_error db (Execute (late_stmt_of request_id c)) = false ->
         let after := fst (late_call db_error request_id c db) in
         db_error after
           (Fetch (LateSelect
                     (LateConsiderationModel.Q_SELECT_UNNOTIFIED
                        (LateConsiderationModel.employee_id r)))) = false ->
         In (reviewed_late c r)
           (StaffDashboardReview.get_unnotified_late_consideration_reviews
              db_error (LateConsiderationModel.employee_id r) after)).
Proof.
  split.
  - intros r Hin Hid Hst Hflag Hrun after Hfetch. subst after.
    unfold OvertimeController.get_unnotified_reviews, Database.fetch_all.
    rewrite Hfetch.
    assert (Hcond : overtime_pending_id request_id r = true).
    { unfold overtime_pending_id. rewrite Hid, Hst, Z.eqb_refl. reflexivity. }
    destruct c as [now rb rem | now rb rem];
      unfold overtime_call, OvertimeController.approve_request,
        OvertimeController.reject_request, Database.execute_query;
      cbn [overtime_stmt_of] in Hrun; rewrite Hrun; cbn [fst];
      apply filter_In; (split;
        [ apply (In_update_where_hit _ _ _ r Hin Hcond)
        | cbn; now rewrite Z.eqb_refl, Hflag ]).
  - intros r Hin Hid Hst Hflag Hrun after Hfetch. subst after.
    unfold StaffDashboardReview.get_unnotified_late_consideration_reviews,
      Database.fetch_all.
    rewrite Hfetch.
    assert (Hcond : late_pending_id request_id r = true).
    { unfold late_pending_id. rewrite Hid, Hst, Z.eqb_refl. reflexivity. }
    destruct c as [now rb rem | now rb rem];
      unfold late_call, StaffDashboardController.approve_late_consideration,
        StaffDashboardController.reject_late_consideration,
        Database.execute_query;
      cbn [late_stmt_of] in Hrun; rewrite Hrun; cbn [fst];
      apply filter_In; (split;
        [ apply (In_update_where_hit _ _ _ r Hin Hcond)
        | cbn; now rewrite Z.eqb_refl, Hflag ]).
Qed.

Lemma a_review_is_announced_to_its_employee_witness :
  In (reviewed_overtime (ApproveCall (at_ monday 9 0 0) 7 None)
        (OvertimeModel.mk_row 1 1 monday (NFloat 2) "release" Pending
           None None None false))
    (OvertimeController.get_unnotified_reviews no_error 1
       (fst (overtime_call no_error 1 (ApproveCall (at_ monday 9 0 0) 7 None)
               pending_overtime_db))).
Proof.
  apply (proj1 (a_review_is_announced_to_its_employee no_error 1
                  (ApproveCall (at_ monday 9 0 0) 7 None)
                  pending_overtime_db)
           (OvertimeModel.mk_row 1 1 monday (NFloat 2) "release" Pending
              None None None false));
    try reflexivity.
  simpl. auto.
Defined.

Lemma overtime_terminal_after_review (request_id : Z) (c : review_call)
  (db : Tables) :
  overtime_terminal request_id
    (run_statement (overtime_stmt_of request_id c) db).
Proof.
  intros r' Hin Hid.
  assert (H : In r' (update_where (overtime_pending_id request_id)
                       (reviewed_overtime c) (overtime_requests db)))
    by (destruct c; exact Hin).
  apply In_update_where in H. destruct H as (r & _ & ->).
  destruct (overtime_pending_id request_id r) eqn:Hc.
  - destruct c; discriminate.
  - unfold overtime_pending_id in Hc. rewrite Hid, Z.eqb_refl in Hc.
    simpl in Hc. now destruct (OvertimeModel.status r).
Qed.

Lemma late_terminal_after_review (request_id : Z) (c : review_call)
  (db : Tables) :
  late_terminal request_id (run_statement (late_stmt_of request_id c) db).
Proof.
  intros r' Hin Hid.
  assert (H : In r' (update_where (late_pending_id request_id)
                       (reviewed_late c) (late_considerations db)))
    by (destruct c; exact Hin).
  apply In_update_where in H. destruct H as (r & _ & ->).
  destruct (late_pending_id request_id r) eqn:Hc.
  - destruct c; discriminate.
  - unfold late_pending_id in Hc. rewrite Hid, Z.eqb_refl in Hc.
    simpl in Hc. now destruct (LateConsiderationModel.status r).
Qed.

(** X23: the first review decides.  When an approval or rejection of an
    overtime request runs, no row with that id is Pending afterwards,
    every row that was Pending carries that decision, and any second
    approval or rejection of the same id leaves the store as the first
    one left it; the same holds for late-consideration requests. *)
Theorem the_first_review_decides
  (db_error : engine) (request_id : Z) (first second : review_call)
  (db : Tables) :
  (db_error db (Execute (overtime_stmt_of request_id first)) = false ->
   let after := fst (overtime_call db_error request_id first db) in
   overtime_terminal request_id after
   /\ fst (overtime_call db_error request_id second after) = after
   /\ forall r, In r (overtime_requests db) ->
                OvertimeModel.id r = request_id ->
                OvertimeModel.status r = Pending ->
                In (reviewed_overtime first r) (overtime_requests after))
  /\ (db_error db (Execute (late_stmt_of request_id first)) = false ->
      let after := fst (late_call db_error request_id first db) in
      late_terminal request_id after
      /\ fst (late_call db_error request_id second after) = after
      /\ forall r, In r (late_considerations db) ->
                   LateConsiderationModel.id r = request_id ->
                   LateConsiderationModel.status r = Pending ->
                   In (reviewed_late first r) (late_considerations after)).
Proof.
  split.
  - intros Hrun after.
    assert (Hafter : after = run_statement (overtime_stmt_of request_id first)
                               db).
    { subst after. destruct first;
        unfold overtime_call, OvertimeController.approve_request,
          OvertimeController.reject_request, Database.execute_query;
        cbn [overtime_stmt_of] in Hrun; now rewrite Hrun. }
    rewrite Hafter.
    pose proof (@overtime_terminal_after_review request_id first db) as Hterm.
    split; [exact Hterm | split].
    + now rewrite (@overtime_call_terminal db_error request_id second _ Hterm).
    + intros r Hin Hid Hst.
      assert (Hcond : overtime_pending_id request_id r = true).
      { unfold overtime_pending_id. now rewrite Hid, Hst, Z.eqb_refl. }
      destruct first; apply (In_update_where_hit _ _ _ r Hin Hcond).
  - intros Hrun after.
    assert (Hafter : after = run_statement (late_stmt_of request_id first) db).
    { subst after. destruct first;
        unfold late_call, StaffDashboardController.approve_late_consideration,
          StaffDashboardController.reject_late_consideration,
          Database.execute_query;
        cbn [late_stmt_of] in Hrun; now rewrite Hrun. }
    rewrite Hafter.
    pose proof (@late_terminal_after_review request_id first db) as Hterm.
    split; [exact Hterm | split].
    + now rewrite (@late_call_terminal db_error request_id second _ Hterm).
    + intros r Hin Hid Hst.
      assert (Hcond : late_pending_id request_id r = true).
      { unfold late_pending_id. now rewrite Hid, Hst, Z.eqb_refl. }
      destruct first; apply (In_update_where_hit _ _ _ r Hin Hcond).
Qed.

Lemma the_first_review_decides_witness :
  let after :=
    fst (overtime_call no_error 1 (ApproveCall (at_ monday 9 0 0) 7 None)
           pending_overtime_db) in
  fst (overtime_call no_error 1 (RejectCall (at_ monday 9 5 0) 8 (Some "no"))
         after) = after.
Proof.
  apply (the_first_review_decides no_error 1
           (ApproveCall (at_ monday 9 0 0) 7 None)
           (RejectCall (at_ monday 9 5 0) 8 (Some "no")) pending_overtime_db).
  reflexivity.
Defined.

(** ** Check-out: the lunch that is deducted *)

Lemma check_out_body (db_error : engine) (e : Z) (now : datetime)
  (db : Tables) (r : AttendanceModel.row) (res : hours_dict)
  (label : string) :
  AttendanceController.get_today_record db_error e now db = Some r ->
  truthy (AttendanceModel.time_out r) = false ->
  AttendanceController.compute_paid_hours (dt_date now)
    (AttendanceModel.time_in r) (PStr (strftime_HMS (dt_time now)))
    (AttendanceModel.lunch_start r) (AttendanceModel.lunch_end r) = Ok res ->
  AttendanceController.determine_status (dt_date now)
    (AttendanceModel.time_in r) (h_paid_hours res)
    (shift_start_of (AttendanceController._get_employee_shift db_error e db))
    (grace_period_of (AttendanceController._get_employee_shift db_error e db))
  = Ok label ->
  AttendanceController.check_out db_error e now db
  = Ok (graded_check_out db_error e now db label res).
Proof.
  intros Hrec Hout Hres Hlabel.
  unfold AttendanceController.check_out, graded_check_out.
  rewrite Hrec, Hout, Hres. cbn [bind].
  fold (shift_start_of (AttendanceController._get_employee_shift db_error e db)).
  fold (grace_period_of (AttendanceController._get_employee_shift db_error e db)).
  rewrite Hlabel. cbn [bind].
  unfold Database.execute_query, overtime_of.
  now destruct (db_error db (Execute _)).
Qed.

(** X24: [check_out] deducts a lunch only when it has both ends.  For a
    record not yet checked out whose [time_in] is read from the store,
    with a readable shift start and a grace period ending before
    midnight: when [lunch_start] or [lunch_end] is unset (an open lunch)
    the statement written carries [lunch_duration = 0] and
    [paid_hours = total_time = round(T, 2)]; when both are set it carries
    [round(L, 2)] and [paid_hours = round(T - L, 2)]; the label is graded
    on that [paid_hours], and the call reports success exactly when the
    UPDATE runs. *)
Theorem check_out_deducts_only_a_closed_lunch
  (db_error : engine) (e : Z) (now : datetime) (db : Tables)
  (r : AttendanceModel.row) (d_in s_in start : Z) :
  let shift := AttendanceController._get_employee_shift db_error e db in
  let grace := grace_period_of shift in
  let total := NFloat (hours_f (seconds_of (dt_time now) - s_in)) in
  let label := fun paid =>
    status_label (start + grace * 60 <? s_in) (num_ge paid (NInt 8)) in
  AttendanceController.get_today_record db_error e now db = Some r ->
  truthy (AttendanceModel.time_out r) = false ->
  AttendanceModel.time_in r = PTimedelta d_in ->
  reads_as (PTimedelta d_in) s_in ->
  valid_time (dt_time now) ->
  reads_as (shift_start_of shift) start ->
  0 <= start + grace * 60 < 86400 ->
  (truthy (AttendanceModel.lunch_start r)
   && truthy (AttendanceModel.lunch_end r) = false ->
   AttendanceController.check_out db_error e now db
   = Ok (graded_check_out db_error e now db (label (round2 total))
           (mk_hours (round2 total) (NInt 0) (round2 total))))
  /\ (forall ls le,
         truthy (AttendanceModel.lunch_start r)
         && truthy (AttendanceModel.lunch_end r) = true ->
         reads_as (AttendanceModel.lunch_start r) ls ->
         reads_as (AttendanceModel.lunch_end r) le ->
         let lunch := NFloat (hours_f (le - ls)) in
         AttendanceController.check_out db_error e now db
         = Ok (graded_check_out db_error e now db
                 (label (round2 (num_sub total lunch)))
                 (mk_hours (round2 total) (round2 lunch)
                    (round2 (num_sub total lunch))))).
Proof.
  intros shift grace total label Hrec Hout Hin Hread Hv Hstart Hgrace.
  assert (Hread' : reads_as (AttendanceModel.time_in r) s_in)
    by now rewrite Hin.
  destruct (compute_paid_hours_seconds (dt_date now)
              (AttendanceModel.lunch_start r) (AttendanceModel.lunch_end r)
              Hread' (reads_as_strftime Hv)) as [Hno Hyes].
  assert (Hlabel : forall paid,
             AttendanceController.determine_status (dt_date now)
               (AttendanceModel.time_in r) paid (shift_start_of shift) grace
             = Ok (label paid)).
  { intros paid. apply determine_status_reads_as; auto.
    left. exists d_in. exact Hin. }
  split.
  - intros Hlunch. apply (check_out_body _ _ _ _ Hrec Hout).
    + now apply Hno.
    + apply Hlabel.
  - intros ls le Hlunch Hls Hle lunch.
    apply (check_out_body _ _ _ _ Hrec Hout).
    + now apply Hyes.
    + apply Hlabel.
Qed.

Lemma check_out_deducts_only_a_closed_lunch_witness :
  let total := NFloat (hours_f (61200 - 28800)) in
  let lunch := NFloat (hours_f (46800 - 43200)) in
  AttendanceController.check_out no_error 1 (at_ monday 17 0 0) lunched_db
  = Ok (graded_check_out no_error 1 (at_ monday 17 0 0) lunched_db
          (status_label (28800 + 15 * 60 <? 28800)
             (num_ge (round2 (num_sub total lunch)) (NInt 8)))
          (mk_hours (round2 total) (round2 lunch)
             (round2 (num_sub total lunch)))).
Proof.
  apply (@check_out_deducts_only_a_closed_lunch no_error 1
           (at_ monday 17 0 0) lunched_db
           (with_lunch_end (hms 13 0 0)
              (with_lunch_start (hms 12 0 0)
                 (checked_in_row 1 1 monday (mk_time 8 0 0 0))))
           28800000000 28800 28800).
  - reflexivity.
  - reflexivity.
  - reflexivity.
  - split; [lia | split; lia].
  - unfold valid_time. simpl. lia.
  - split; [lia | vm_compute; split; [discriminate | reflexivity]].
  - vm_compute. split; [discriminate | reflexivity].
  - reflexivity.
  - split; [lia | vm_compute; split; [discriminate | reflexivity]].
  - split; [lia | vm_compute; split; [discriminate | reflexivity]].
Defined.

(** ** Reads that fail *)

(** X25: a read that fails looks like a missing record.  When the
    query for today's record raises, the lunch and check-out guards and
    [check_out] answer 'Not Checked In' and write nothing, and the page
    enables the check-in button only; [can_check_in], with no shift
    resolved on a day other than Sunday, allows, and the check-in
    handler then adds a record of today to however many the store
    holds. *)
Theorem a_failed_read_looks_like_a_missing_record
  (db_error : engine) (e : Z) (now : datetime) (db : Tables) :
  db_error db
    (Fetch (AttendanceSelect (AttendanceModel.Q_GET_TODAY e (dt_date now))))
  = true ->
  AttendanceController.can_start_lunch db_error e now db
  = Ok (false, "Not Checked In", "Please check in first.", "warning")
  /\ AttendanceController.can_end_lunch db_error e now db
     = (false, "Not Checked In", "Please check in first.", "warning")
  /\ AttendanceController.can_check_out db_error e now db
     = (false, "Not Checked In", "You have not checked in today.", "warning")
  /\ AttendanceController.check_out db_error e now db
     = Ok (db, (false, "Not Checked In", "You have not checked in today.",
                "warning"))
  /\ EmployeeDashboardAttendance.update_button_states
       (AttendanceController.get_today_record db_error e now db)
     = mk_buttons true false false false
  /\ (weekday (dt_date now) <> 6 ->
      AttendanceController._get_employee_shift db_error e db = None ->
      AttendanceController.can_check_in db_error e now db
      = (true, "", "", "")
      /\ forall later,
          dt_date later = dt_date now ->
          db_error db
            (Execute (AttendanceStmt
                        (AttendanceModel.Q_CHECK_IN e (dt_date later)
                           (strftime_HMS (dt_time later))))) = false ->
          records_of e (dt_date now)
            (fst (EmployeeDashboardAttendance.handle_check_in db_error e now
                    later true db))
          = S (records_of e (dt_date now) db)).
Proof.
  intros Hfail.
  assert (Hrec : AttendanceController.get_today_record db_error e now db
                 = None).
  { unfold AttendanceController.get_today_record, Database.fetch_one.
    now rewrite Hfail. }
  unfold AttendanceController.can_start_lunch,
    AttendanceController.can_end_lunch, AttendanceController.can_check_out,
    AttendanceController.check_out.
  rewrite Hrec.
  do 5 (split; [reflexivity |]).
  intros Hday Hshift.
  assert (Hguard : AttendanceController.can_check_in db_error e now db
                   = (true, "", "", "")).
  { unfold AttendanceController.can_check_in.
    apply Z.eqb_neq in Hday. now rewrite Hday, Hrec, Hshift. }
  split; [exact Hguard |].
  intros later Hdate Hrun.
  unfold EmployeeDashboardAttendance.handle_check_in.
  rewrite Hguard. cbn [allowed fst negb].
  unfold AttendanceController.check_in, Database.execute_query.
  rewrite Hrun. cbv beta iota delta [fst].
  rewrite records_of_check_in, Hdate, !Z.eqb_refl. simpl. lia.
Qed.

Lemma a_failed_read_looks_like_a_missing_record_witness :
  AttendanceController.check_out reads_fail 1 (at_ monday 17 0 0) morning_db
  = Ok (morning_db, (false, "Not Checked In",
                     "You have not checked in today.", "warning")).
Proof.
  apply (a_failed_read_looks_like_a_missing_record reads_fail 1
           (at_ monday 17 0 0) morning_db).
  reflexivity.
Defined.

(** ** One live overtime request per employee and date *)

Lemma live_overtime_insert (e e' : Z) (d d' : date) (hours : num)
  (why : string) (db : Tables) :
  live_overtime e' d'
    (run_statement (OvertimeStmt (OvertimeModel.Q_INSERT e d hours why)) db)
  = (live_overtime e' d' db
     + (if Z.eqb e e' && Z.eqb d d' then 1 else 0))%nat.
Proof.
  unfold live_overtime. simpl. rewrite filter_app, length_app. f_equal.
  simpl. now destruct (Z.eqb e e' && Z.eqb d d').
Qed.

(** X26: the overtime dialog keeps at most one live (Pending or
    Approved) request per employee and date, as long as its two lookups
    do not fail: [submit_overtime] writes nothing when such a request
    exists, and with a reason given and no Pending request it answers
    'Already Approved' when an Approved one exists. *)
Theorem submit_overtime_keeps_one_live_request
  (db_error : engine) (e : Z) (d : date) (hours : num) (reason : string)
  (db : Tables) :
  let submitted :=
    EmployeeDashboardView.submit_overtime db_error e d hours reason db in
  db_error db (Fetch (OvertimeSelect (OvertimeModel.Q_HAS_PENDING e d)))
  = false ->
  db_error db
    (Fetch (OvertimeSelect (OvertimeModel.Q_SELECT_APPROVED_FOR_DATE e d)))
  = false ->
  ((forall e' d', (live_overtime e' d' db <= 1)%nat) ->
   forall e' d', (live_overtime e' d' (fst submitted) <= 1)%nat)
  /\ ((0 < live_overtime e d db)%nat -> fst submitted = db)
  /\ (reason <> "" -> pending_overtime e d db = 0%nat ->
      (0 < live_overtime e d db)%nat ->
      submitted = (db, show_warning "Already Approved")).
Proof.
  intros submitted Hcount Happroved. subst submitted.
  unfold EmployeeDashboardView.submit_overtime.
  rewrite has_pending_overtime_counts by exact Hcount.
  unfold StaffDashboardController.get_approved_overtime_for_date,
    Database.fetch_one.
  rewrite Happroved.
  change (run_select
            (OvertimeSelect (OvertimeModel.Q_SELECT_APPROVED_FOR_DATE e d)) db)
    with (filter (fun r => (OvertimeModel.employee_id r =? e)
                           && (OvertimeModel.request_date r =? d)
                           && status_eqb (OvertimeModel.status r) Approved)
            (overtime_requests db)).
  assert (Hlive :
            pending_overtime e d db = 0%nat ->
            hd_error
              (filter (fun r => (OvertimeModel.employee_id r =? e)
                                && (OvertimeModel.request_date r =? d)
                                && status_eqb (OvertimeModel.status r) Approved)
                 (overtime_requests db)) = None ->
            live_overtime e d db = 0%nat).
  { intros Hp Ha. apply length_zero_nil in Hp. apply hd_error_None in Ha.
    unfold live_overtime. rewrite filter_none; [reflexivity |].
    intros r Hr.
    destruct ((OvertimeModel.employee_id r =? e)
              && (OvertimeModel.request_date r =? d)) eqn:Hkey;
      [| reflexivity].
    destruct (OvertimeModel.status r) eqn:Hst; simpl; [ | | reflexivity].
    - assert (Hin : In r (filter (overtime_pending_for e d)
                            (overtime_requests db))).
      { apply filter_In. split; [exact Hr |].
        unfold overtime_pending_for. now rewrite Hkey, Hst. }
      rewrite Hp in Hin. destruct Hin.
    - assert (Hin : In r (filter
                            (fun r => (OvertimeModel.employee_id r =? e)
                                      && (OvertimeModel.request_date r =? d)
                                      && status_eqb (OvertimeModel.status r)
                                           Approved)
                            (overtime_requests db))).
      { apply filter_In. split; [exact Hr |]. now rewrite Hkey, Hst. }
      rewrite Ha in Hin. destruct Hin. }
  destruct (String.eqb_spec reason "") as [Hempty | Hreason]; cbn [fst].
  { repeat split; auto. intros. congruence. }
  destruct (Z.ltb_spec 0 (Z.of_nat (pending_overtime e d db))) as [Hp | Hp];
    cbn [fst].
  { repeat split; auto. intros. lia. }
  destruct (hd_error _) as [existing |] eqn:Ha; cbn [fst].
  { repeat split; auto. }
  assert (Hzero : live_overtime e d db = 0%nat) by (apply Hlive; [lia | auto]).
  unfold StaffDashboardController.create_overtime_request,
    Database.execute_query.
  destruct (db_error db (Execute _)); cbv beta iota delta [fst].
  { repeat split; auto; intros; lia. }
  repeat split; try (intros; lia).
  intros Hinv e' d'. rewrite live_overtime_insert.
  destruct (Z.eqb e e' && Z.eqb d d') eqn:Heq.
  - apply andb_prop in Heq. destruct Heq as [He Hd].
    apply Z.eqb_eq in He, Hd. subst e' d'. rewrite Hzero. lia.
  - specialize (Hinv e' d'). lia.
Qed.

Lemma submit_overtime_keeps_one_live_request_witness :
  EmployeeDashboardView.submit_overtime no_error 1 monday (NFloat 1) "more"
    reviewed_db = (reviewed_db, show_warning "Already Approved").
Proof.
  apply (@submit_overtime_keeps_one_live_request no_error 1 monday (NFloat 1)
           "more" reviewed_db); try reflexivity.
  - discriminate.
  - vm_compute. reflexivity.
Defined.
